(** * bankGO: credential handling and route authorization

    A shallow embedding of the bank-account REST service (types, storage.go,
    api.go, main.go) together with executable models of the third-party
    packages its token path goes through (crypto/sha256, crypto/hmac,
    encoding/base64, encoding/json, strconv, golang-jwt/jwt/v4).

    Go strings and byte slices are [string]; Go's [int] and [int64] are [Z]
    with the 64-bit range written out where the code depends on it; a pointer
    that may be nil is an [option]; a Go [error] is an [option string] or the
    left side of a sum. *)

From stdpp Require Import gmap strings list.
From Stdlib Require Import ZArith Lia Ascii DecimalString DecimalFacts DecimalPos DecimalZ.
Local Open Scope Z_scope.
Set Warnings "-register-all,-abstract-large-number".

(** ** Bytes *)

Definition byte_of (a : ascii) : Z := Z.of_N (N_of_ascii a).
Definition ascii_of (b : Z) : ascii := ascii_of_N (Z.to_N b).

Definition bytes_of_string (s : string) : list Z :=
  map byte_of (String.list_ascii_of_string s).

Definition string_of_bytes (bs : list Z) : string :=
  String.string_of_list_ascii (map ascii_of bs).

(** ** crypto/sha256, crypto/sha512 (FIPS 180-4) *)

Module sha2.
Definition first_primes : list Z :=
  [2;3;5;7;11;13;17;19;23;29;31;37;41;43;47;53;59;61;67;71;73;79;83;89;97;
   101;103;107;109;113;127;131;137;139;149;151;157;163;167;173;179;181;191;
   193;197;199;211;223;227;229;233;239;241;251;257;263;269;271;277;281;283;
   293;307;311;313;317;331;337;347;349;353;359;367;373;379;383;389;397;401;
   409].

Record params := {
  wbits : Z;  rounds : nat;  iv_skip : nat;  out_len : nat;
  S0 : Z * Z * Z;  S1 : Z * Z * Z;  s0 : Z * Z * Z;  s1 : Z * Z * Z }.

Definition SHA256 := {| wbits := 32; rounds := 64%nat; iv_skip := 0%nat; out_len := 32%nat;
  S0 := (2, 13, 22); S1 := (6, 11, 25); s0 := (7, 18, 3); s1 := (17, 19, 10) |}.
Definition SHA512 := {| wbits := 64; rounds := 80%nat; iv_skip := 0%nat; out_len := 64%nat;
  S0 := (28, 34, 39); S1 := (14, 18, 41); s0 := (1, 8, 7); s1 := (19, 61, 6) |}.
Definition SHA384 := {| wbits := 64; rounds := 80%nat; iv_skip := 8%nat; out_len := 48%nat;
  S0 := (28, 34, 39); S1 := (14, 18, 41); s0 := (1, 8, 7); s1 := (19, 61, 6) |}.

Section Hash.
Variable P : params.
Let w := wbits P.
Let wbytes := Z.to_nat (w / 8).

Definition mask (x : Z) : Z := x mod 2 ^ w.

(* Integer cube root, one bit at a time from the top. *)
Definition icbrt (n : Z) : Z :=
  fold_left (fun r i => let c := r + 2 ^ Z.of_nat i in
                        if c * c * c <=? n then c else r)
            (rev (seq 0 (Z.to_nat w + 4))) 0.

(* Round constants: fractional parts of the cube roots of the primes;
   initial state: fractional parts of their square roots. *)
Definition K : list Z :=
  map (fun p => mask (icbrt (p * 2 ^ (3 * w)))) (take (rounds P) first_primes).
Definition H0 : list Z :=
  map (fun p => mask (Z.sqrt (p * 2 ^ (2 * w)))) (take 8 (drop (iv_skip P) first_primes)).

Definition rotr (n x : Z) : Z := Z.lor (Z.shiftr x n) (mask (Z.shiftl x (w - n))).
Definition add (x y : Z) : Z := mask (x + y).
Definition Ch (x y z : Z) := Z.lxor (Z.land x y) (Z.land (Z.lxor x (2 ^ w - 1)) z).
Definition Maj (x y z : Z) := Z.lxor (Z.lxor (Z.land x y) (Z.land x z)) (Z.land y z).
Definition big (c : Z * Z * Z) (x : Z) :=
  let '(a, b, d) := c in Z.lxor (Z.lxor (rotr a x) (rotr b x)) (rotr d x).
Definition small (c : Z * Z * Z) (x : Z) :=
  let '(a, b, d) := c in Z.lxor (Z.lxor (rotr a x) (rotr b x)) (Z.shiftr x d).

Definition be_bytes (n : nat) (x : Z) : list Z :=
  map (fun i => Z.land (Z.shiftr x (8 * Z.of_nat i)) 255) (rev (seq 0 n)).
Definition be_word (bs : list Z) : Z := fold_left (fun acc b => acc * 256 + b) bs 0.

Definition pad (msg : list Z) : list Z :=
  let len := Z.of_nat (List.length msg) in
  let block := 2 * w in
  let k := (block - 1 - 2 * Z.of_nat wbytes - len) mod block in
  msg ++ [128] ++ replicate (Z.to_nat k) 0 ++ be_bytes (2 * wbytes) (8 * len).

Fixpoint chunks (fuel n : nat) (l : list Z) : list (list Z) :=
  match fuel with
  | O => []
  | S fuel' => match l with
               | [] => []
               | _ => take n l :: chunks fuel' n (drop n l)
               end
  end.

(* Message schedule; while it is built the newest word is at the head. *)
Definition schedule (block : list Z) : list Z :=
  let w16 := rev (map be_word (chunks 16 wbytes block)) in
  rev (fold_left (fun ws _ =>
         add (add (small (s1 P) (nth 1 ws 0)) (nth 6 ws 0))
             (add (small (s0 P) (nth 14 ws 0)) (nth 15 ws 0)) :: ws)
       (seq 16 (rounds P - 16)) w16).

Definition round (st : list Z) (kw : Z * Z) : list Z :=
  match st with
  | [a; b; c; d; e; f; g; h] =>
      let t1 := add (add (add h (big (S1 P) e)) (add (Ch e f g) (fst kw))) (snd kw) in
      let t2 := add (big (S0 P) a) (Maj a b c) in
      [add t1 t2; a; b; c; add d t1; e; f; g]
  | _ => st
  end.

Definition compress (st block : list Z) : list Z :=
  zip_with add st (fold_left round (zip K (schedule block)) st).

Definition sum (msg : list Z) : list Z :=
  let p := pad msg in
  take (out_len P)
    (concat (map (be_bytes wbytes)
       (fold_left compress (chunks (List.length p) (Z.to_nat (2 * w)) p) H0))).
End Hash.
End sha2.

(** ** crypto/hmac (RFC 2104) *)

Module hmac.
Definition block_size (P : sha2.params) : nat := Z.to_nat (2 * sha2.wbits P).

Definition mac (P : sha2.params) (key msg : string) : string :=
  let kb := bytes_of_string key in
  let kb := if (block_size P <? List.length kb)%nat then sha2.sum P kb else kb in
  let k := kb ++ replicate (block_size P - List.length kb) 0 in
  string_of_bytes
    (sha2.sum P (map (Z.lxor 92) k
                 ++ sha2.sum P (map (Z.lxor 54) k ++ bytes_of_string msg))).
End hmac.

(** ** encoding/base64: RawURLEncoding (URL alphabet, no padding) *)

Module base64.
Definition alphabet : list ascii :=
  String.list_ascii_of_string
    "ABCDEFGHIJKLMNOPQRSTUVWXYZabcdefghijklmnopqrstuvwxyz0123456789-_".

Definition enc_char (i : Z) : ascii := nth (Z.to_nat i) alphabet "A"%char.

Fixpoint index_of (c : ascii) (l : list ascii) (i : Z) : option Z :=
  match l with
  | [] => None
  | x :: l' => if Ascii.eqb x c then Some i else index_of c l' (i + 1)
  end.

Definition dec_char (c : ascii) : option Z := index_of c alphabet 0.

(* Three bytes make a 24-bit value, written as four characters. *)
Fixpoint EncodeToString (s : string) : string :=
  match s with
  | EmptyString => EmptyString
  | String a EmptyString =>
      let n := byte_of a in
      String (enc_char (n / 4)) (String (enc_char (n mod 4 * 16)) EmptyString)
  | String a (String b EmptyString) =>
      let n := byte_of a * 256 + byte_of b in
      String (enc_char (n / 1024))
        (String (enc_char (n / 16 mod 64))
           (String (enc_char (n mod 16 * 4)) EmptyString))
  | String a (String b (String c rest)) =>
      let n := byte_of a * 65536 + byte_of b * 256 + byte_of c in
      String (enc_char (n / 262144))
        (String (enc_char (n / 4096 mod 64))
           (String (enc_char (n / 64 mod 64))
              (String (enc_char (n mod 64)) (EncodeToString rest))))
  end.

(* The decoder skips carriage returns and line feeds. *)
Fixpoint sextets (s : string) : option (list Z) :=
  match s with
  | EmptyString => Some []
  | String c rest =>
      if Ascii.eqb c "010"%char || Ascii.eqb c "013"%char then sextets rest
      else match dec_char c, sextets rest with
           | Some i, Some l => Some (i :: l)
           | _, _ => None
           end
  end.

(* Not strict: the unused low bits of a final short group are dropped. *)
Fixpoint unquad (l : list Z) : option string :=
  match l with
  | [] => Some EmptyString
  | [_] => None
  | [a; b] => Some (String (ascii_of (a * 4 + b / 16)) EmptyString)
  | [a; b; c] =>
      Some (String (ascii_of (a * 4 + b / 16))
              (String (ascii_of (b mod 16 * 16 + c / 4)) EmptyString))
  | a :: b :: c :: d :: rest =>
      match unquad rest with
      | Some t =>
          Some (String (ascii_of (a * 4 + b / 16))
                  (String (ascii_of (b mod 16 * 16 + c / 4))
                     (String (ascii_of (c mod 4 * 64 + d)) t)))
      | None => None
      end
  end.

Definition DecodeString (s : string) : option string :=
  match sextets s with
  | Some l => unquad l
  | None => None
  end.
End base64.

(** ** Characters *)

Definition dq : ascii := "034"%char.       (* the double quote *)
Definition bslash : ascii := "092"%char.

Definition chr (c : ascii) : string := String c EmptyString.
Definition quoted (s : string) : string := String dq (s +:+ chr dq).

Definition is_digit (c : ascii) : bool :=
  ((48 <=? N_of_ascii c) && (N_of_ascii c <=? 57))%N.

Fixpoint span_digits (s : string) : string * string :=
  match s with
  | String c r =>
      if is_digit c then let '(d, r') := span_digits r in (String c d, r')
      else (EmptyString, s)
  | EmptyString => (EmptyString, EmptyString)
  end.

Definition hex_val (c : ascii) : option N :=
  let n := N_of_ascii c in
  if ((48 <=? n) && (n <=? 57))%N then Some (n - 48)%N
  else if ((97 <=? n) && (n <=? 102))%N then Some (n - 87)%N
  else if ((65 <=? n) && (n <=? 70))%N then Some (n - 55)%N
  else None.

Definition hex_digit (n : N) : ascii :=
  nth (N.to_nat n) (String.list_ascii_of_string "0123456789abcdef") "0"%char.

(* UTF-8 encoding of a code point below 0x110000. *)
Definition utf8 (r : N) : string :=
  let b n := ascii_of_N n in
  (if r <? 128 then chr (b r)
   else if r <? 2048 then String (b (192 + r / 64)) (chr (b (128 + r mod 64)))
   else if r <? 65536 then
     String (b (224 + r / 4096))
       (String (b (128 + r / 64 mod 64)) (chr (b (128 + r mod 64))))
   else
     String (b (240 + r / 262144))
       (String (b (128 + r / 4096 mod 64))
          (String (b (128 + r / 64 mod 64)) (chr (b (128 + r mod 64))))))%N.

(* The length in bytes of the UTF-8 sequence a string starts with (no
   overlong form, no surrogate, nothing above U+10FFFF), and 0 where the
   string is empty or starts with a byte that starts no such sequence:
   there utf8.DecodeRune gives RuneError with width 1. *)
Definition is_cont (c : ascii) : bool :=
  ((128 <=? N_of_ascii c) && (N_of_ascii c <=? 191))%N.

Definition rune_len (s : string) : nat :=
  match s with
  | EmptyString => 0%nat
  | String b0 r =>
      let n0 := N_of_ascii b0 in
      (if n0 <? 128 then 1%nat
       else if (194 <=? n0) && (n0 <=? 223) then
         match r with
         | String b1 _ => if is_cont b1 then 2%nat else 0%nat
         | _ => 0%nat
         end
       else if (224 <=? n0) && (n0 <=? 239) then
         match r with
         | String b1 (String b2 _) =>
             let n1 := N_of_ascii b1 in
             if ((if n0 =? 224 then 160 else 128) <=? n1)
                && (n1 <=? (if n0 =? 237 then 159 else 191))
                && is_cont b2
             then 3%nat else 0%nat
         | _ => 0%nat
         end
       else if (240 <=? n0) && (n0 <=? 244) then
         match r with
         | String b1 (String b2 (String b3 _)) =>
             let n1 := N_of_ascii b1 in
             if ((if n0 =? 240 then 144 else 128) <=? n1)
                && (n1 <=? (if n0 =? 244 then 143 else 191))
                && is_cont b2 && is_cont b3
             then 4%nat else 0%nat
         | _ => 0%nat
         end
       else 0%nat)%N
  end.

(** ** Decimal integers (strconv.FormatInt, strconv.ParseInt, strconv.Atoi) *)

Module strconv.
Definition min_int64 : Z := - 2 ^ 63.
Definition max_int64 : Z := 2 ^ 63 - 1.
Definition in_int64 (z : Z) : bool := (min_int64 <=? z) && (z <=? max_int64).

Definition FormatInt (z : Z) : string := NilZero.string_of_int (Z.to_int z).

(* A non-empty run of decimal digits. *)
Definition parse_digits (s : string) : option Z :=
  match s with
  | EmptyString => None
  | _ => match NilEmpty.uint_of_string s with
         | Some u => Some (Z.of_uint u)
         | None => None
         end
  end.

(* Digits after an optional sign, of any size. *)
Definition parse_digits_signed (s : string) : option Z :=
  match s with
  | String c r =>
      if Ascii.eqb c "-" then option_map Z.opp (parse_digits r)
      else if Ascii.eqb c "+" then parse_digits r
      else parse_digits s
  | EmptyString => None
  end.

(* ParseInt(s, 10, 64): an optional sign, digits, and the int64 range. *)
Definition ParseInt (s : string) : option Z :=
  match parse_digits_signed s with
  | Some z => if in_int64 z then Some z else None
  | None => None
  end.

(* Atoi is ParseInt(s, 10, 0) with int being 64 bits wide. *)
Definition Atoi (s : string) : option Z := ParseInt s.
End strconv.

(** ** encoding/json *)

Module json.
Inductive value :=
| Null
| Bool (b : bool)
| Number (lit : string)
| Str (s : string)
| Array (l : list value)
| Object (l : list (string * value)).

Definition is_ws (c : ascii) : bool :=
  Ascii.eqb c " " || Ascii.eqb c "009" || Ascii.eqb c "010" || Ascii.eqb c "013".

Fixpoint skip_ws (s : string) : string :=
  match s with
  | String c r => if is_ws c then skip_ws r else s
  | EmptyString => s
  end.

Definition maxNestingDepth : Z := 10000.

(** *** Scanning *)

(* number = [-] (0 | [1-9] digits) [. digits+] [(e|E) [+|-] digits+] *)
Definition scan_unsigned (s1 : string) : option (string * string) :=
  let int_part :=
    match s1 with
    | String c r =>
        if Ascii.eqb c "0" then Some (chr c, r)
        else if is_digit c then Some (span_digits s1)
        else None
    | EmptyString => None
    end in
  match int_part with
  | None => None
  | Some (ip, s2) =>
      let frac :=
        match s2 with
        | String c r =>
            if Ascii.eqb c "." then
              match span_digits r with
              | (EmptyString, _) => None
              | (fs, r') => Some (String c fs, r')
              end
            else Some (EmptyString, s2)
        | EmptyString => Some (EmptyString, s2)
        end in
      match frac with
      | None => None
      | Some (fp, s3) =>
          let expo :=
            match s3 with
            | String c r =>
                if Ascii.eqb c "e" || Ascii.eqb c "E" then
                  let '(sg, r1) :=
                    match r with
                    | String d r0 =>
                        if Ascii.eqb d "+" || Ascii.eqb d "-" then (chr d, r0)
                        else (EmptyString, r)
                    | EmptyString => (EmptyString, r)
                    end in
                  match span_digits r1 with
                  | (EmptyString, _) => None
                  | (es, r') => Some (String c (sg +:+ es), r')
                  end
                else Some (EmptyString, s3)
            | EmptyString => Some (EmptyString, s3)
            end in
          match expo with
          | None => None
          | Some (ep, s4) => Some (ip +:+ fp +:+ ep, s4)
          end
      end
  end.

Definition scan_number (s : string) : option (string * string) :=
  let '(sign, s1) :=
    match s with
    | String c r => if Ascii.eqb c "-" then (chr c, r) else (EmptyString, s)
    | EmptyString => (EmptyString, s)
    end in
  match scan_unsigned s1 with
  | Some (lit, rest) => Some (sign +:+ lit, rest)
  | None => None
  end.

Definition hex4 (a b c d : ascii) : option N :=
  match hex_val a, hex_val b, hex_val c, hex_val d with
  | Some x, Some y, Some z, Some w => Some (x * 4096 + y * 256 + z * 16 + w)%N
  | _, _, _, _ => None
  end.

Definition simple_escape (e : ascii) : option ascii :=
  if Ascii.eqb e dq then Some dq
  else if Ascii.eqb e bslash then Some bslash
  else if Ascii.eqb e "/" then Some "/"%char
  else if Ascii.eqb e "b" then Some "008"%char
  else if Ascii.eqb e "f" then Some "012"%char
  else if Ascii.eqb e "n" then Some "010"%char
  else if Ascii.eqb e "r" then Some "013"%char
  else if Ascii.eqb e "t" then Some "009"%char
  else None.

Definition is_surrogate (r : N) : bool := ((55296 <=? r) && (r <? 57344))%N.
Definition replacement : N := 65533%N.

(* The text after an opening quote, up to the closing one, unquoted.
   A UTF-8 sequence is taken as it comes; a byte above 0x7f that starts
   none becomes U+FFFD. *)
Fixpoint scan_string (s : string) : option (string * string) :=
  match s with
  | EmptyString => None
  | String c r =>
      if Ascii.eqb c dq then Some (EmptyString, r)
      else if Ascii.eqb c bslash then
        match r with
        | EmptyString => None
        | String e r1 =>
            if Ascii.eqb e "u" then
              match r1 with
              | String h1 (String h2 (String h3 (String h4 r5))) =>
                  match hex4 h1 h2 h3 h4 with
                  | None => None
                  | Some hi =>
                      let single :=
                        match scan_string r5 with
                        | Some (t, rest) =>
                            Some (utf8 (if is_surrogate hi then replacement else hi) +:+ t,
                                  rest)
                        | None => None
                        end in
                      if ((55296 <=? hi) && (hi <? 56320))%N then
                        match r5 with
                        | String b1 (String u1
                            (String l1 (String l2 (String l3 (String l4 r11))))) =>
                            if Ascii.eqb b1 bslash && Ascii.eqb u1 "u" then
                              match hex4 l1 l2 l3 l4 with
                              | Some lo =>
                                  if ((56320 <=? lo) && (lo <? 57344))%N then
                                    match scan_string r11 with
                                    | Some (t, rest) =>
                                        Some (utf8 ((hi - 55296) * 1024
                                                    + (lo - 56320) + 65536)%N +:+ t,
                                              rest)
                                    | None => None
                                    end
                                  else single
                              | None => single
                              end
                            else single
                        | _ => single
                        end
                      else single
                  end
              | _ => None
              end
            else
              match simple_escape e, scan_string r1 with
              | Some ch, Some (t, rest) => Some (String ch t, rest)
              | _, _ => None
              end
        end
      else if (N_of_ascii c <? 32)%N then None
      else if (N_of_ascii c <? 128)%N then
        match scan_string r with
        | Some (t, rest) => Some (String c t, rest)
        | None => None
        end
      else
        match rune_len s, r with
        | 2%nat, String b1 r2 =>
            match scan_string r2 with
            | Some (t, rest) => Some (String c (String b1 t), rest)
            | None => None
            end
        | 3%nat, String b1 (String b2 r3) =>
            match scan_string r3 with
            | Some (t, rest) => Some (String c (String b1 (String b2 t)), rest)
            | None => None
            end
        | 4%nat, String b1 (String b2 (String b3 r4)) =>
            match scan_string r4 with
            | Some (t, rest) =>
                Some (String c (String b1 (String b2 (String b3 t))), rest)
            | None => None
            end
        | _, _ =>
            match scan_string r with
            | Some (t, rest) => Some (utf8 replacement +:+ t, rest)
            | None => None
            end
        end
  end.

Definition expect (lit : string) (v : value) (s : string) : option (value * string) :=
  if String.prefix lit s
  then Some (v, String.substring (String.length lit)
                  (String.length s - String.length lit) s)
  else None.

(** *** Values.  [fuel] bounds the number of values and members read,
    [depth] counts the arrays and objects that are open. *)
Fixpoint parse_value (fuel : nat) (depth : Z) (s : string) : option (value * string) :=
  match fuel with
  | O => None
  | S fuel' =>
      match skip_ws s with
      | EmptyString => None
      | String c r =>
          if Ascii.eqb c "{" then
            if maxNestingDepth <? depth + 1 then None
            else match skip_ws r with
                 | String c' r' =>
                     if Ascii.eqb c' "}" then Some (Object [], r')
                     else parse_members fuel' (depth + 1) r []
                 | EmptyString => None
                 end
          else if Ascii.eqb c "[" then
            if maxNestingDepth <? depth + 1 then None
            else match skip_ws r with
                 | String c' r' =>
                     if Ascii.eqb c' "]" then Some (Array [], r')
                     else parse_elements fuel' (depth + 1) r []
                 | EmptyString => None
                 end
          else if Ascii.eqb c dq then
            match scan_string r with
            | Some (t, rest) => Some (Str t, rest)
            | None => None
            end
          else if Ascii.eqb c "-" || is_digit c then
            match scan_number (String c r) with
            | Some (lit, rest) => Some (Number lit, rest)
            | None => None
            end
          else if Ascii.eqb c "t" then expect "true" (Bool true) (String c r)
          else if Ascii.eqb c "f" then expect "false" (Bool false) (String c r)
          else if Ascii.eqb c "n" then expect "null" Null (String c r)
          else None
      end
  end
with parse_members (fuel : nat) (depth : Z) (s : string) (acc : list (string * value))
  : option (value * string) :=
  match fuel with
  | O => None
  | S fuel' =>
      match skip_ws s with
      | String c r =>
          if Ascii.eqb c dq then
            match scan_string r with
            | Some (k, r1) =>
                match skip_ws r1 with
                | String c1 r2 =>
                    if Ascii.eqb c1 ":" then
                      match parse_value fuel' depth r2 with
                      | Some (v, r3) =>
                          match skip_ws r3 with
                          | String c3 r4 =>
                              if Ascii.eqb c3 "," then
                                parse_members fuel' depth r4 (acc ++ [(k, v)])
                              else if Ascii.eqb c3 "}" then
                                Some (Object (acc ++ [(k, v)]), r4)
                              else None
                          | EmptyString => None
                          end
                      | None => None
                      end
                    else None
                | EmptyString => None
                end
            | None => None
            end
          else None
      | EmptyString => None
      end
  end
with parse_elements (fuel : nat) (depth : Z) (s : string) (acc : list value)
  : option (value * string) :=
  match fuel with
  | O => None
  | S fuel' =>
      match parse_value fuel' depth s with
      | Some (v, r1) =>
          match skip_ws r1 with
          | String c r2 =>
              if Ascii.eqb c "," then parse_elements fuel' depth r2 (acc ++ [v])
              else if Ascii.eqb c "]" then Some (Array (acc ++ [v]), r2)
              else None
          | EmptyString => None
          end
      | None => None
      end
  end.

Definition parse (s : string) : option (value * string) :=
  parse_value (2 + String.length s) 0 s.

(* json.Unmarshal: exactly one value, then only white space. *)
Definition Unmarshal (s : string) : option value :=
  match parse s with
  | Some (v, rest) =>
      match skip_ws rest with EmptyString => Some v | _ => None end
  | None => None
  end.

(* Decoder.Decode on a fresh stream: the first value.  What follows it
   stays unread: the scanner ends the value at the first byte that cannot
   continue it and complains about that byte only on the next call. *)
Definition Decode (s : string) : option value :=
  match parse s with
  | Some (v, _) => Some v
  | None => None
  end.

(** *** Printing (json.Marshal of a value tree, with HTML escaping on) *)

(* A byte below 0x80 inside a string (as of Go 1.22; earlier releases
   wrote backspace and form feed as \u0008 and \u000c). *)
Definition escape_char (c : ascii) : string :=
  let n := N_of_ascii c in
  if Ascii.eqb c dq || Ascii.eqb c bslash then String bslash (chr c)
  else if Ascii.eqb c "008" then String bslash "b"
  else if Ascii.eqb c "012" then String bslash "f"
  else if Ascii.eqb c "010" then String bslash "n"
  else if Ascii.eqb c "013" then String bslash "r"
  else if Ascii.eqb c "009" then String bslash "t"
  else if (n <? 32)%N || Ascii.eqb c "<" || Ascii.eqb c ">" || Ascii.eqb c "&" then
    String bslash ("u00" +:+ chr (hex_digit (n / 16)) +:+ chr (hex_digit (n mod 16)))
  else chr c.

(* U+2028 and U+2029 are the bytes e2 80 a8 and e2 80 a9. *)
Definition is_line_separator (b0 b1 b2 : ascii) : bool :=
  Ascii.eqb b0 "226" && Ascii.eqb b1 "128" && (Ascii.eqb b2 "168" || Ascii.eqb b2 "169").

(* Printing goes front to back into what follows: [k] is the text after
   the value.  A UTF-8 sequence is copied, but for U+2028 and U+2029,
   which are written as escapes; a byte above 0x7f that starts no sequence
   is written as the escape of U+FFFD. *)
Fixpoint escape_to (s : string) (k : string) : string :=
  match s with
  | EmptyString => k
  | String c r =>
      if (N_of_ascii c <? 128)%N then escape_char c +:+ escape_to r k
      else
        match rune_len s, r with
        | 2%nat, String b1 r2 => String c (String b1 (escape_to r2 k))
        | 3%nat, String b1 (String b2 r3) =>
            if is_line_separator c b1 b2
            then String bslash ("u202" +:+ chr (hex_digit (N_of_ascii b2 mod 16)))
                 +:+ escape_to r3 k
            else String c (String b1 (String b2 (escape_to r3 k)))
        | 4%nat, String b1 (String b2 (String b3 r4)) =>
            String c (String b1 (String b2 (String b3 (escape_to r4 k))))
        | _, _ => String bslash "ufffd" +:+ escape_to r k
        end
  end.

Definition escape (s : string) : string := escape_to s EmptyString.

Fixpoint encode_to (v : value) (k : string) : string :=
  match v with
  | Null => "null" +:+ k
  | Bool true => "true" +:+ k
  | Bool false => "false" +:+ k
  | Number lit => lit +:+ k
  | Str s => String dq (escape_to s (String dq k))
  | Array l =>
      String "[" ((fix elems (l : list value) : string :=
                     match l with
                     | [] => String "]" k
                     | [x] => encode_to x (String "]" k)
                     | x :: l' => encode_to x (String "," (elems l'))
                     end) l)
  | Object l =>
      String "{" ((fix members (l : list (string * value)) : string :=
                     match l with
                     | [] => String "}" k
                     | [(key, x)] =>
                         String dq (escape_to key
                           (String dq (String ":" (encode_to x (String "}" k)))))
                     | (key, x) :: l' =>
                         String dq (escape_to key
                           (String dq (String ":" (encode_to x (String "," (members l'))))))
                     end) l)
  end.

Definition encode (v : value) : string := encode_to v EmptyString.
End json.

(** ** Errors *)

Inductive result (A : Type) :=
| Ok (a : A)
| Err (e : string).
Arguments Ok {A} a.
Arguments Err {A} e.

Definition bind {A B} (r : result A) (k : A -> result B) : result B :=
  match r with
  | Ok a => k a
  | Err e => Err e
  end.

Definition is_ok {A} (r : result A) : bool :=
  match r with Ok _ => true | Err _ => false end.

(** ** float64, as far as a JSON number reaches it *)

Module float64.
(* The finite value [mant * 2 ^ expo]. *)
Record t := mk { mant : Z; expo : Z }.

Definition zero : t := mk 0 0.
Definition is_zero (f : t) : bool := mant f =? 0.

(* num / den = n / d * 2 ^ e for the pair (n, d) that [scaled] gives. *)
Definition scaled (a den e : Z) : Z * Z :=
  if 0 <=? e then (a, den * 2 ^ e) else (a * 2 ^ (- e), den).

(* The exponent at which a / den has a 53-bit integer part, not below the
   exponent of the subnormal numbers. *)
Definition exponent (a den : Z) : Z :=
  let e0 := Z.log2 a - Z.log2 den - 52 in
  let '(n, d) := scaled a den e0 in
  let e1 := if n / d <? 2 ^ 52 then e0 - 1 else e0 in
  Z.max e1 (-1074).

(* n / d rounded to the nearest integer, a tie to the even one. *)
Definition round_even (n d : Z) : Z :=
  let q := n / d in
  let r := n mod d in
  if (d <? 2 * r) || ((d =? 2 * r) && Z.odd q) then q + 1 else q.

(* The binary64 nearest to num / den (den > 0); None when the rounded value
   does not fit the format. *)
Definition round_rat (num den : Z) : option t :=
  let a := Z.abs num in
  if a =? 0 then Some zero
  else
    let e := exponent a den in
    let '(n, d) := scaled a den e in
    let q := round_even n d in
    if (971 <? e) || ((e =? 971) && (2 ^ 53 <=? q)) then None
    else Some (mk (Z.sgn num * q) e).

(* strconv.ParseFloat(lit, 64) on a literal of the JSON number grammar:
   sign, integer digits, fraction digits and decimal exponent. *)
Definition ParseFloat (lit : string) : option t :=
  let '(neg, s) :=
    match lit with
    | String c r => if Ascii.eqb c "-" then (true, r) else (false, lit)
    | EmptyString => (false, lit)
    end in
  let '(ip, s1) := span_digits s in
  let '(fp, s2) :=
    match s1 with
    | String c r => if Ascii.eqb c "." then span_digits r else (EmptyString, s1)
    | EmptyString => (EmptyString, s1)
    end in
  let ex :=
    match s2 with
    | EmptyString => Some 0
    | String c r =>
        if Ascii.eqb c "e" || Ascii.eqb c "E" then strconv.parse_digits_signed r
        else None
    end in
  match strconv.parse_digits (ip +:+ fp), ex with
  | Some m, Some x =>
      let m := if neg then - m else m in
      let e10 := x - Z.of_nat (String.length fp) in
      if 0 <=? e10 then round_rat (m * 10 ^ e10) 1
      else round_rat m (10 ^ (- e10))
  | _, _ => None
  end.

(* The conversion int64(f): the fraction is dropped; outside the int64
   range the result is the one amd64 gives. *)
Definition to_int64 (f : t) : Z :=
  let z := if 0 <=? expo f then mant f * 2 ^ expo f
           else Z.quot (mant f) (2 ^ (- expo f)) in
  if strconv.in_int64 z then z else strconv.min_int64.
End float64.

(** ** Go values behind an [interface{}] *)

Inductive any :=
| Nil
| BoolV (b : bool)
| Int (z : Z)                      (* int and int64 *)
| Float64 (f : float64.t)
| StringV (s : string)
| Slice (l : list any)
| Map (m : list (string * any)).

(* The dynamic type of an interface value, as the runtime names it in a
   failed type assertion; a missing map entry is the nil interface. *)
Definition type_name (v : option any) : string :=
  match v with
  | None | Some Nil => "nil"
  | Some (BoolV _) => "bool"
  | Some (Int _) => "int64"
  | Some (Float64 _) => "float64"
  | Some (StringV _) => "string"
  | Some (Slice _) => "[]interface {}"
  | Some (Map _) => "map[string]interface {}"
  end.

(** A [map[string]T]: an association list that holds each key once. *)
Section GoMap.
Context {T : Type}.

Fixpoint map_get (k : string) (m : list (string * T)) : option T :=
  match m with
  | [] => None
  | (k', v) :: m' => if String.eqb k' k then Some v else map_get k m'
  end.

Fixpoint map_set (k : string) (v : T) (m : list (string * T)) : list (string * T) :=
  match m with
  | [] => [(k, v)]
  | (k', v') :: m' =>
      if String.eqb k' k then (k, v) :: m' else (k', v') :: map_set k v m'
  end.

(* Keys in byte order, as json.Marshal writes a map. *)
Fixpoint insert_sorted (kv : string * T) (m : list (string * T)) : list (string * T) :=
  match m with
  | [] => [kv]
  | kv' :: m' =>
      if String.leb (fst kv) (fst kv') then kv :: m else kv' :: insert_sorted kv m'
  end.

Definition sort_keys (m : list (string * T)) : list (string * T) :=
  fold_right insert_sorted [] m.
End GoMap.

Module gojson.
(* Marshal of a dynamic value.  The service never marshals a float, and
   the float formatter is not part of this model. *)
Fixpoint to_json (v : any) : result json.value :=
  match v with
  | Nil => Ok json.Null
  | BoolV b => Ok (json.Bool b)
  | Int z => Ok (json.Number (strconv.FormatInt z))
  | Float64 _ => Err "json: float formatting is outside the model"
  | StringV s => Ok (json.Str s)
  | Slice l =>
      bind ((fix go (l : list any) : result (list json.value) :=
               match l with
               | [] => Ok []
               | x :: l' => bind (to_json x) (fun j => bind (go l') (fun js => Ok (j :: js)))
               end) l)
           (fun js => Ok (json.Array js))
  | Map m =>
      bind ((fix go (m : list (string * any)) : result (list (string * json.value)) :=
               match m with
               | [] => Ok []
               | (k, x) :: m' =>
                   bind (to_json x) (fun j => bind (go m') (fun js => Ok ((k, j) :: js)))
               end) m)
           (fun js => Ok (json.Object (sort_keys js)))
  end.

Definition Marshal (v : any) : result string :=
  bind (to_json v) (fun j => Ok (json.encode j)).

(* Unmarshal into an [interface{}]: numbers become float64. *)
Fixpoint of_json (j : json.value) : result any :=
  match j with
  | json.Null => Ok Nil
  | json.Bool b => Ok (BoolV b)
  | json.Number lit =>
      match float64.ParseFloat lit with
      | Some f => Ok (Float64 f)
      | None => Err "json: cannot unmarshal number into Go value of type float64"
      end
  | json.Str s => Ok (StringV s)
  | json.Array l =>
      bind ((fix go (l : list json.value) : result (list any) :=
               match l with
               | [] => Ok []
               | x :: l' => bind (of_json x) (fun v => bind (go l') (fun vs => Ok (v :: vs)))
               end) l)
           (fun vs => Ok (Slice vs))
  | json.Object l =>
      bind ((fix go (l : list (string * json.value)) (acc : list (string * any))
               : result (list (string * any)) :=
               match l with
               | [] => Ok acc
               | (k, x) :: l' => bind (of_json x) (fun v => go l' (map_set k v acc))
               end) l [])
           (fun m => Ok (Map m))
  end.

(* Unmarshal into a [map[string]interface{}]: an object fills the map,
   null leaves it as it is, anything else is a type error. *)
Definition to_map (j : json.value) : result (list (string * any)) :=
  match j with
  | json.Null => Ok []
  | json.Object _ =>
      match of_json j with
      | Ok (Map m) => Ok m
      | Ok _ => Err "json: cannot unmarshal into Go value of type map"
      | Err e => Err e
      end
  | _ => Err "json: cannot unmarshal into Go value of type map"
  end.
End gojson.

(** ** strings *)

Module strings.
(* strings.Split(s, sep) for a separator of one byte. *)
Fixpoint Split (s : string) (sep : ascii) : list string :=
  match s with
  | EmptyString => [EmptyString]
  | String c r =>
      if Ascii.eqb c sep then EmptyString :: Split r sep
      else match Split r sep with
           | x :: xs => String c x :: xs
           | [] => [chr c]
           end
  end.
End strings.

(** ** github.com/golang-jwt/jwt/v4 *)

Module jwt.
Inductive SigningMethod :=
| SigningMethodHMAC (alg : string) (hash : sha2.params)
| SigningMethodOther (alg : string).       (* RSA, RSA-PSS, ECDSA, Ed25519, none *)

Definition SigningMethodHS256 := SigningMethodHMAC "HS256" sha2.SHA256.
Definition SigningMethodHS384 := SigningMethodHMAC "HS384" sha2.SHA384.
Definition SigningMethodHS512 := SigningMethodHMAC "HS512" sha2.SHA512.

Definition Alg (m : SigningMethod) : string :=
  match m with
  | SigningMethodHMAC alg _ => alg
  | SigningMethodOther alg => alg
  end.

Definition other_methods : list string :=
  ["RS256"; "RS384"; "RS512"; "PS256"; "PS384"; "PS512";
   "ES256"; "ES384"; "ES512"; "EdDSA"; "none"].

Definition GetSigningMethod (alg : string) : option SigningMethod :=
  if String.eqb alg "HS256" then Some SigningMethodHS256
  else if String.eqb alg "HS384" then Some SigningMethodHS384
  else if String.eqb alg "HS512" then Some SigningMethodHS512
  else if existsb (String.eqb alg) other_methods then Some (SigningMethodOther alg)
  else None.

Definition MapClaims := list (string * any).

Record Token := {
  Raw : string;
  Method : SigningMethod;
  Header : list (string * any);
  Claims : MapClaims;
  Signature : string;
  Valid : bool }.

Definition EncodeSegment (seg : string) : string := base64.EncodeToString seg.

Definition DecodeSegment (seg : string) : result string :=
  match base64.DecodeString seg with
  | Some b => Ok b
  | None => Err "illegal base64 data"
  end.

(** *** Signing *)

Definition NewWithClaims (method : SigningMethod) (claims : MapClaims) : Token :=
  {| Raw := EmptyString;
     Method := method;
     Header := [("typ", StringV "JWT"); ("alg", StringV (Alg method))];
     Claims := claims;
     Signature := EmptyString;
     Valid := false |}.

Definition SigningString (t : Token) : result string :=
  bind (gojson.Marshal (Map (Header t))) (fun h =>
  bind (gojson.Marshal (Map (Claims t))) (fun c =>
  Ok (EncodeSegment h +:+ "." +:+ EncodeSegment c))).

(* The key handed to Sign and Verify is a byte slice throughout the
   service; the HMAC methods take one of any length. *)
Definition Sign (m : SigningMethod) (signingString key : string) : result string :=
  match m with
  | SigningMethodHMAC _ h => Ok (EncodeSegment (hmac.mac h key signingString))
  | SigningMethodOther _ => Err "key is of invalid type"
  end.

Definition SignedString (t : Token) (key : string) : result string :=
  bind (SigningString t) (fun sstr =>
  bind (Sign (Method t) sstr key) (fun sig =>
  Ok (sstr +:+ "." +:+ sig))).

(** *** Parsing *)

Definition Verify (m : SigningMethod) (signingString signature key : string)
  : result unit :=
  match m with
  | SigningMethodHMAC _ h =>
      bind (DecodeSegment signature) (fun sig =>
      if String.eqb sig (hmac.mac h key signingString) then Ok tt
      else Err "signature is invalid")
  | SigningMethodOther _ => Err "key is of invalid type"
  end.

Definition decode_json (err : string) (o : option json.value) : result json.value :=
  match o with
  | Some j => Ok j
  | None => Err err
  end.

Definition ParseUnverified (tokenString : string) : result (Token * list string) :=
  match strings.Split tokenString "." with
  | [p0; p1; p2] =>
      bind (DecodeSegment p0) (fun headerBytes =>
      bind (decode_json "invalid character in token header"
              (json.Unmarshal headerBytes)) (fun hj =>
      bind (gojson.to_map hj) (fun header =>
      bind (DecodeSegment p1) (fun claimBytes =>
      bind (decode_json "invalid character in token claims"
              (json.Decode claimBytes)) (fun cj =>
      bind (gojson.to_map cj) (fun claims =>
      match map_get "alg" header with
      | Some (StringV alg) =>
          match GetSigningMethod alg with
          | Some method =>
              Ok ({| Raw := tokenString; Method := method; Header := header;
                     Claims := claims; Signature := EmptyString; Valid := false |},
                  [p0; p1; p2])
          | None => Err "signing method (alg) is unavailable."
          end
      | _ => Err "signing method (alg) is unspecified."
      end))))))
  | _ => Err "token contains an invalid number of segments"
  end.

Section Validation.
(* Whether a registered time claim (exp, iat, nbf) with the given
   non-zero value passes against the clock at the time of the call. *)
Variable time_ok : string -> float64.t -> bool.

Definition verify_time_claim (name : string) (m : MapClaims) : bool :=
  match map_get name m with
  | None => true
  | Some (Float64 f) => if float64.is_zero f then true else time_ok name f
  | Some _ => false
  end.

Definition MapClaims_Valid (m : MapClaims) : result unit :=
  if negb (verify_time_claim "exp" m) then Err "Token is expired"
  else if negb (verify_time_claim "iat" m) then Err "Token used before issued"
  else if negb (verify_time_claim "nbf" m) then Err "Token is not valid yet"
  else Ok tt.

Definition Parse (tokenString : string) (keyFunc : Token -> result string)
  : result Token :=
  bind (ParseUnverified tokenString) (fun '(token, parts) =>
  bind (keyFunc token) (fun key =>
  match parts with
  | [p0; p1; p2] =>
      let claims_res := MapClaims_Valid (Claims token) in
      let sig_res := Verify (Method token) (p0 +:+ "." +:+ p1) p2 key in
      match claims_res, sig_res with
      | Ok _, Ok _ =>
          Ok {| Raw := Raw token; Method := Method token; Header := Header token;
                Claims := Claims token; Signature := p2; Valid := true |}
      | Err e, _ => Err e
      | Ok _, Err e => Err e
      end
  | _ => Err "token contains an invalid number of segments"
  end)).
End Validation.
End jwt.

(** ** net/http and chi, as far as the handlers use them *)

Module http.
Definition StatusOK : Z := 200.
Definition StatusBadRequest : Z := 400.
Definition StatusForbidden : Z := 403.

Definition is_token_char (c : ascii) : bool :=
  let n := N_of_ascii c in
  ((48 <=? n) && (n <=? 57) || (65 <=? n) && (n <=? 90) || (97 <=? n) && (n <=? 122))%N
  || existsb (Ascii.eqb c) (String.list_ascii_of_string "!#$%&'*+-.^_`|~").

Definition upper (c : ascii) : ascii :=
  let n := N_of_ascii c in
  if ((97 <=? n) && (n <=? 122))%N then ascii_of_N (n - 32) else c.
Definition lower (c : ascii) : ascii :=
  let n := N_of_ascii c in
  if ((65 <=? n) && (n <=? 90))%N then ascii_of_N (n + 32) else c.

Fixpoint canonical (up : bool) (s : string) : string :=
  match s with
  | EmptyString => EmptyString
  | String c r =>
      String (if up then upper c else lower c) (canonical (Ascii.eqb c "-") r)
  end.

(* textproto.CanonicalMIMEHeaderKey *)
Definition CanonicalMIMEHeaderKey (s : string) : string :=
  if forallb is_token_char (String.list_ascii_of_string s) then canonical true s else s.

Record Request := {
  Method : string;
  Header : gmap string (list string);     (* under canonical keys *)
  URLParams : gmap string string;         (* chi's route context *)
  Body : string }.

Definition Header_Get (r : Request) (key : string) : string :=
  match Header r !! CanonicalMIMEHeaderKey key with
  | Some (v :: _) => v
  | _ => EmptyString
  end.

(* chi.URLParam: the empty string when the route has no such parameter. *)
Definition URLParam (r : Request) (key : string) : string :=
  default EmptyString (URLParams r !! key).

(* The calls made on a ResponseWriter, oldest first. *)
Inductive WriterCall :=
| HeaderAdd (k v : string)
| WriteHeader (status : Z)
| Write (bytes : string).

(* What the client receives: the status of the first WriteHeader (200
   when a Write comes first) and the bytes written, in order. *)
Fixpoint status_of (calls : list WriterCall) : option Z :=
  match calls with
  | [] => None
  | WriteHeader st :: _ => Some st
  | Write _ :: _ => Some StatusOK
  | HeaderAdd _ _ :: rest => status_of rest
  end.

Fixpoint body_of (calls : list WriterCall) : string :=
  match calls with
  | [] => EmptyString
  | Write b :: rest => b +:+ body_of rest
  | _ :: rest => body_of rest
  end.
End http.

(** ** Computations that change a state and may panic *)

Inductive outcome (S A : Type) :=
| Val (a : A) (s : S)
| Panic (msg : string) (s : S).
Arguments Val {S A} a s.
Arguments Panic {S A} msg s.

Definition M (S A : Type) : Type := S -> outcome S A.

Definition ret {S A} (a : A) : M S A := fun s => Val a s.

Definition mbind' {S A B} (c : M S A) (k : A -> M S B) : M S B :=
  fun s => match c s with
           | Val a s' => k a s'
           | Panic msg s' => Panic msg s'
           end.

Definition panic {S A} (msg : string) : M S A := fun s => Panic msg s.

Notation "x <<- c ;; k" := (mbind' c (fun x => k))
  (at level 100, c at next level, right associativity).
Notation "c ;;; k" := (mbind' c (fun _ => k))
  (at level 100, right associativity).

Definition nil_deref : string :=
  "runtime error: invalid memory address or nil pointer dereference".

(** ** Types of the service *)

Record CreateAccountRequest := {
  car_FirstName : string;
  car_LastName : string;
  car_Password : string }.

Record LoginRequest := {
  lr_Number : Z;
  lr_Password : string }.

Record LoginReponse := {
  resp_Number : Z;
  resp_Token : string }.

Record TransferRequest := {
  ToAccount : Z;
  Amount : Z }.

Record Account := {
  ID : Z;
  FirstName : string;
  LastName : string;
  Number : Z;
  Balance : Z;
  CreatedAt : Z;                   (* a time.Time, as an instant *)
  EncryptedPassword : string }.

Record APIError := { Error : string }.

(** *** Struct tags.  A field is its Go name, the text of its [json] tag
    and its value; encoding/json leaves a field tagged [-] out and names the
    others by the tag. *)

Record field (V : Type) := mkfield { go_name : string; json_tag : string; fvalue : V }.
Arguments mkfield {V}.
Arguments go_name {V}.
Arguments json_tag {V}.
Arguments fvalue {V}.

Definition tag_name (tag : string) : string :=
  match strings.Split tag "," with
  | n :: _ => n
  | [] => EmptyString
  end.

Definition json_name {V} (f : field V) : option string :=
  if String.eqb (json_tag f) "-" then None
  else if String.eqb (tag_name (json_tag f)) EmptyString then Some (go_name f)
  else Some (tag_name (json_tag f)).

Definition marshal_struct (fs : list (field json.value)) : json.value :=
  json.Object
    (omap (fun f => match json_name f with
                    | Some n => Some (n, fvalue f)
                    | None => None
                    end) fs).

Definition jint (z : Z) : json.value := json.Number (strconv.FormatInt z).

(** *** Decoding an object into a struct of ints and strings *)

Inductive kind := KInt | KString.

Inductive fv :=
| FInt (z : Z)
| FStr (s : string).

Definition zero_of (k : kind) : fv :=
  match k with KInt => FInt 0 | KString => FStr EmptyString end.

(* Names are compared under Unicode simple case folding.  The names of
   the fields are ASCII, and besides the ASCII letters only U+017F (bytes c5 bf)
   folds to s and U+212A (bytes e2 84 aa) to k. *)
Fixpoint fold_case (s : string) : string :=
  match s with
  | EmptyString => EmptyString
  | String c r =>
      match r with
      | String d r1 =>
          if Ascii.eqb c "197" && Ascii.eqb d "191" then String "s" (fold_case r1)
          else
            match r1 with
            | String e r2 =>
                if Ascii.eqb c "226" && Ascii.eqb d "132" && Ascii.eqb e "170"
                then String "k" (fold_case r2)
                else String (http.lower c) (fold_case r)
            | EmptyString => String (http.lower c) (fold_case r)
            end
      | EmptyString => String (http.lower c) EmptyString
      end
  end.

(* The field a key goes to: the one of exactly that name, else the first
   whose name matches without regard to case. *)
Definition find_field (key : string) (fs : list (field kind)) : option (field kind) :=
  match List.find (fun f => match json_name f with
                            | Some n => String.eqb n key
                            | None => false
                            end) fs with
  | Some f => Some f
  | None => List.find (fun f => match json_name f with
                                | Some n => String.eqb (fold_case n) (fold_case key)
                                | None => false
                                end) fs
  end.

Definition decode_field (k : kind) (j : json.value) : result (option fv) :=
  match j, k with
  | json.Null, _ => Ok None
  | json.Number lit, KInt =>
      match strconv.ParseInt lit with
      | Some z => Ok (Some (FInt z))
      | None => Err "json: cannot unmarshal number into Go struct field of type int"
      end
  | json.Str s, KString => Ok (Some (FStr s))
  | _, _ => Err "json: cannot unmarshal value into Go struct field"
  end.

(* Members are taken in order; a later member overwrites an earlier one;
   the first type error is the one reported. *)
Fixpoint decode_members (fs : list (field kind)) (l : list (string * json.value))
    (acc : list (string * fv)) (err : option string) : result (list (string * fv)) :=
  match l with
  | [] => match err with Some e => Err e | None => Ok acc end
  | (k, j) :: l' =>
      match find_field k fs with
      | None => decode_members fs l' acc err
      | Some f =>
          match decode_field (fvalue f) j with
          | Ok (Some v) => decode_members fs l' (map_set (go_name f) v acc) err
          | Ok None => decode_members fs l' acc err
          | Err e => decode_members fs l' acc (Some (default e err))
          end
      end
  end.

Definition decode_struct (fs : list (field kind)) (body : string)
  : result (list (string * fv)) :=
  match json.Decode body with
  | None => Err "invalid character in JSON input"
  | Some json.Null => Ok []
  | Some (json.Object l) => decode_members fs l [] None
  | Some _ => Err "json: cannot unmarshal value into Go value of struct type"
  end.

Definition get_int (name : string) (m : list (string * fv)) : Z :=
  match map_get name m with Some (FInt z) => z | _ => 0 end.
Definition get_str (name : string) (m : list (string * fv)) : string :=
  match map_get name m with Some (FStr s) => s | _ => EmptyString end.

Definition CreateAccountRequest_fields : list (field kind) :=
  [mkfield "FirstName" "firstName" KString;
   mkfield "LastName" "lastName" KString;
   mkfield "Password" "password" KString].

Definition LoginRequest_fields : list (field kind) :=
  [mkfield "Number" "number" KInt;
   mkfield "Password" "password" KString].

Definition TransferRequest_fields : list (field kind) :=
  [mkfield "ToAccount" "toAccount" KInt;
   mkfield "Amount" "amount" KInt].

Definition decode_CreateAccountRequest (body : string) : result CreateAccountRequest :=
  bind (decode_struct CreateAccountRequest_fields body) (fun m =>
  Ok {| car_FirstName := get_str "FirstName" m;
        car_LastName := get_str "LastName" m;
        car_Password := get_str "Password" m |}).

Definition decode_LoginRequest (body : string) : result LoginRequest :=
  bind (decode_struct LoginRequest_fields body) (fun m =>
  Ok {| lr_Number := get_int "Number" m; lr_Password := get_str "Password" m |}).

Definition decode_TransferRequest (body : string) : result TransferRequest :=
  bind (decode_struct TransferRequest_fields body) (fun m =>
  Ok {| ToAccount := get_int "ToAccount" m; Amount := get_int "Amount" m |}).

(** ** storage.go *)

(** The [Storage] interface.  A method that returns a pointer and an error
    gives an account or an error. *)
Class Storage (S : Type) := {
  CreateAccount : option Account -> M S (option string);
  DeleteAccount : Z -> M S (option string);
  UpdateAccount : option Account -> M S (option string);
  GetAccounts : M S (result (list Account));
  GetAccountByID : Z -> M S (result Account);
  GetAccountByNumber : Z -> M S (result Account) }.

(** The statements sent to the database. *)
Inductive Query :=
| QCreateTable
| QInsert (a : Account)
| QDelete (id : Z)
| QSelectByNumber (number : Z)
| QSelectByID (id : Z)
| QSelectAll.

(** The [account] table behind a [PostgresStore]: its rows in scan order,
    the next value of the [id] sequence, and the statements the server
    refuses (a lost connection, a value that does not fit its column). *)
Record PostgresStore := {
  rows : list Account;
  nextval : Z;
  fault : Query -> option string }.

Definition with_ID (id : Z) (a : Account) : Account :=
  {| ID := id; FirstName := FirstName a; LastName := LastName a; Number := Number a;
     Balance := Balance a; CreatedAt := CreatedAt a;
     EncryptedPassword := EncryptedPassword a |}.

Definition pg_CreateAccount (a : option Account) : M PostgresStore (option string) :=
  fun s =>
    match a with
    | None => Panic nil_deref s
    | Some a =>
        match fault s (QInsert a) with
        | Some e => Val (Some e) s
        | None =>
            Val None {| rows := rows s ++ [with_ID (nextval s) a];
                        nextval := nextval s + 1;
                        fault := fault s |}
        end
    end.

Definition pg_UpdateAccount (a : option Account) : M PostgresStore (option string) :=
  ret None.

Definition pg_DeleteAccount (id : Z) : M PostgresStore (option string) :=
  fun s =>
    match fault s (QDelete id) with
    | Some e => Val (Some e) s
    | None =>
        Val None {| rows := List.filter (fun a => negb (ID a =? id)) (rows s);
                    nextval := nextval s;
                    fault := fault s |}
    end.

Definition pg_GetAccountByNumber (number : Z) : M PostgresStore (result Account) :=
  fun s =>
    match fault s (QSelectByNumber number) with
    | Some e => Val (Err e) s
    | None =>
        match List.filter (fun a => Number a =? number) (rows s) with
        | a :: _ => Val (Ok a) s
        | [] => Val (Err ("Account with number " +:+ strconv.FormatInt number
                          +:+ " not found")) s
        end
    end.

Definition pg_GetAccountByID (id : Z) : M PostgresStore (result Account) :=
  fun s =>
    match fault s (QSelectByID id) with
    | Some e => Val (Err e) s
    | None =>
        match List.filter (fun a => ID a =? id) (rows s) with
        | a :: _ => Val (Ok a) s
        | [] => Val (Err ("Account " +:+ strconv.FormatInt id +:+ " not found")) s
        end
    end.

Definition pg_GetAccounts : M PostgresStore (result (list Account)) :=
  fun s =>
    match fault s QSelectAll with
    | Some e => Val (Err e) s
    | None => Val (Ok (rows s)) s
    end.

#[export] Instance PostgresStore_Storage : Storage PostgresStore := {
  CreateAccount := pg_CreateAccount;
  DeleteAccount := pg_DeleteAccount;
  UpdateAccount := pg_UpdateAccount;
  GetAccounts := pg_GetAccounts;
  GetAccountByID := pg_GetAccountByID;
  GetAccountByNumber := pg_GetAccountByNumber }.

(** ** The service *)

(** The calls a request makes on the store, oldest first. *)
Inductive StoreCall :=
| CallCreateAccount (a : option Account)
| CallDeleteAccount (id : Z)
| CallGetAccounts
| CallGetAccountByID (id : Z)
| CallGetAccountByNumber (number : Z).

(** What a handler works on: the store behind the server, the response
    writer, and the record of the store calls made. *)
Record State (S : Type) := mkState {
  store : S;
  w : list http.WriterCall;
  calls : list StoreCall }.
Arguments mkState {S}.
Arguments store {S}.
Arguments w {S}.
Arguments calls {S}.

Definition call {S A} (c : StoreCall) (op : M S A) : M (State S) A :=
  fun st =>
    match op (store st) with
    | Val a s' => Val a (mkState s' (w st) (calls st ++ [c]))
    | Panic msg s' => Panic msg (mkState s' (w st) (calls st ++ [c]))
    end.

Definition write {S} (cs : list http.WriterCall) : M (State S) unit :=
  fun st => Val tt (mkState (store st) (w st ++ cs) (calls st)).

Section Bank.
(** The process around a request. *)
Variable env : gmap string string.                (* the environment *)
Variable now : Z.                                 (* time.Now() *)
Variable draw : Z.                                (* the draw math/rand accepts *)
Variable salt : option string.                    (* crypto/rand; None: the read fails *)

(** Packages that are taken as given: bcrypt's hash of a password under a
    salt at the default cost, its comparison of a stored hash with a
    password, the layout of a time in JSON, and the library's check of a
    token's time claims against the clock. *)
Variable bcrypt_hash : string -> string -> string.
Variable bcrypt_matches : string -> string -> bool.
Variable RFC3339 : Z -> string.
Variable time_ok : string -> float64.t -> bool.

Definition Getenv (key : string) : string := default EmptyString (env !! key).

Definition rand_Intn (n : Z) : Z := draw mod n.

(* bcrypt.GenerateFromPassword(password, bcrypt.DefaultCost) *)
Definition GenerateFromPassword (password : string) : result string :=
  if (72 <? String.length password)%nat
  then Err "bcrypt: password length exceeds 72 bytes"
  else match salt with
       | None => Err "bcrypt: reading the salt failed"
       | Some s => Ok (bcrypt_hash s password)
       end.

(** *** The account and its credential *)

Definition ValidatePW (a : Account) (pw : string) : bool :=
  bcrypt_matches (EncryptedPassword a) pw.

Definition NewAccount (firstname lastname password : string) : result Account :=
  match GenerateFromPassword password with
  | Err e => Err e
  | Ok encpw =>
      Ok {| ID := 0;
            FirstName := firstname;
            LastName := lastname;
            Number := rand_Intn 100000;
            Balance := 0;
            CreatedAt := now;
            EncryptedPassword := encpw |}
  end.

(** *** Outward representations *)

Definition Account_fields (a : Account) : list (field json.value) :=
  [mkfield "ID" "id" (jint (ID a));
   mkfield "FirstName" "firstName" (json.Str (FirstName a));
   mkfield "LastName" "lastName" (json.Str (LastName a));
   mkfield "Number" "number" (jint (Number a));
   mkfield "Balance" "balance" (jint (Balance a));
   mkfield "CreatedAt" "createdat" (json.Str (RFC3339 (CreatedAt a)));
   mkfield "EncryptedPassword" "-" (json.Str (EncryptedPassword a))].

Definition Account_json (a : Account) : json.value :=
  marshal_struct (Account_fields a).

(* A pointer to an account: null when it is nil. *)
Definition Account_ptr_json (a : option Account) : json.value :=
  match a with
  | Some a => Account_json a
  | None => json.Null
  end.

Definition APIError_json (e : APIError) : json.value :=
  marshal_struct [mkfield "Error" "error" (json.Str (Error e))].

Definition LoginReponse_json (l : LoginReponse) : json.value :=
  marshal_struct [mkfield "Number" "number" (jint (resp_Number l));
                  mkfield "Token" "token" (json.Str (resp_Token l))].

Definition TransferRequest_json (t : TransferRequest) : json.value :=
  marshal_struct [mkfield "ToAccount" "toAccount" (jint (ToAccount t));
                  mkfield "Amount" "amount" (jint (Amount t))].

(** *** api.go *)

Context {S : Type} `{Storage S}.

Definition apiFunc := http.Request -> M (State S) (option string).
Definition HandlerFunc := http.Request -> M (State S) unit.

(* The bytes one WriteJSON puts on the wire: the encoder ends the value
   with a line feed. *)
Definition json_response (status : Z) (v : json.value) : list http.WriterCall :=
  [http.HeaderAdd "Content-Type" "application/json";
   http.WriteHeader status;
   http.Write (json.encode_to v (chr "010"))].

Definition WriteJSON (status : Z) (v : json.value) : M (State S) (option string) :=
  write (json_response status v) ;;; ret None.

Definition makeHTTPHandleFunc (f : apiFunc) : HandlerFunc :=
  fun r =>
    err <<- f r ;;
    match err with
    | Some e => WriteJSON http.StatusBadRequest (APIError_json {| Error := e |}) ;;; ret tt
    | None => ret tt
    end.

Definition getID (r : http.Request) : result Z :=
  let idStr := http.URLParam r "id" in
  match strconv.Atoi idStr with
  | Some id => Ok id
  | None => Err ("invalid ID provided " +:+ idStr)
  end.

Definition createJWT (account : Account) : result string :=
  let claims := [("expiresAt", Int 15000); ("accountNumber", Int (Number account))] in
  let secret := Getenv "JWT_SECRET" in
  let token := jwt.NewWithClaims jwt.SigningMethodHS256 claims in
  jwt.SignedString token secret.

Definition PermissionsDenied : M (State S) unit :=
  WriteJSON http.StatusForbidden (APIError_json {| Error := "Permission denied" |}) ;;; ret tt.

Definition validateJWT (tokenStr : string) : result jwt.Token :=
  let secret := Getenv "JWT_SECRET" in
  jwt.Parse time_ok tokenStr (fun token =>
    match jwt.Method token with
    | jwt.SigningMethodHMAC _ _ => Ok secret
    | jwt.SigningMethodOther alg => Err ("unexpected signing method: " +:+ alg)
    end).

Definition withJWTAuth (handlerFunc : HandlerFunc) : HandlerFunc :=
  fun r =>
    let tokenString := http.Header_Get r "x-jwt-token" in
    if String.eqb tokenString EmptyString then PermissionsDenied
    else
      match validateJWT tokenString with
      | Err _ => PermissionsDenied
      | Ok token =>
          match getID r with
          | Err _ => PermissionsDenied
          | Ok userID =>
              res <<- call (CallGetAccountByID userID) (GetAccountByID userID) ;;
              match res with
              | Err _ => PermissionsDenied
              | Ok account =>
                  match map_get "accountNumber" (jwt.Claims token) with
                  | Some (Float64 f) =>
                      if negb (Number account =? float64.to_int64 f)
                      then PermissionsDenied
                      else handlerFunc r
                  | v => panic ("interface conversion: interface {} is "
                                +:+ type_name v +:+ ", not float64")
                  end
              end
          end
      end.

Definition HandleGetAccount (r : http.Request) : M (State S) (option string) :=
  res <<- call CallGetAccounts GetAccounts ;;
  match res with
  | Err e => ret (Some e)
  | Ok accounts => WriteJSON http.StatusOK (json.Array (map Account_json accounts))
  end.

Definition HandleGetAccountByID (r : http.Request) : M (State S) (option string) :=
  match getID r with
  | Err e => ret (Some e)
  | Ok id =>
      res <<- call (CallGetAccountByID id) (GetAccountByID id) ;;
      match res with
      | Err e => ret (Some e)
      | Ok account => WriteJSON http.StatusOK (Account_json account)
      end
  end.

Definition HandleCreateAccount (r : http.Request) : M (State S) (option string) :=
  match decode_CreateAccountRequest (http.Body r) with
  | Err e => ret (Some e)
  | Ok createAccountReq =>
      (* account, _ := NewAccount(...): on an error the pointer is nil *)
      let account :=
        match NewAccount (car_FirstName createAccountReq)
                         (car_LastName createAccountReq)
                         (car_Password createAccountReq) with
        | Ok a => Some a
        | Err _ => None
        end in
      err <<- call (CallCreateAccount account) (CreateAccount account) ;;
      match err with
      | Some e => ret (Some e)
      | None => WriteJSON http.StatusOK (Account_ptr_json account)
      end
  end.

Definition HandleDeleteAccount (r : http.Request) : M (State S) (option string) :=
  match getID r with
  | Err e => ret (Some e)
  | Ok id =>
      err <<- call (CallDeleteAccount id) (DeleteAccount id) ;;
      match err with
      | Some e => ret (Some e)
      | None => WriteJSON http.StatusOK (json.Object [("deleted:", jint id)])
      end
  end.

Definition HandleTransferToAccount (r : http.Request) : M (State S) (option string) :=
  match decode_TransferRequest (http.Body r) with
  | Err e => ret (Some e)
  | Ok transferReq => WriteJSON http.StatusOK (TransferRequest_json transferReq)
  end.

Definition HandleLogin (r : http.Request) : M (State S) (option string) :=
  if negb (String.eqb (http.Method r) "POST") then PermissionsDenied ;;; ret None
  else
    match decode_LoginRequest (http.Body r) with
    | Err e => ret (Some e)
    | Ok req =>
        res <<- call (CallGetAccountByNumber (lr_Number req))
                     (GetAccountByNumber (lr_Number req)) ;;
        match res with
        | Err e => ret (Some e)
        | Ok acc =>
            if negb (ValidatePW acc (lr_Password req)) then ret (Some "failed to login")
            else match createJWT acc with
                 | Err e => ret (Some e)
                 | Ok token =>
                     WriteJSON http.StatusOK
                       (LoginReponse_json {| resp_Number := Number acc;
                                             resp_Token := token |})
                 end
        end
    end.

Definition HandleAccount (r : http.Request) : M (State S) (option string) :=
  if String.eqb (http.Method r) "GET" then HandleGetAccount r
  else if String.eqb (http.Method r) "POST" then HandleCreateAccount r
  else ret (Some ("methods not allowed " +:+ http.Method r)).

Definition HandleTransfer (r : http.Request) : M (State S) (option string) :=
  if String.eqb (http.Method r) "GET" then HandleGetAccount r
  else if String.eqb (http.Method r) "POST" then HandleTransferToAccount r
  else if String.eqb (http.Method r) "DELETE" then HandleDeleteAccount r
  else ret (Some ("methods not allowed " +:+ http.Method r)).

Definition HandleSingleAccount (r : http.Request) : M (State S) (option string) :=
  if String.eqb (http.Method r) "GET" then HandleGetAccountByID r
  else if String.eqb (http.Method r) "DELETE" then HandleDeleteAccount r
  else ret (Some "method not provided").

(** The routes [Run] registers. *)
Inductive route :=
| RouteLogin
| RouteAccount
| RouteAccountID
| RouteTransfer.

Definition pattern (rt : route) : string :=
  match rt with
  | RouteLogin => "/login"
  | RouteAccount => "/account"
  | RouteAccountID => "/account/{id}"
  | RouteTransfer => "/transfer"
  end.

Definition Run (rt : route) : HandlerFunc :=
  match rt with
  | RouteLogin => makeHTTPHandleFunc HandleLogin
  | RouteAccount => makeHTTPHandleFunc HandleAccount
  | RouteAccountID => withJWTAuth (makeHTTPHandleFunc HandleSingleAccount)
  | RouteTransfer => makeHTTPHandleFunc HandleTransfer
  end.

(** *** main.go *)

(* log.Fatal ends the process: the result is the error it logs. *)
Definition seedAccount (fname lname pw : string) : M (State S) (result Account) :=
  match NewAccount fname lname pw with
  | Err e => ret (Err e)
  | Ok acc =>
      err <<- call (CallCreateAccount (Some acc)) (CreateAccount (Some acc)) ;;
      match err with
      | Some e => ret (Err e)
      | None => ret (Ok acc)
      end
  end.

Definition seedAccounts : M (State S) (result Account) :=
  seedAccount "Obl" "gg" "passwordbreaker".
End Bank.


(** ** States after a response *)

(** The state once [st] has answered with the error envelope. *)
Definition error_response {S} (status : Z) (msg : string) (st : State S) : State S :=
  mkState (store st)
          (w st ++ json_response status (APIError_json {| Error := msg |}))
          (calls st).

Definition denied {S} (st : State S) : State S :=
  error_response http.StatusForbidden "Permission denied" st.

(** The state once the store, now [s'], has been asked for account [id]. *)
Definition looked_up {S} (id : Z) (s' : S) (st : State S) : State S :=
  mkState s' (w st) (calls st ++ [CallGetAccountByID id]).

Definition state_of {S A} (o : outcome S A) : S :=
  match o with
  | Val _ s => s
  | Panic _ s => s
  end.

(** The bytes of the denial, as the client reads them. *)
Definition permission_denied_body : string :=
  "{" +:+ quoted "error" +:+ ":" +:+ quoted "Permission denied" +:+ "}" +:+ chr "010".

(** ** The text of a token *)

(** The header [NewWithClaims] gives an HS256 token and the claims
    [createJWT] binds to account number [n], as json.Marshal writes them. *)
Definition header_text : string :=
  "{" +:+ quoted "alg" +:+ ":" +:+ quoted "HS256" +:+ ","
  +:+ quoted "typ" +:+ ":" +:+ quoted "JWT" +:+ "}".

Definition claims_text (n : Z) : string :=
  "{" +:+ quoted "accountNumber" +:+ ":" +:+ strconv.FormatInt n +:+ ","
  +:+ quoted "expiresAt" +:+ ":15000}".

Definition signing_text (n : Z) : string :=
  jwt.EncodeSegment header_text +:+ "." +:+ jwt.EncodeSegment (claims_text n).

Definition token_text (secret : string) (n : Z) : string :=
  signing_text n +:+ "."
  +:+ jwt.EncodeSegment (hmac.mac sha2.SHA256 secret (signing_text n)).

(** ** Character classes used by the codecs *)

(** No character of the alphabet is a dot, a line feed or a carriage return. *)
Definition plain (c : ascii) : bool :=
  negb (Ascii.eqb c "." || Ascii.eqb c "010" || Ascii.eqb c "013").

(** What may follow a run of digits. *)
Definition ends_digits (s : string) : Prop :=
  match s with
  | EmptyString => True
  | String c _ => is_digit c = false
  end.

(** What may follow a number that has neither fraction nor exponent. *)
Definition ends_integer (c : ascii) : bool :=
  negb (is_digit c || Ascii.eqb c "." || Ascii.eqb c "e" || Ascii.eqb c "E").

(** An ASCII character that stands for itself inside a JSON string. *)
Definition unescaped (c : ascii) : bool :=
  negb (Ascii.eqb c dq || Ascii.eqb c bslash || (N_of_ascii c <? 32)%N)
  && (N_of_ascii c <? 128)%N.

(** The claims of [createJWT] after the opening brace and the first
    member. *)
Definition claims_tail : string := quoted "expiresAt" +:+ ":15000}".

(** The account number a token is bound to, as the gate reads it: the
    [accountNumber] claim, a float64, converted to int64. *)
Definition bound_number (token : jwt.Token) : option Z :=
  match map_get "accountNumber" (jwt.Claims token) with
  | Some (Float64 f) => Some (float64.to_int64 f)
  | _ => None
  end.

(** ** Sample data *)

Definition sample_env : gmap string string := {[ "JWT_SECRET" := "s3cret" ]}.

(* A clock under which no time claim is rejected. *)
Definition any_time (name : string) (f : float64.t) : bool := true.

Definition sample_account (number : Z) : Account :=
  {| ID := 1; FirstName := "Ada"; LastName := "Byron"; Number := number; Balance := 0;
     CreatedAt := 1700000000; EncryptedPassword := "$2a$10$sample" |}.

Definition empty_store : PostgresStore :=
  {| rows := []; nextval := 1; fault := fun _ => None |}.

Definition sample_store : PostgresStore :=
  {| rows := [sample_account 56789]; nextval := 2; fault := fun _ => None |}.

Definition initial {S} (s : S) : State S := mkState s [] [].

Definition request (method : string) (token : option string) (id : option string)
    (body : string) : http.Request :=
  {| http.Method := method;
     http.Header := match token with
                    | Some t => {[ "X-Jwt-Token" := [t] ]}
                    | None => ∅
                    end;
     http.URLParams := match id with
                       | Some i => {[ "id" := i ]}
                       | None => ∅
                       end;
     http.Body := body |}.

Definition transfer_body : string :=
  "{" +:+ quoted "toAccount" +:+ ":7," +:+ quoted "amount" +:+ ":250}".

(* A create-account body whose password has 73 bytes. *)
Definition long_password : string :=
  "0123456789012345678901234567890123456789012345678901234567890123456789012".

Definition long_password_body : string :=
  "{" +:+ quoted "firstName" +:+ ":" +:+ quoted "A" +:+ ","
  +:+ quoted "lastName" +:+ ":" +:+ quoted "B" +:+ ","
  +:+ quoted "password" +:+ ":" +:+ quoted long_password +:+ "}".

(* Stand-ins for the packages taken as given. *)
Definition sample_hash (salt password : string) : string := "$2a$10$" +:+ salt +:+ password.
Definition sample_matches (hash password : string) : bool :=
  String.eqb hash (sample_hash "salt" password).

Definition create_body : string :=
  "{" +:+ quoted "firstName" +:+ ":" +:+ quoted "A" +:+ ","
  +:+ quoted "lastName" +:+ ":" +:+ quoted "B" +:+ ","
  +:+ quoted "password" +:+ ":" +:+ quoted "pw1" +:+ "}".

Definition login_body (number : Z) (password : string) : string :=
  "{" +:+ quoted "number" +:+ ":" +:+ strconv.FormatInt number +:+ ","
  +:+ quoted "password" +:+ ":" +:+ quoted password +:+ "}".

(* The server of the examples: secret s3cret, draw 123456789, salt "salt". *)
Definition serve (rt : route) (r : http.Request) (st : State PostgresStore)
  : outcome (State PostgresStore) unit :=
  Run sample_env 1700000000 123456789 (Some "salt") sample_hash sample_matches
      strconv.FormatInt any_time rt r st.

(* The store after the account of [create_body] has been created. *)
Definition created_store : PostgresStore :=
  {| rows := [{| ID := 1; FirstName := "A"; LastName := "B"; Number := 56789;
                 Balance := 0; CreatedAt := 1700000000;
                 EncryptedPassword := sample_hash "salt" "pw1" |}];
     nextval := 2;
     fault := fun _ => None |}.

Definition hex (s : string) : string :=
  fold_right (fun b acc => String (hex_digit (Z.to_N (b / 16)))
                             (String (hex_digit (Z.to_N (b mod 16))) acc))
             EmptyString (bytes_of_string s).

(* The token of the documentation of JSON Web Tokens, signed under
   your-256-bit-secret. *)
Definition reference_token : string :=
  "eyJhbGciOiJIUzI1NiIsInR5cCI6IkpXVCJ9"
  +:+ ".eyJzdWIiOiIxMjM0NTY3ODkwIiwibmFtZSI6IkpvaG4gRG9lIiwiaWF0IjoxNTE2MjM5MDIyfQ"
  +:+ ".SflKxwRJSMeKKF2QT4fwpMeJf36POk6yJV_adQssw5c".

(** ** The table of a store in good order *)

(** No two rows share an id, and every id is below the next value of the
    sequence: what inserts through [CreateAccount] keep. *)
Definition wf_store (s : PostgresStore) : Prop :=
  List.NoDup (map ID (rows s)) /\ forall a, In a (rows s) -> ID a < nextval s.

(** A request with the given token header and route parameter. *)
Definition with_token (token id : string) (r : http.Request) : http.Request :=
  {| http.Method := http.Method r;
     http.Header := <[ "X-Jwt-Token" := [token] ]> (http.Header r);
     http.URLParams := <[ "id" := id ]> (http.URLParams r);
     http.Body := http.Body r |}.

(** An account with its hash blanked: what is left is what the service
    shows of it. *)
Definition forget_hash (a : Account) : Account :=
  {| ID := ID a; FirstName := FirstName a; LastName := LastName a; Number := Number a;
     Balance := Balance a; CreatedAt := CreatedAt a; EncryptedPassword := EmptyString |}.

(** Two tables that differ at most in the stored hashes. *)
Definition same_shown (s1 s2 : PostgresStore) : Prop :=
  map forget_hash (rows s1) = map forget_hash (rows s2)
  /\ nextval s1 = nextval s2
  /\ forall q, fault s1 q = fault s2 q.

(** Two runs that a client and the call record cannot tell apart. *)
Definition same_answer (o1 o2 : outcome (State PostgresStore) unit) : Prop :=
  match o1, o2 with
  | Val _ t1, Val _ t2 =>
      w t1 = w t2 /\ calls t1 = calls t2 /\ same_shown (store t1) (store t2)
  | Panic m1 t1, Panic m2 t2 => m1 = m2 /\ w t1 = w t2 /\ calls t1 = calls t2
  | _, _ => False
  end.

(** The table with every stored hash replaced by [h]. *)
Definition rehashed (h : string) (s : PostgresStore) : PostgresStore :=
  {| rows := map (fun a => {| ID := ID a; FirstName := FirstName a;
                              LastName := LastName a; Number := Number a;
                              Balance := Balance a; CreatedAt := CreatedAt a;
                              EncryptedPassword := h |}) (rows s);
     nextval := nextval s;
     fault := fault s |}.

(** A table where two accounts share a number, after an account of
    another number. *)
Definition twin_store : PostgresStore :=
  {| rows := [sample_account 11111;
              with_ID 2 (sample_account 56789);
              with_ID 3 (sample_account 56789)];
     nextval := 4;
     fault := fun _ => None |}.

(** * Properties *)

(** ** Strings *)

#[local] Arguments String.append !s1 s2 : simpl nomatch.

Lemma append_assoc (a b c : string) : (a +:+ b) +:+ c = a +:+ (b +:+ c).
Proof. induction a as [|x a IH]; [reflexivity|]. simpl. rewrite IH. reflexivity. Qed.

Lemma append_nil_r (a : string) : a +:+ EmptyString = a.
Proof. induction a as [|x a IH]; [reflexivity|]. simpl. rewrite IH. reflexivity. Qed.

Section GateProperties.
Variable env : gmap string string.
Variable time_ok : string -> float64.t -> bool.
Context {S : Type} `{Storage S}.

Lemma PermissionsDenied_denied (st : State S) :
  PermissionsDenied st = Val tt (denied st).
Proof. reflexivity. Qed.

Lemma denied_response (st : State S) :
  w st = [] ->
  http.status_of (w (denied st)) = Some 403
  /\ http.body_of (w (denied st)) = permission_denied_body.
Proof. intros Hw. unfold denied, error_response. simpl. rewrite Hw. split; reflexivity. Qed.

(** The gate of [/account/{id}], case by case: the token header, the
    token's verification, the id of the path, the account behind the id and
    the account number bound to the token are checked in this order; the
    first check that fails answers with the one denial (403, Permission
    denied), and the store is asked for the account only once the first
    three have passed; the wrapped handler runs only when all five pass, on
    the same request.  There is a third outcome besides the denial and the
    handler: a verified token that carries no numeric accountNumber claim
    makes the type assertion panic. *)
Theorem withJWTAuth_checks_in_order (handlerFunc : HandlerFunc) (r : http.Request)
    (st : State S) :
  let tokenString := http.Header_Get r "x-jwt-token" in
  (tokenString = EmptyString ->
     withJWTAuth env time_ok handlerFunc r st = Val tt (denied st))
  /\ (forall e, tokenString <> EmptyString -> validateJWT env time_ok tokenString = Err e ->
        withJWTAuth env time_ok handlerFunc r st = Val tt (denied st))
  /\ (forall token e, tokenString <> EmptyString ->
        validateJWT env time_ok tokenString = Ok token -> getID r = Err e ->
        withJWTAuth env time_ok handlerFunc r st = Val tt (denied st))
  /\ (forall token userID e s', tokenString <> EmptyString ->
        validateJWT env time_ok tokenString = Ok token -> getID r = Ok userID ->
        GetAccountByID userID (store st) = Val (Err e) s' ->
        withJWTAuth env time_ok handlerFunc r st = Val tt (denied (looked_up userID s' st)))
  /\ (forall token userID account s' f, tokenString <> EmptyString ->
        validateJWT env time_ok tokenString = Ok token -> getID r = Ok userID ->
        GetAccountByID userID (store st) = Val (Ok account) s' ->
        map_get "accountNumber" (jwt.Claims token) = Some (Float64 f) ->
        Number account <> float64.to_int64 f ->
        withJWTAuth env time_ok handlerFunc r st = Val tt (denied (looked_up userID s' st)))
  /\ (forall token userID account s' f, tokenString <> EmptyString ->
        validateJWT env time_ok tokenString = Ok token -> getID r = Ok userID ->
        GetAccountByID userID (store st) = Val (Ok account) s' ->
        map_get "accountNumber" (jwt.Claims token) = Some (Float64 f) ->
        Number account = float64.to_int64 f ->
        withJWTAuth env time_ok handlerFunc r st = handlerFunc r (looked_up userID s' st))
  /\ ((exists st', withJWTAuth env time_ok handlerFunc r st = Val tt (denied st'))
      \/ (exists token userID account s' f,
            tokenString <> EmptyString
            /\ validateJWT env time_ok tokenString = Ok token /\ getID r = Ok userID
            /\ GetAccountByID userID (store st) = Val (Ok account) s'
            /\ map_get "accountNumber" (jwt.Claims token) = Some (Float64 f)
            /\ Number account = float64.to_int64 f
            /\ withJWTAuth env time_ok handlerFunc r st = handlerFunc r (looked_up userID s' st))
      \/ (exists msg st', withJWTAuth env time_ok handlerFunc r st = Panic msg st')).
Proof.
  intros tokenString. unfold withJWTAuth. fold tokenString.
  repeat split.
  - intros ->. reflexivity.
  - intros e Hne Hv. apply String.eqb_neq in Hne. rewrite Hne, Hv. reflexivity.
  - intros token e Hne Hv Hid. apply String.eqb_neq in Hne. rewrite Hne, Hv, Hid.
    reflexivity.
  - intros token userID e s' Hne Hv Hid Hget. apply String.eqb_neq in Hne.
    rewrite Hne, Hv, Hid. unfold mbind', call. rewrite Hget. reflexivity.
  - intros token userID account s' f Hne Hv Hid Hget Hclaim Hneq.
    apply String.eqb_neq in Hne. rewrite Hne, Hv, Hid. unfold mbind', call.
    rewrite Hget, Hclaim. apply Z.eqb_neq in Hneq. rewrite Hneq. reflexivity.
  - intros token userID account s' f Hne Hv Hid Hget Hclaim Heq.
    apply String.eqb_neq in Hne. rewrite Hne, Hv, Hid. unfold mbind', call.
    rewrite Hget, Hclaim. apply Z.eqb_eq in Heq. rewrite Heq. reflexivity.
  - destruct (String.eqb tokenString EmptyString) eqn:Htok.
    { left. eexists. reflexivity. }
    apply String.eqb_neq in Htok.
    destruct (validateJWT env time_ok tokenString) as [token|e] eqn:Hv.
    2:{ left. eexists. reflexivity. }
    destruct (getID r) as [userID|e] eqn:Hid.
    2:{ left. eexists. reflexivity. }
    unfold mbind', call.
    destruct (GetAccountByID userID (store st)) as [[account|e] s'|msg s'] eqn:Hget.
    3:{ right. right. eauto. }
    2:{ left. eexists. reflexivity. }
    destruct (map_get "accountNumber" (jwt.Claims token)) as [[| | |f| | |]|] eqn:Hclaim;
      try (right; right; unfold panic; eauto; fail).
    destruct (Number account =? float64.to_int64 f) eqn:Heq; simpl.
    + right. left. apply Z.eqb_eq in Heq.
      exists token, userID, account, s', f. repeat split; auto.
    + left. eexists. reflexivity.
Qed.
End GateProperties.


(** ** Bytes and base64 *)

Lemma byte_of_range (a : ascii) : 0 <= byte_of a < 256.
Proof. destruct a as [[] [] [] [] [] [] [] []]; vm_compute; split; congruence. Qed.

Lemma ascii_of_byte_of (a : ascii) : ascii_of (byte_of a) = a.
Proof. unfold ascii_of, byte_of. rewrite N2Z.id. apply ascii_N_embedding. Qed.

Lemma sextet_cases (i : Z) : 0 <= i < 64 -> In i (map Z.of_nat (seq 0 64)).
Proof.
  intros Hi. apply in_map_iff. exists (Z.to_nat i). split; [lia|].
  apply in_seq. lia.
Qed.

Lemma dec_enc_char (i : Z) :
  0 <= i < 64 -> base64.dec_char (base64.enc_char i) = Some i.
Proof.
  intros Hi.
  assert (Hall : forallb (fun i => match base64.dec_char (base64.enc_char i) with
                                   | Some j => j =? i
                                   | None => false
                                   end) (map Z.of_nat (seq 0 64)) = true)
    by (vm_compute; reflexivity).
  rewrite forallb_forall in Hall. specialize (Hall i (sextet_cases i Hi)).
  destruct (base64.dec_char (base64.enc_char i)); [|discriminate].
  apply Z.eqb_eq in Hall. congruence.
Qed.



Lemma enc_char_plain (i : Z) : 0 <= i < 64 -> plain (base64.enc_char i) = true.
Proof.
  intros Hi.
  assert (Hall : forallb (fun i => plain (base64.enc_char i))
                         (map Z.of_nat (seq 0 64)) = true)
    by (vm_compute; reflexivity).
  rewrite forallb_forall in Hall. exact (Hall i (sextet_cases i Hi)).
Qed.

Lemma sextets_enc_char (i : Z) (rest : string) :
  0 <= i < 64 ->
  base64.sextets (String (base64.enc_char i) rest)
  = match base64.sextets rest with Some l => Some (i :: l) | None => None end.
Proof.
  intros Hi. simpl. pose proof (enc_char_plain i Hi) as Hp. unfold plain in Hp.
  apply negb_true_iff in Hp. apply orb_false_iff in Hp. destruct Hp as [Hp H13].
  apply orb_false_iff in Hp. destruct Hp as [_ H10].
  rewrite H10, H13, (dec_enc_char i Hi). reflexivity.
Qed.

Lemma string_ind3 (P : string -> Prop) :
  P EmptyString ->
  (forall a, P (String a EmptyString)) ->
  (forall a b, P (String a (String b EmptyString))) ->
  (forall a b c r, P r -> P (String a (String b (String c r)))) ->
  forall s, P s.
Proof.
  intros H0 H1 H2 H3.
  fix IH 1. intros [|a [|b [|c r]]];
    [exact H0 | apply H1 | apply H2 | apply H3; apply IH].
Qed.

Ltac sextet_arith :=
  repeat match goal with
         | a : ascii |- _ =>
             lazymatch goal with
             | _ : 0 <= byte_of a < 256 |- _ => fail
             | _ => pose proof (byte_of_range a)
             end
         end;
  Z.div_mod_to_equations; lia.

Lemma DecodeString_EncodeToString (s : string) :
  base64.DecodeString (base64.EncodeToString s) = Some s.
Proof.
  unfold base64.DecodeString.
  cut (exists l, base64.sextets (base64.EncodeToString s) = Some l
                 /\ base64.unquad l = Some s).
  { intros [l [-> Hl]]. exact Hl. }
  induction s as [|a|a b|a b c r IH] using string_ind3.
  - exists []. split; reflexivity.
  - pose proof (byte_of_range a).
    cbn [base64.EncodeToString].
    rewrite !sextets_enc_char by sextet_arith.
    eexists. split; [reflexivity|]. cbn [base64.unquad].
    replace (byte_of a / 4 * 4 + byte_of a mod 4 * 16 / 16) with (byte_of a)
      by sextet_arith.
    rewrite ascii_of_byte_of. reflexivity.
  - pose proof (byte_of_range a). pose proof (byte_of_range b).
    cbn [base64.EncodeToString].
    rewrite !sextets_enc_char by sextet_arith.
    eexists. split; [reflexivity|]. cbn [base64.unquad].
    set (n := byte_of a * 256 + byte_of b).
    replace (n / 1024 * 4 + n / 16 mod 64 / 16) with (byte_of a)
      by (subst n; sextet_arith).
    replace (n / 16 mod 64 mod 16 * 16 + n mod 16 * 4 / 4) with (byte_of b)
      by (subst n; sextet_arith).
    rewrite !ascii_of_byte_of. reflexivity.
  - destruct IH as [l [Hl Hu]].
    pose proof (byte_of_range a). pose proof (byte_of_range b).
    pose proof (byte_of_range c).
    cbn [base64.EncodeToString].
    rewrite !sextets_enc_char by sextet_arith.
    rewrite Hl. eexists. split; [reflexivity|]. cbn [base64.unquad]. rewrite Hu.
    set (n := byte_of a * 65536 + byte_of b * 256 + byte_of c).
    replace (n / 262144 * 4 + n / 4096 mod 64 / 16) with (byte_of a)
      by (subst n; sextet_arith).
    replace (n / 4096 mod 64 mod 16 * 16 + n / 64 mod 64 / 4) with (byte_of b)
      by (subst n; sextet_arith).
    replace (n / 64 mod 64 mod 4 * 64 + n mod 64) with (byte_of c)
      by (subst n; sextet_arith).
    rewrite !ascii_of_byte_of. reflexivity.
Qed.

Lemma EncodeToString_plain (s : string) :
  forallb plain (String.list_ascii_of_string (base64.EncodeToString s)) = true.
Proof.
  induction s as [|a|a b|a b c r IH] using string_ind3.
  - reflexivity.
  - pose proof (byte_of_range a). cbn [base64.EncodeToString String.list_ascii_of_string forallb].
    rewrite !enc_char_plain by sextet_arith. reflexivity.
  - pose proof (byte_of_range a). pose proof (byte_of_range b).
    cbn [base64.EncodeToString String.list_ascii_of_string forallb].
    rewrite !enc_char_plain by sextet_arith. reflexivity.
  - pose proof (byte_of_range a). pose proof (byte_of_range b).
    pose proof (byte_of_range c).
    cbn [base64.EncodeToString String.list_ascii_of_string forallb].
    rewrite !enc_char_plain by sextet_arith. rewrite IH. reflexivity.
Qed.

(** ** Splitting a token *)

Lemma Split_plain (s : string) :
  forallb plain (String.list_ascii_of_string s) = true ->
  strings.Split s "." = [s].
Proof.
  induction s as [|c s IH]; [reflexivity|].
  cbn [String.list_ascii_of_string forallb]. intros Hp.
  apply andb_true_iff in Hp. destruct Hp as [Hc Hs].
  unfold plain in Hc. apply negb_true_iff in Hc. apply orb_false_iff in Hc.
  destruct Hc as [Hc _]. apply orb_false_iff in Hc. destruct Hc as [Hc _].
  cbn [strings.Split]. rewrite Hc, (IH Hs). reflexivity.
Qed.

Lemma Split_plain_dot (s rest : string) :
  forallb plain (String.list_ascii_of_string s) = true ->
  strings.Split (s +:+ String "." rest) "." = s :: strings.Split rest ".".
Proof.
  induction s as [|c s IH]; [reflexivity|].
  cbn [String.list_ascii_of_string forallb]. intros Hp.
  apply andb_true_iff in Hp. destruct Hp as [Hc Hs].
  unfold plain in Hc. apply negb_true_iff in Hc. apply orb_false_iff in Hc.
  destruct Hc as [Hc _]. apply orb_false_iff in Hc. destruct Hc as [Hc _].
  simpl. rewrite Hc, (IH Hs). reflexivity.
Qed.

Lemma Split_three_segments (a b c : string) :
  strings.Split (jwt.EncodeSegment a +:+ "." +:+ jwt.EncodeSegment b +:+ "."
                 +:+ jwt.EncodeSegment c) "."
  = [jwt.EncodeSegment a; jwt.EncodeSegment b; jwt.EncodeSegment c].
Proof.
  unfold jwt.EncodeSegment.
  change (strings.Split
            (base64.EncodeToString a +:+ String "."
               (base64.EncodeToString b +:+ String "." (base64.EncodeToString c))) "."
          = [base64.EncodeToString a; base64.EncodeToString b;
             base64.EncodeToString c]).
  rewrite (Split_plain_dot _ _ (EncodeToString_plain a)).
  rewrite (Split_plain_dot _ _ (EncodeToString_plain b)).
  rewrite (Split_plain _ (EncodeToString_plain c)). reflexivity.
Qed.


(** ** Decimal numerals *)



Lemma span_digits_end (s : string) : ends_digits s -> span_digits s = (EmptyString, s).
Proof. destruct s as [|c r]; [reflexivity|]. simpl. intros ->. reflexivity. Qed.

Lemma span_digits_uint (d : Decimal.uint) (rest : string) :
  ends_digits rest ->
  span_digits (NilEmpty.string_of_uint d +:+ rest) = (NilEmpty.string_of_uint d, rest).
Proof.
  intros Hrest. induction d; simpl;
    [apply span_digits_end; exact Hrest | rewrite IHd; reflexivity ..].
Qed.

Lemma to_uint_normal (p : positive) : Decimal.unorm (Pos.to_uint p) = Pos.to_uint p.
Proof.
  rewrite <- DecimalPos.Unsigned.to_of, DecimalPos.Unsigned.of_to. reflexivity.
Qed.

Lemma to_uint_head (p : positive) :
  exists c t, NilEmpty.string_of_uint (Pos.to_uint p) = String c t
              /\ is_digit c = true /\ Ascii.eqb c "0" = false /\ Ascii.eqb c "-" = false.
Proof.
  pose proof (to_uint_normal p) as Hn.
  pose proof (Unsigned.to_uint_nonzero p) as Hz.
  pose proof (Unsigned.to_uint_nonnil p) as Hnil.
  destruct (Pos.to_uint p) as [|u|u|u|u|u|u|u|u|u|u] eqn:Hd;
    try (simpl; eexists _, _; split; [reflexivity|]; repeat split; reflexivity).
  - contradiction.
  - exfalso. rewrite unorm_D0 in Hn.
    destruct u as [|u'|u'|u'|u'|u'|u'|u'|u'|u'|u'] eqn:Hu; [apply Hz; reflexivity|..];
      (assert (Hlen : (Decimal.nb_digits (Decimal.unorm u) <= Decimal.nb_digits u)%nat)
         by (apply nb_digits_unorm; subst u; discriminate);
       subst u; rewrite Hn in Hlen; simpl in Hlen; lia).
Qed.

Lemma parse_digits_uint (p : positive) :
  strconv.parse_digits (NilEmpty.string_of_uint (Pos.to_uint p)) = Some (Z.pos p).
Proof.
  unfold strconv.parse_digits.
  destruct (to_uint_head p) as [c [t [Hs _]]]. rewrite Hs, <- Hs.
  rewrite NilEmpty.usu. f_equal.
  unfold Z.of_uint. rewrite DecimalPos.Unsigned.of_to. reflexivity.
Qed.

Lemma FormatInt_cases (n : Z) :
  match n with
  | Z0 => strconv.FormatInt n = "0"
  | Zpos p => strconv.FormatInt n = NilEmpty.string_of_uint (Pos.to_uint p)
  | Zneg p => strconv.FormatInt n = String "-" (NilEmpty.string_of_uint (Pos.to_uint p))
  end.
Proof.
  destruct n as [|p|p]; unfold strconv.FormatInt; simpl.
  - reflexivity.
  - pose proof (Unsigned.to_uint_nonnil p). destruct (Pos.to_uint p); [contradiction|reflexivity..].
  - pose proof (Unsigned.to_uint_nonnil p). destruct (Pos.to_uint p); [contradiction|reflexivity..].
Qed.



Lemma scan_unsigned_positive (p : positive) (c : ascii) (r : string) :
  ends_integer c = true ->
  json.scan_unsigned (NilEmpty.string_of_uint (Pos.to_uint p) +:+ String c r)
  = Some (NilEmpty.string_of_uint (Pos.to_uint p), String c r).
Proof.
  intros Hc. unfold ends_integer in Hc. apply negb_true_iff in Hc.
  apply orb_false_iff in Hc. destruct Hc as [Hc HE].
  apply orb_false_iff in Hc. destruct Hc as [Hc He].
  apply orb_false_iff in Hc. destruct Hc as [Hd Hdot].
  destruct (to_uint_head p) as [c0 [t [Hs [Hdig [Hzero Hminus]]]]].
  unfold json.scan_unsigned. rewrite Hs. simpl String.append. cbv iota beta.
  rewrite Hzero, Hdig.
  change (String c0 (t +:+ String c r)) with (String c0 t +:+ String c r).
  rewrite <- Hs, span_digits_uint by exact Hd.
  rewrite Hdot, He, HE. simpl. rewrite !append_nil_r. reflexivity.
Qed.

Lemma scan_number_FormatInt (n : Z) (c : ascii) (r : string) :
  ends_integer c = true ->
  json.scan_number (strconv.FormatInt n +:+ String c r)
  = Some (strconv.FormatInt n, String c r).
Proof.
  intros Hc. pose proof (FormatInt_cases n) as Hn. destruct n as [|p|p]; rewrite Hn.
  - unfold ends_integer in Hc. apply negb_true_iff in Hc.
    apply orb_false_iff in Hc. destruct Hc as [Hc HE].
    apply orb_false_iff in Hc. destruct Hc as [Hc He].
    apply orb_false_iff in Hc. destruct Hc as [Hd Hdot].
    unfold json.scan_number, json.scan_unsigned. simpl. rewrite Hdot, He, HE. reflexivity.
  - destruct (to_uint_head p) as [c0 [t [Hs [Hdig [Hzero Hminus]]]]].
    unfold json.scan_number. rewrite Hs. simpl String.append. cbv iota beta.
    rewrite Hminus. cbv iota beta.
    change (String c0 (t +:+ String c r)) with (String c0 t +:+ String c r).
    rewrite <- Hs, scan_unsigned_positive by exact Hc. reflexivity.
  - unfold json.scan_number. simpl String.append. cbv iota beta.
    change (Ascii.eqb "-" "-") with true. cbv iota beta.
    rewrite scan_unsigned_positive by exact Hc. reflexivity.
Qed.


(** ** Integers in float64 *)

Lemma round_even_integer (n : Z) : float64.round_even n 1 = n.
Proof.
  unfold float64.round_even. rewrite Z.div_1_r, Z.mod_1_r.
  change (2 * 0) with 0. change (1 <? 0) with false. change (1 =? 0) with false.
  reflexivity.
Qed.

Lemma log2_53_bits (a : Z) : 0 < a < 2 ^ 53 -> 0 <= Z.log2 a <= 52.
Proof.
  intros [Hpos Hlt]. split; [apply Z.log2_nonneg|].
  apply Z.lt_succ_r. apply Z.log2_lt_pow2; [exact Hpos|exact Hlt].
Qed.

Lemma exponent_integer (a : Z) :
  0 < a < 2 ^ 53 -> float64.exponent a 1 = Z.log2 a - 52.
Proof.
  intros Ha. pose proof (log2_53_bits a Ha) as HL.
  destruct (Z.log2_spec a (proj1 Ha)) as [Hlo Hhi].
  unfold float64.exponent, float64.scaled. change (Z.log2 1) with 0.
  rewrite Z.sub_0_r.
  destruct (0 <=? Z.log2 a - 52) eqn:He.
  - apply Z.leb_le in He. assert (HL52 : Z.log2 a = 52) by lia.
    rewrite HL52 in *. change (52 - 52) with 0. change (1 * 2 ^ 0) with 1.
    rewrite Z.div_1_r.
    destruct (a <? 2 ^ 52) eqn:Hlt; [apply Z.ltb_lt in Hlt; lia|].
    reflexivity.
  - apply Z.leb_gt in He. rewrite Z.div_1_r.
    assert (Hq : 2 ^ 52 <= a * 2 ^ (- (Z.log2 a - 52))).
    { replace (2 ^ 52) with (2 ^ Z.log2 a * 2 ^ (- (Z.log2 a - 52)))
        by (rewrite <- Z.pow_add_r by lia; f_equal; lia).
      apply Z.mul_le_mono_nonneg_r; [apply Z.pow_nonneg; lia|exact Hlo]. }
    destruct (a * 2 ^ (- (Z.log2 a - 52)) <? 2 ^ 52) eqn:Hlt;
      [apply Z.ltb_lt in Hlt; lia|].
    apply Z.max_l. lia.
Qed.

Lemma round_rat_integer (n : Z) :
  - 2 ^ 53 <= n <= 2 ^ 53 ->
  exists f, float64.round_rat n 1 = Some f /\ float64.to_int64 f = n.
Proof.
  intros Hn.
  destruct (Z.eq_dec n 0) as [->|Hn0]; [eexists; split; reflexivity|].
  destruct (Z.eq_dec n (2 ^ 53)) as [->|Hhi];
    [eexists; split; [vm_compute; reflexivity|vm_compute; reflexivity]|].
  destruct (Z.eq_dec n (- 2 ^ 53)) as [->|Hlo];
    [eexists; split; [vm_compute; reflexivity|vm_compute; reflexivity]|].
  assert (Ha : 0 < Z.abs n < 2 ^ 53) by lia.
  pose proof (log2_53_bits _ Ha) as HL.
  unfold float64.round_rat.
  destruct (Z.abs n =? 0) eqn:Hz; [apply Z.eqb_eq in Hz; lia|].
  cbv zeta. rewrite (exponent_integer _ Ha).
  set (e := Z.log2 (Z.abs n) - 52) in *.
  assert (He : -52 <= e <= 0) by (subst e; lia).
  destruct (971 <? e) eqn:H971; [apply Z.ltb_lt in H971; lia|].
  destruct (e =? 971) eqn:H971'; [apply Z.eqb_eq in H971'; lia|].
  assert (Hn64 : strconv.in_int64 n = true).
  { unfold strconv.in_int64, strconv.min_int64, strconv.max_int64.
    apply andb_true_iff. split; apply Z.leb_le; lia. }
  unfold float64.scaled. destruct (0 <=? e) eqn:Hsign.
  - apply Z.leb_le in Hsign. assert (He0 : e = 0) by lia. rewrite He0.
    change (1 * 2 ^ 0) with 1. rewrite round_even_integer. simpl orb.
    eexists. split; [reflexivity|].
    unfold float64.to_int64. cbn [float64.mant float64.expo].
    change (0 <=? 0) with true. cbv iota. change (2 ^ 0) with 1.
    rewrite Z.mul_1_r. replace (Z.sgn n * Z.abs n) with n by lia.
    rewrite Hn64. reflexivity.
  - apply Z.leb_gt in Hsign. rewrite round_even_integer. simpl orb.
    eexists. split; [reflexivity|].
    unfold float64.to_int64. cbn [float64.mant float64.expo].
    rewrite (proj2 (Z.leb_gt 0 e) Hsign).
    rewrite Z.mul_assoc. replace (Z.sgn n * Z.abs n) with n by lia.
    rewrite Z.quot_mul by (apply Z.pow_nonzero; lia).
    rewrite Hn64. reflexivity.
Qed.

Lemma ParseFloat_FormatInt (n : Z) :
  float64.ParseFloat (strconv.FormatInt n) = float64.round_rat n 1.
Proof.
  pose proof (FormatInt_cases n) as Hn. destruct n as [|p|p]; rewrite Hn.
  - reflexivity.
  - destruct (to_uint_head p) as [c0 [t [Hs [Hdig [Hzero Hminus]]]]].
    unfold float64.ParseFloat. rewrite Hs, Hminus, <- Hs.
    rewrite <- (append_nil_r (NilEmpty.string_of_uint (Pos.to_uint p))) at 1.
    rewrite span_digits_uint by exact I.
    rewrite append_nil_r, parse_digits_uint.
    change (0 - Z.of_nat (String.length EmptyString)) with 0.
    change (0 <=? 0) with true. cbv iota. change (10 ^ 0) with 1.
    rewrite Z.mul_1_r. reflexivity.
  - unfold float64.ParseFloat. change (Ascii.eqb "-" "-") with true. cbv iota.
    rewrite <- (append_nil_r (NilEmpty.string_of_uint (Pos.to_uint p))) at 1.
    rewrite span_digits_uint by exact I.
    rewrite append_nil_r, parse_digits_uint.
    change (0 - Z.of_nat (String.length EmptyString)) with 0.
    change (0 <=? 0) with true. cbv iota. change (10 ^ 0) with 1.
    rewrite Z.mul_1_r. reflexivity.
Qed.

(** ** Parsing the claims of a token *)

Lemma scan_string_unescaped (key rest : string) :
  forallb unescaped (String.list_ascii_of_string key) = true ->
  json.scan_string (key +:+ String dq rest) = Some (key, rest).
Proof.
  induction key as [|c key IH].
  - intros _. reflexivity.
  - cbn [String.list_ascii_of_string forallb]. intros Hk.
    apply andb_true_iff in Hk. destruct Hk as [Hc Hk].
    unfold unescaped in Hc. apply andb_true_iff in Hc. destruct Hc as [Hc Hascii].
    apply negb_true_iff in Hc.
    apply orb_false_iff in Hc. destruct Hc as [Hc Hctl].
    apply orb_false_iff in Hc. destruct Hc as [Hq Hb].
    simpl String.append. cbn [json.scan_string].
    rewrite Hq, Hb, Hctl, Hascii, (IH Hk). reflexivity.
Qed.

Lemma FormatInt_head (n : Z) :
  exists c t, strconv.FormatInt n = String c t
              /\ (Ascii.eqb c "-" || is_digit c) = true.
Proof.
  pose proof (FormatInt_cases n) as Hn. destruct n as [|p|p]; rewrite Hn.
  - eexists _, _. split; reflexivity.
  - destruct (to_uint_head p) as [c [t [Hs [Hd _]]]]. exists c, t.
    split; [exact Hs|]. rewrite Hd. apply orb_true_r.
  - eexists _, _. split; reflexivity.
Qed.

Lemma parse_value_number (fuel : nat) (depth : Z) (lit rest : string) :
  (exists c t, lit = String c t /\ (Ascii.eqb c "-" || is_digit c) = true) ->
  json.scan_number (lit +:+ rest) = Some (lit, rest) ->
  json.parse_value (S fuel) depth (lit +:+ rest) = Some (json.Number lit, rest).
Proof.
  intros [c [t [-> Hc]]] Hscan. simpl String.append in *.
  destruct c as [[] [] [] [] [] [] [] []];
    try (vm_compute in Hc; discriminate Hc);
    cbn [json.parse_value json.skip_ws json.is_ws Ascii.eqb Bool.eqb orb andb];
    cbv beta iota; rewrite Hscan; reflexivity.
Qed.

Lemma parse_members_unescaped (fuel : nat) (depth : Z) (key rest : string)
    (acc : list (string * json.value)) :
  forallb unescaped (String.list_ascii_of_string key) = true ->
  json.parse_members (S fuel) depth (String dq (key +:+ String dq (String ":" rest))) acc
  = match json.parse_value fuel depth rest with
    | Some (v, r3) =>
        match json.skip_ws r3 with
        | String c3 r4 =>
            if Ascii.eqb c3 "," then
              json.parse_members fuel depth r4 (acc ++ [(key, v)])
            else if Ascii.eqb c3 "}" then Some (json.Object (acc ++ [(key, v)]), r4)
            else None
        | EmptyString => None
        end
    | None => None
    end.
Proof.
  intros Hk.
  change (json.parse_members (S fuel) depth
            (String dq (key +:+ String dq (String ":" rest))) acc)
    with (match json.scan_string (key +:+ String dq (String ":" rest)) with
          | Some (k, r1) =>
              match json.skip_ws r1 with
              | String c1 r2 =>
                  if Ascii.eqb c1 ":" then
                    match json.parse_value fuel depth r2 with
                    | Some (v, r3) =>
                        match json.skip_ws r3 with
                        | String c3 r4 =>
                            if Ascii.eqb c3 "," then
                              json.parse_members fuel depth r4 (acc ++ [(k, v)])
                            else if Ascii.eqb c3 "}" then
                              Some (json.Object (acc ++ [(k, v)]), r4)
                            else None
                        | EmptyString => None
                        end
                    | None => None
                    end
                  else None
              | EmptyString => None
              end
          | None => None
          end).
  rewrite (scan_string_unescaped _ _ Hk). reflexivity.
Qed.

Lemma parse_claims_tail (fuel : nat) (acc : list (string * json.value)) :
  json.parse_members (S (S fuel)) 1 claims_tail acc
  = Some (json.Object (acc ++ [("expiresAt", json.Number "15000")]), EmptyString).
Proof. reflexivity. Qed.

Lemma claims_text_unfold (n : Z) :
  claims_text n
  = String "{" (String dq ("accountNumber"
       +:+ String dq (String ":" (strconv.FormatInt n +:+ String "," claims_tail)))).
Proof. reflexivity. Qed.

Lemma Decode_claims_text (n : Z) :
  json.Decode (claims_text n)
  = Some (json.Object [("accountNumber", json.Number (strconv.FormatInt n));
                       ("expiresAt", json.Number "15000")]).
Proof.
  unfold json.Decode, json.parse.
  assert (Hfuel : exists fuel, (2 + String.length (claims_text n))%nat
                               = S (S (S (S (S fuel)))))
    by (eexists; reflexivity).
  destruct Hfuel as [fuel ->]. rewrite claims_text_unfold.
  change (json.parse_value (S (S (S (S (S fuel))))) 0
            (String "{" (String dq ("accountNumber" +:+ String dq
               (String ":" (strconv.FormatInt n +:+ String "," claims_tail))))))
    with (json.parse_members (S (S (S (S fuel)))) 1
            (String dq ("accountNumber" +:+ String dq
               (String ":" (strconv.FormatInt n +:+ String "," claims_tail)))) []).
  rewrite parse_members_unescaped by reflexivity.
  rewrite parse_value_number;
    [|apply FormatInt_head|apply scan_number_FormatInt; reflexivity].
  cbn [json.skip_ws json.is_ws Ascii.eqb Bool.eqb orb]. cbv beta iota.
  rewrite parse_claims_tail. reflexivity.
Qed.

Lemma to_map_claims (lit : string) (f : float64.t) :
  float64.ParseFloat lit = Some f ->
  exists f', gojson.to_map (json.Object [("accountNumber", json.Number lit);
                                         ("expiresAt", json.Number "15000")])
             = Ok [("accountNumber", Float64 f); ("expiresAt", Float64 f')].
Proof.
  intros Hf. eexists. unfold gojson.to_map. cbn [gojson.of_json].
  rewrite Hf. cbn [bind map_set String.eqb Ascii.eqb Bool.eqb].
  replace (float64.ParseFloat "15000") with (Some (float64.mk 8246337208320000 (-39)))
    by (vm_compute; reflexivity).
  cbn [bind map_set String.eqb Ascii.eqb Bool.eqb]. reflexivity.
Qed.

Lemma Unmarshal_header_text :
  bind (jwt.decode_json "invalid character in token header" (json.Unmarshal header_text))
       gojson.to_map
  = Ok [("alg", StringV "HS256"); ("typ", StringV "JWT")].
Proof. vm_compute. reflexivity. Qed.

(** ** Issuing a token, then parsing it *)

Lemma DecodeSegment_EncodeSegment (s : string) :
  jwt.DecodeSegment (jwt.EncodeSegment s) = Ok s.
Proof.
  unfold jwt.DecodeSegment, jwt.EncodeSegment.
  rewrite DecodeString_EncodeToString. reflexivity.
Qed.

Lemma token_text_segments (secret : string) (n : Z) :
  token_text secret n
  = jwt.EncodeSegment header_text +:+ "." +:+ jwt.EncodeSegment (claims_text n) +:+ "."
    +:+ jwt.EncodeSegment (hmac.mac sha2.SHA256 secret (signing_text n)).
Proof. unfold token_text, signing_text. rewrite !append_assoc. reflexivity. Qed.

Lemma Parse_token_text (time_ok : string -> float64.t -> bool) (secret : string)
    (n : Z) (f : float64.t) (keyFunc : jwt.Token -> result string) :
  (forall t, jwt.Method t = jwt.SigningMethodHS256 -> keyFunc t = Ok secret) ->
  float64.ParseFloat (strconv.FormatInt n) = Some f ->
  exists token,
    jwt.Parse time_ok (token_text secret n) keyFunc = Ok token
    /\ jwt.Valid token = true
    /\ map_get "accountNumber" (jwt.Claims token) = Some (Float64 f).
Proof.
  intros Hkey Hf.
  destruct (to_map_claims _ _ Hf) as [f' Hclaims].
  assert (Hsplit : strings.Split (token_text secret n) "."
                   = [jwt.EncodeSegment header_text; jwt.EncodeSegment (claims_text n);
                      jwt.EncodeSegment (hmac.mac sha2.SHA256 secret (signing_text n))])
    by (rewrite token_text_segments; apply Split_three_segments).
  unfold jwt.Parse, jwt.ParseUnverified. rewrite Hsplit.
  rewrite !DecodeSegment_EncodeSegment. cbn [bind].
  pose proof Unmarshal_header_text as Hh.
  destruct (jwt.decode_json "invalid character in token header"
              (json.Unmarshal header_text)) as [hj|e]; [|discriminate Hh].
  cbn [bind] in Hh |- *. rewrite Hh. cbn [bind].
  rewrite Decode_claims_text. cbn [jwt.decode_json bind].
  rewrite Hclaims. cbn [bind].
  change (map_get "alg" [("alg", StringV "HS256"); ("typ", StringV "JWT")])
    with (Some (StringV "HS256")).
  cbv beta iota.
  change (jwt.GetSigningMethod "HS256") with (Some jwt.SigningMethodHS256).
  cbv beta iota. cbn [bind].
  rewrite Hkey by reflexivity. cbn [bind jwt.Claims jwt.Method].
  change (jwt.MapClaims_Valid time_ok
            [("accountNumber", Float64 f); ("expiresAt", Float64 f')])
    with (Ok tt : result unit).
  unfold jwt.Verify, jwt.SigningMethodHS256.
  rewrite DecodeSegment_EncodeSegment. cbn [bind].
  change (jwt.EncodeSegment header_text +:+ "." +:+ jwt.EncodeSegment (claims_text n))
    with (signing_text n).
  rewrite String.eqb_refl.
  eexists. split; [reflexivity|]. split; reflexivity.
Qed.

Section HandlerProperties.
Variable env : gmap string string.
Variable now draw : Z.
Variable salt : option string.
Variable bcrypt_hash : string -> string -> string.
Variable bcrypt_matches : string -> string -> bool.
Variable RFC3339 : Z -> string.
Variable time_ok : string -> float64.t -> bool.

Lemma escape_to_app (s k : string) : json.escape_to s k = json.escape s +:+ k.
Proof.
  unfold json.escape.
  assert (Hlen : forall n s, (String.length s <= n)%nat ->
                 json.escape_to s k = json.escape_to s EmptyString +:+ k).
  { clear s. induction n as [|n IH]; intros s Hs.
    - destruct s; [reflexivity|simpl in Hs; lia].
    - destruct s as [|c r]; [reflexivity|]. simpl in Hs.
      cbn [json.escape_to]. destruct (N_of_ascii c <? 128)%N.
      + rewrite (IH r) by lia. rewrite append_assoc. reflexivity.
      + generalize (rune_len (String c r)). intros m.
        destruct m as [|[|[|[|[|m]]]]];
          destruct r as [|b1 [|b2 [|b3 r4]]];
          try destruct (json.is_line_separator c b1 b2);
          simpl in Hs;
          repeat match goal with
                 | |- context [json.escape_to ?t k] =>
                     rewrite (IH t) by (simpl; lia)
                 end;
          rewrite ?append_assoc; reflexivity. }
  exact (Hlen (String.length s) s (le_n _)).
Qed.

Lemma APIError_envelope (status : Z) (msg : string) :
  json_response status (APIError_json {| Error := msg |})
  = [http.HeaderAdd "Content-Type" "application/json";
     http.WriteHeader status;
     http.Write ("{" +:+ quoted "error" +:+ ":" +:+ quoted (json.escape msg) +:+ "}"
                 +:+ chr "010")].
Proof.
  transitivity
    [http.HeaderAdd "Content-Type" "application/json";
     http.WriteHeader status;
     http.Write (String "{" (String dq ("error" +:+ String dq (String ":"
                 (String dq (json.escape_to msg (String dq (String "}" (chr "010")))))))))];
    [reflexivity|].
  rewrite escape_to_app. unfold quoted. cbn. rewrite !append_assoc. reflexivity.
Qed.

Section AnyStore.
Context {S : Type} `{Storage S}.

Ltac run_handlers :=
  unfold Run, makeHTTPHandleFunc, withJWTAuth, HandleLogin, HandleAccount,
    HandleTransfer, HandleSingleAccount, HandleGetAccount, HandleGetAccountByID,
    HandleCreateAccount, HandleDeleteAccount, HandleTransferToAccount,
    PermissionsDenied, WriteJSON, mbind', call, write, ret, panic.

(* Case analysis on a scrutinee that contains no other case analysis. *)
Ltac split_match :=
  match goal with
  | |- context [match ?x with _ => _ end] =>
      lazymatch x with
      | context [match _ with _ => _ end] => fail
      | _ => destruct x eqn:?
      end
  end.

(** C8. A transfer request whose body decodes is answered with status 200
    and the decoded request, encoded again; the store is left as it was and
    no call is made on it.  On the [/transfer] route a POST gets exactly
    this answer. *)
Theorem HandleTransferToAccount_echoes (r : http.Request) (st : State S)
    (t : TransferRequest) :
  decode_TransferRequest (http.Body r) = Ok t ->
  let st' := mkState (store st)
               (w st ++ json_response http.StatusOK (TransferRequest_json t))
               (calls st) in
  HandleTransferToAccount r st = Val None st'
  /\ (http.Method r = "POST" ->
      Run env now draw salt bcrypt_hash bcrypt_matches RFC3339 time_ok
        RouteTransfer r st = Val tt st')
  /\ store st' = store st /\ calls st' = calls st
  /\ json_response http.StatusOK (TransferRequest_json t)
     = [http.HeaderAdd "Content-Type" "application/json";
        http.WriteHeader 200;
        http.Write ("{" +:+ quoted "toAccount" +:+ ":"
                    +:+ strconv.FormatInt (ToAccount t) +:+ ","
                    +:+ quoted "amount" +:+ ":"
                    +:+ strconv.FormatInt (Amount t) +:+ "}" +:+ chr "010")].
Proof.
  intros Hdec st'. repeat split.
  - unfold HandleTransferToAccount. rewrite Hdec. reflexivity.
  - intros Hm. unfold Run, makeHTTPHandleFunc, HandleTransfer, HandleTransferToAccount.
    rewrite Hm, Hdec. reflexivity.
Qed.

(** C9. The adapter turns an error a handler returns into the envelope
    with status 400 and adds nothing when the handler returns none; the
    denial is the same envelope with status 403; and on every route the
    calls on the writer are those of one response whose status is 200, or
    400 or 403 with the envelope. *)
Theorem makeHTTPHandleFunc_error_envelope (f : apiFunc) (r : http.Request)
    (st : State S) :
  (forall e st', f r st = Val (Some e) st' ->
     makeHTTPHandleFunc f r st = Val tt (error_response http.StatusBadRequest e st'))
  /\ (forall st', f r st = Val None st' -> makeHTTPHandleFunc f r st = Val tt st')
  /\ PermissionsDenied st
     = Val tt (error_response http.StatusForbidden "Permission denied" st)
  /\ (forall status msg,
        w (error_response status msg st)
        = w st ++ [http.HeaderAdd "Content-Type" "application/json";
                   http.WriteHeader status;
                   http.Write ("{" +:+ quoted "error" +:+ ":"
                               +:+ quoted (json.escape msg) +:+ "}" +:+ chr "010")])
  /\ (forall rt st',
        Run env now draw salt bcrypt_hash bcrypt_matches RFC3339 time_ok rt r st
        = Val tt st' ->
        exists status v,
          w st' = w st ++ json_response status v
          /\ (status = http.StatusOK
              \/ (status = http.StatusBadRequest \/ status = http.StatusForbidden)
                 /\ exists msg, v = APIError_json {| Error := msg |})).
Proof.
  split; [|split; [|split; [|split]]].
  - intros e st' Hf. unfold makeHTTPHandleFunc, mbind'. rewrite Hf. reflexivity.
  - intros st' Hf. unfold makeHTTPHandleFunc, mbind'. rewrite Hf. reflexivity.
  - reflexivity.
  - intros status msg. unfold error_response. simpl w.
    rewrite APIError_envelope. reflexivity.
  - intros rt st'. destruct rt; run_handlers; repeat (split_match; cbv beta);
      intros Heq; inversion Heq; subst; simpl;
      eauto 10.
Qed.
End AnyStore.


(** *** The token of an account *)

Lemma SigningString_createJWT (n : Z) :
  jwt.SigningString
    (jwt.NewWithClaims jwt.SigningMethodHS256
       [("expiresAt", Int 15000); ("accountNumber", Int n)])
  = Ok (signing_text n).
Proof. reflexivity. Qed.

Lemma createJWT_token_text (account : Account) :
  createJWT env account = Ok (token_text (Getenv env "JWT_SECRET") (Number account)).
Proof.
  unfold createJWT, jwt.SignedString. rewrite SigningString_createJWT. reflexivity.
Qed.

(** C4, as the code has it: issuing never looks at the secret.  For every
    account and every environment, also one where JWT_SECRET is unset or
    empty, [createJWT] returns a token: the signing input followed by its
    HMAC-SHA256 under whatever the variable holds. *)
Theorem createJWT_signs_under_any_secret (account : Account) :
  exists signing,
    createJWT env account
    = Ok (signing +:+ "."
          +:+ jwt.EncodeSegment (hmac.mac sha2.SHA256 (Getenv env "JWT_SECRET") signing)).
Proof. exists (signing_text (Number account)). apply createJWT_token_text. Qed.

(** *** The PostgreSQL store *)

Ltac run_pg :=
  unfold Run, makeHTTPHandleFunc, withJWTAuth, HandleLogin, HandleAccount,
    HandleTransfer, HandleSingleAccount, HandleGetAccount, HandleGetAccountByID,
    HandleCreateAccount, HandleDeleteAccount, HandleTransferToAccount,
    PermissionsDenied, WriteJSON, mbind', call, write, ret, panic;
  cbn [CreateAccount DeleteAccount UpdateAccount GetAccounts GetAccountByID
       GetAccountByNumber PostgresStore_Storage];
  unfold pg_CreateAccount, pg_DeleteAccount, pg_UpdateAccount, pg_GetAccounts,
    pg_GetAccountByID, pg_GetAccountByNumber, ret.

Ltac split_inner :=
  match goal with
  | |- context [match ?x with _ => _ end] =>
      lazymatch x with
      | context [match _ with _ => _ end] => fail
      | _ => destruct x eqn:?
      end
  end.

Lemma NewAccount_long_password (firstname lastname password : string) :
  (72 < String.length password)%nat ->
  NewAccount now draw salt bcrypt_hash firstname lastname password
  = Err "bcrypt: password length exceeds 72 bytes".
Proof.
  intros Hlen. unfold NewAccount, GenerateFromPassword.
  apply Nat.ltb_lt in Hlen. rewrite Hlen. reflexivity.
Qed.

(** C10. [HandleCreateAccount] drops the error of [NewAccount].  When the
    hashing of the request's password fails, the account pointer is nil, the
    handler passes it to the store, and [CreateAccount] dereferences it: the
    request ends in a nil-pointer panic, with nothing written to the writer
    and no error returned to the adapter. *)
Theorem HandleCreateAccount_nil_account (r : http.Request) (st : State PostgresStore)
    (req : CreateAccountRequest) (e : string) :
  decode_CreateAccountRequest (http.Body r) = Ok req ->
  NewAccount now draw salt bcrypt_hash
    (car_FirstName req) (car_LastName req) (car_Password req) = Err e ->
  let st' := mkState (store st) (w st) (calls st ++ [CallCreateAccount None]) in
  HandleCreateAccount now draw salt bcrypt_hash RFC3339 r st = Panic nil_deref st'
  /\ (http.Method r = "POST" ->
      Run env now draw salt bcrypt_hash bcrypt_matches RFC3339 time_ok RouteAccount r st
      = Panic nil_deref st').
Proof.
  intros Hdec Hnew st'. split.
  - unfold HandleCreateAccount. rewrite Hdec, Hnew. reflexivity.
  - intros Hm. unfold Run, makeHTTPHandleFunc, HandleAccount, HandleCreateAccount.
    rewrite Hm, Hdec, Hnew. reflexivity.
Qed.

Lemma filter_none_matching (id : Z) (l : list Account) :
  (forall a, In a l -> ID a <> id) ->
  List.filter (fun a => negb (ID a =? id)) l = l
  /\ List.filter (fun a => ID a =? id) l = [].
Proof.
  induction l as [|a l IH]; intros Hall; [split; reflexivity|].
  assert (Ha : ID a <> id) by (apply Hall; left; reflexivity).
  apply Z.eqb_neq in Ha. simpl. rewrite Ha. simpl.
  destruct IH as [IH1 IH2]; [intros b Hb; apply Hall; right; exact Hb|].
  rewrite IH1, IH2. split; reflexivity.
Qed.

(** C5. A request on [/account/{id}], the route that carries an id to the
    delete operation, whose id names no account is answered with an error
    response: the denial, 403 Permission denied.  The run ends normally (no
    panic), no handler is reached and the table is as it was.  When the
    token header passes the first two checks the store has been asked once
    for the account: that lookup is where the missing id is noticed. *)
Theorem delete_missing_account (r : http.Request) (st : State PostgresStore) (id : Z) :
  getID r = Ok id ->
  (forall a, In a (rows (store st)) -> ID a <> id) ->
  exists st',
    Run env now draw salt bcrypt_hash bcrypt_matches RFC3339 time_ok RouteAccountID r st
    = Val tt (denied st')
    /\ st' = (if negb (String.eqb (http.Header_Get r "x-jwt-token") EmptyString)
                 && is_ok (validateJWT env time_ok (http.Header_Get r "x-jwt-token"))
              then looked_up id (store st) st else st)
    /\ store st' = store st
    /\ (w st = [] ->
        http.status_of (w (denied st')) = Some http.StatusForbidden
        /\ http.body_of (w (denied st')) = permission_denied_body).
Proof.
  intros Hid Hmissing.
  assert (Hrun : Run env now draw salt bcrypt_hash bcrypt_matches RFC3339 time_ok
                   RouteAccountID r st
                 = Val tt (denied
                     (if negb (String.eqb (http.Header_Get r "x-jwt-token") EmptyString)
                         && is_ok (validateJWT env time_ok
                                     (http.Header_Get r "x-jwt-token"))
                      then looked_up id (store st) st else st))).
  { unfold Run, withJWTAuth.
    destruct (String.eqb (http.Header_Get r "x-jwt-token") EmptyString);
      [reflexivity|].
    destruct (validateJWT env time_ok (http.Header_Get r "x-jwt-token")) as [token|e];
      [|reflexivity].
    rewrite Hid. unfold mbind', call. cbn [GetAccountByID PostgresStore_Storage].
    unfold pg_GetAccountByID.
    destruct (filter_none_matching id (rows (store st)) Hmissing) as [_ ->].
    destruct (fault (store st) (QSelectByID id)); reflexivity. }
  eexists. split; [exact Hrun|]. split; [reflexivity|]. split.
  - destruct (negb (String.eqb (http.Header_Get r "x-jwt-token") EmptyString)
              && is_ok (validateJWT env time_ok (http.Header_Get r "x-jwt-token")));
      reflexivity.
  - intros Hw.
    destruct (negb (String.eqb (http.Header_Get r "x-jwt-token") EmptyString)
              && is_ok (validateJWT env time_ok (http.Header_Get r "x-jwt-token")));
      unfold denied, error_response; cbn [w looked_up]; rewrite Hw;
      split; reflexivity.
Qed.

(** Past the gate nothing looks for the account: [HandleDeleteAccount]
    called with an id that names no account, the statement accepted by the
    database, deletes nothing and answers 200 with the id. *)
Lemma HandleDeleteAccount_deletes_nothing (r : http.Request)
    (st : State PostgresStore) (id : Z) :
  getID r = Ok id ->
  (forall a, In a (rows (store st)) -> ID a <> id) ->
  fault (store st) (QDelete id) = None ->
  HandleDeleteAccount r st
  = Val None (mkState (store st)
                (w st ++ json_response http.StatusOK
                           (json.Object [("deleted:", jint id)]))
                (calls st ++ [CallDeleteAccount id])).
Proof.
  intros Hid Hmissing Hfault. unfold HandleDeleteAccount. rewrite Hid.
  unfold mbind', call. cbn [DeleteAccount PostgresStore_Storage].
  unfold pg_DeleteAccount. rewrite Hfault.
  destruct (filter_none_matching id (rows (store st)) Hmissing) as [-> _].
  destruct st as [[rs nv ft] ws cs]. reflexivity.
Qed.

(** C7. Whenever bcrypt takes the password (at most 72 bytes, the salt
    read), [NewAccount] builds the account, and its number is
    [rand.Intn(100000)]: the draw reduced modulo 100000, a value of
    [0, 100000), where every number of the range stands for equally many of
    the draws [Intn] accepts.  Nothing
    reassigns it: after any request on any route, every row of the table is
    a row that was there before, unchanged, or the account [NewAccount] has
    just built, under its new id.  And nothing compares it with the numbers
    in the table: [NewAccount] is not given the store, and [CreateAccount]
    appends the row whatever the table holds. *)
Theorem account_number_allocation :
  (forall firstname lastname password sl,
      (String.length password <= 72)%nat -> salt = Some sl ->
      NewAccount now draw salt bcrypt_hash firstname lastname password
      = Ok {| ID := 0; FirstName := firstname; LastName := lastname;
              Number := draw mod 100000; Balance := 0; CreatedAt := now;
              EncryptedPassword := bcrypt_hash sl password |}
      /\ 0 <= draw mod 100000 < 100000)
  /\ (forall firstname lastname password a,
      NewAccount now draw salt bcrypt_hash firstname lastname password = Ok a ->
      Number a = rand_Intn draw 100000 /\ 0 <= Number a < 100000)
  /\ (forall k v, 0 <= k < 100000 ->
        (0 <= v < 2147400000 /\ rand_Intn v 100000 = k
         <-> exists j, 0 <= j < 21474 /\ v = 100000 * j + k))
  /\ (forall rt r (st : State PostgresStore) a',
        In a' (rows (store (state_of
          (Run env now draw salt bcrypt_hash bcrypt_matches RFC3339 time_ok rt r st)))) ->
        In a' (rows (store st))
        \/ exists firstname lastname password a,
             NewAccount now draw salt bcrypt_hash firstname lastname password = Ok a
             /\ a' = with_ID (nextval (store st)) a /\ Number a' = Number a)
  /\ (forall a (s : PostgresStore),
        fault s (QInsert a) = None ->
        pg_CreateAccount (Some a) s
        = Val None {| rows := rows s ++ [with_ID (nextval s) a];
                      nextval := nextval s + 1;
                      fault := fault s |}).
Proof.
  split; [|split; [|split; [|split]]].
  - intros firstname lastname password sl Hlen Hsalt. split.
    + unfold NewAccount, GenerateFromPassword, rand_Intn. rewrite Hsalt.
      destruct (72 <? String.length password)%nat eqn:Hlong; [|reflexivity].
      apply Nat.ltb_lt in Hlong. lia.
    + apply Z.mod_pos_bound. lia.
  - intros firstname lastname password a. unfold NewAccount.
    destruct (GenerateFromPassword salt bcrypt_hash password); [|discriminate].
    intros [= <-]. simpl. split; [reflexivity|].
    unfold rand_Intn. apply Z.mod_pos_bound. lia.
  - intros k v Hk. unfold rand_Intn. split.
    + intros [Hv Hmod]. exists (v / 100000). split.
      * split; [apply Z.div_pos; lia|apply Z.div_lt_upper_bound; lia].
      * rewrite <- Hmod. apply Z.div_mod. lia.
    + intros [j [Hj ->]]. split; [lia|].
      rewrite Z.add_comm, Z.mul_comm, Z.mod_add by lia. apply Z.mod_small. lia.
  - intros rt r st a'. destruct rt; run_pg; repeat (split_inner; cbv beta);
      simpl; auto.
    + intros Hin. apply in_app_or in Hin. destruct Hin as [Hin|[<-|[]]]; [auto|].
      right. eexists _, _, _, _. split; [eassumption|]. split; reflexivity.
    + intros Hin. apply filter_In in Hin. tauto.
    + intros Hin. apply filter_In in Hin. tauto.
  - intros a s Hf. unfold pg_CreateAccount. rewrite Hf. reflexivity.
Qed.

(** C3, as the code has it.  For an account whose number lies within
    [-2^53, 2^53] (every number [NewAccount] allocates does), the token
    [createJWT] issues is accepted by [validateJWT], and the account number
    the gate reads from its claims is the account's number. *)
Theorem createJWT_validateJWT_roundtrip (account : Account) :
  - 2 ^ 53 <= Number account <= 2 ^ 53 ->
  exists tokenString token,
    createJWT env account = Ok tokenString
    /\ validateJWT env time_ok tokenString = Ok token
    /\ jwt.Valid token = true
    /\ bound_number token = Some (Number account).
Proof.
  intros Hrange.
  destruct (round_rat_integer _ Hrange) as [f [Hround Hint]].
  rewrite <- ParseFloat_FormatInt in Hround.
  destruct (Parse_token_text time_ok (Getenv env "JWT_SECRET") (Number account) f
              (fun token =>
                 match jwt.Method token with
                 | jwt.SigningMethodHMAC _ _ => Ok (Getenv env "JWT_SECRET")
                 | jwt.SigningMethodOther alg => Err ("unexpected signing method: " +:+ alg)
                 end)) as [token [Hparse [Hvalid Hclaim]]].
  - intros t ->. reflexivity.
  - exact Hround.
  - exists (token_text (Getenv env "JWT_SECRET") (Number account)), token.
    split; [apply createJWT_token_text|]. split; [exact Hparse|].
    split; [exact Hvalid|]. unfold bound_number. rewrite Hclaim, Hint. reflexivity.
Qed.

(** The hash is no part of what an account looks like from outside: the
    JSON of an account has the six tagged fields, and two accounts that
    differ only in the hash have the same JSON. *)
Lemma Account_json_hides_hash (a : Account) :
  Account_json RFC3339 a
  = json.Object [("id", jint (ID a));
                 ("firstName", json.Str (FirstName a));
                 ("lastName", json.Str (LastName a));
                 ("number", jint (Number a));
                 ("balance", jint (Balance a));
                 ("createdat", json.Str (RFC3339 (CreatedAt a)))]
  /\ forall hash,
       Account_json RFC3339
         {| ID := ID a; FirstName := FirstName a; LastName := LastName a;
            Number := Number a; Balance := Balance a; CreatedAt := CreatedAt a;
            EncryptedPassword := hash |}
       = Account_json RFC3339 a.
Proof. split; reflexivity. Qed.
End HandlerProperties.


(** * Further properties of the service *)

(** ** Ids in the path *)

Lemma digit_not_sign (c : ascii) :
  is_digit c = true -> Ascii.eqb c "+" = false /\ Ascii.eqb c "-" = false.
Proof.
  destruct c as [[] [] [] [] [] [] [] []]; intros Hd;
    try (vm_compute in Hd; discriminate Hd); split; reflexivity.
Qed.

Lemma ParseInt_FormatInt (z : Z) :
  strconv.in_int64 z = true -> strconv.ParseInt (strconv.FormatInt z) = Some z.
Proof.
  intros Hz. unfold strconv.ParseInt.
  assert (Hd : strconv.parse_digits_signed (strconv.FormatInt z) = Some z).
  { pose proof (FormatInt_cases z) as Hn. destruct z as [|p|p]; rewrite Hn.
    - reflexivity.
    - destruct (to_uint_head p) as [c [t [Hs [Hdig _]]]].
      destruct (digit_not_sign c Hdig) as [Hplus Hminus].
      unfold strconv.parse_digits_signed. rewrite Hs, Hminus, Hplus, <- Hs.
      apply parse_digits_uint.
    - unfold strconv.parse_digits_signed. change (Ascii.eqb "-" "-") with true.
      cbv iota. rewrite parse_digits_uint. reflexivity. }
  rewrite Hd, Hz. reflexivity.
Qed.

Lemma getID_FormatInt (r : http.Request) (id : Z) :
  strconv.in_int64 id = true ->
  http.URLParam r "id" = strconv.FormatInt id ->
  getID r = Ok id.
Proof.
  intros Hid Hp. unfold getID. rewrite Hp. unfold strconv.Atoi.
  rewrite (ParseInt_FormatInt id Hid). reflexivity.
Qed.

(** X1. An id of the int64 range, written in decimal as the route
    parameter, is the id [getID] returns. *)
Theorem getID_decimal (r : http.Request) (id : Z) :
  strconv.in_int64 id = true ->
  http.URLParams r !! "id" = Some (strconv.FormatInt id) ->
  getID r = Ok id.
Proof.
  intros Hid Hparam. apply getID_FormatInt; [exact Hid|].
  unfold http.URLParam. rewrite Hparam. reflexivity.
Qed.

Lemma getID_no_parameter (r : http.Request) :
  http.URLParams r !! "id" = None ->
  getID r = Err "invalid ID provided ".
Proof.
  intros Hparam. unfold getID, http.URLParam. rewrite Hparam. reflexivity.
Qed.

(** ** The table *)

Lemma filter_ID_absent (id : Z) (l : list Account) :
  ~ In id (map ID l) -> List.filter (fun a => ID a =? id) l = [].
Proof.
  induction l as [|b l IH]; [reflexivity|]. intros Hnot. simpl in *.
  destruct (ID b =? id) eqn:Heq.
  - apply Z.eqb_eq in Heq. exfalso. apply Hnot. left. exact Heq.
  - apply IH. intros Hin. apply Hnot. right. exact Hin.
Qed.

Lemma filter_ID_unique (a : Account) (l : list Account) :
  List.NoDup (map ID l) -> In a l -> List.filter (fun b => ID b =? ID a) l = [a].
Proof.
  induction l as [|b l IH]; [intros _ []|].
  intros Hnd Hin. simpl in Hnd. apply NoDup_cons_iff in Hnd. destruct Hnd as [Hb Hnd].
  simpl. destruct Hin as [->|Hin].
  - rewrite Z.eqb_refl. rewrite (filter_ID_absent _ _ Hb). reflexivity.
  - destruct (ID b =? ID a) eqn:Heq.
    + apply Z.eqb_eq in Heq. exfalso. apply Hb. rewrite Heq.
      apply in_map. exact Hin.
    + apply IH; assumption.
Qed.

Lemma pg_GetAccountByID_unique (s : PostgresStore) (a : Account) :
  List.NoDup (map ID (rows s)) -> In a (rows s) ->
  fault s (QSelectByID (ID a)) = None ->
  pg_GetAccountByID (ID a) s = Val (Ok a) s.
Proof.
  intros Hnd Hin Hfault. unfold pg_GetAccountByID.
  rewrite Hfault, (filter_ID_unique a _ Hnd Hin). reflexivity.
Qed.

Lemma pg_GetAccountByID_Ok (s s' : PostgresStore) (id : Z) (a : Account) :
  pg_GetAccountByID id s = Val (Ok a) s' -> s' = s /\ In a (rows s) /\ ID a = id.
Proof.
  unfold pg_GetAccountByID. destruct (fault s (QSelectByID id)); [discriminate|].
  destruct (List.filter (fun a => ID a =? id) (rows s)) as [|b l] eqn:Hfilter;
    [discriminate|].
  intros Heq. injection Heq as <- <-.
  assert (Hb : In b (List.filter (fun a => ID a =? id) (rows s)))
    by (rewrite Hfilter; left; reflexivity).
  apply filter_In in Hb. destruct Hb as [Hin Hid]. apply Z.eqb_eq in Hid. auto.
Qed.

(** X2. In a table in good order every stored account is the one its id
    finds, and the lookup leaves the store as it was. *)
Theorem GetAccountByID_finds (s : PostgresStore) (a : Account) :
  wf_store s -> In a (rows s) -> fault s (QSelectByID (ID a)) = None ->
  pg_GetAccountByID (ID a) s = Val (Ok a) s.
Proof.
  intros [Hnd _] Hin Hfault. unfold pg_GetAccountByID.
  rewrite Hfault, (filter_ID_unique a _ Hnd Hin). reflexivity.
Qed.

(** X3. What a lookup by id returns is a row of the table with that id;
    it fails exactly when the database refuses the query or no row has the
    id; and it never changes the store. *)
Theorem GetAccountByID_sound (s : PostgresStore) (id : Z) :
  match pg_GetAccountByID id s with
  | Val (Ok a) s' => s' = s /\ In a (rows s) /\ ID a = id
  | Val (Err e) s' =>
      s' = s /\ (fault s (QSelectByID id) = Some e
                 \/ (forall a, In a (rows s) -> ID a <> id)
                    /\ e = "Account " +:+ strconv.FormatInt id +:+ " not found")
  | Panic _ _ => False
  end.
Proof.
  unfold pg_GetAccountByID. destruct (fault s (QSelectByID id)) as [e|] eqn:Hf.
  - split; [reflexivity|]. left. reflexivity.
  - destruct (List.filter (fun a => ID a =? id) (rows s)) as [|a l] eqn:Hfilter.
    + split; [reflexivity|]. right. split; [|reflexivity].
      intros a Hin Heq.
      assert (Ha : In a (List.filter (fun a => ID a =? id) (rows s)))
        by (apply filter_In; split; [exact Hin|apply Z.eqb_eq; exact Heq]).
      rewrite Hfilter in Ha. exact Ha.
    + assert (Ha : In a (List.filter (fun a => ID a =? id) (rows s)))
        by (rewrite Hfilter; left; reflexivity).
      apply filter_In in Ha. destruct Ha as [Hin Heq]. apply Z.eqb_eq in Heq.
      split; [reflexivity|]. split; assumption.
Qed.

(** X4. An account created in a table in good order is stored under the
    next id of the sequence, and that id finds it: the account as it was
    given, with the new id. *)
Theorem CreateAccount_then_GetAccountByID (s : PostgresStore) (a : Account) :
  wf_store s ->
  fault s (QInsert a) = None ->
  fault s (QSelectByID (nextval s)) = None ->
  exists s',
    pg_CreateAccount (Some a) s = Val None s'
    /\ pg_GetAccountByID (nextval s) s' = Val (Ok (with_ID (nextval s) a)) s'
    /\ wf_store s'.
Proof.
  intros [Hnd Hlt] Hins Hsel. unfold pg_CreateAccount. rewrite Hins.
  eexists. split; [reflexivity|].
  assert (Hfresh : ~ In (nextval s) (map ID (rows s))).
  { intros Hin. apply in_map_iff in Hin. destruct Hin as [b [Hb Hin]].
    specialize (Hlt b Hin). lia. }
  assert (Hwf : wf_store {| rows := rows s ++ [with_ID (nextval s) a];
                            nextval := nextval s + 1; fault := fault s |}).
  { split; simpl.
    - rewrite map_app. simpl. apply List.NoDup_app; [exact Hnd| |].
      + apply List.NoDup_cons; [intros []|apply List.NoDup_nil].
      + intros x Hx [<-|[]]. exact (Hfresh Hx).
    - intros b Hb. apply in_app_or in Hb. destruct Hb as [Hb|[<-|[]]].
      + specialize (Hlt b Hb). lia.
      + simpl. lia. }
  split; [|exact Hwf].
  change (nextval s) with (ID (with_ID (nextval s) a)) at 1.
  apply pg_GetAccountByID_unique; [exact (proj1 Hwf)| |exact Hsel].
  simpl. apply in_or_app. right. left. reflexivity.
Qed.

(** X5. After an account has been deleted its id finds nothing; every
    other id finds what it found before; and deleting the id once more
    changes nothing. *)
Theorem DeleteAccount_then_GetAccountByID (s : PostgresStore) (id : Z) :
  fault s (QDelete id) = None ->
  exists s',
    pg_DeleteAccount id s = Val None s'
    /\ (fault s (QSelectByID id) = None ->
        pg_GetAccountByID id s'
        = Val (Err ("Account " +:+ strconv.FormatInt id +:+ " not found")) s')
    /\ (forall id', id' <> id ->
        match pg_GetAccountByID id' s, pg_GetAccountByID id' s' with
        | Val res _, Val res' _ => res = res'
        | _, _ => False
        end)
    /\ pg_DeleteAccount id s' = Val None s'.
Proof.
  intros Hdel. unfold pg_DeleteAccount. rewrite Hdel. eexists.
  split; [reflexivity|]. split; [|split].
  - intros Hsel. unfold pg_GetAccountByID. simpl. rewrite Hsel.
    rewrite filter_ID_absent; [reflexivity|].
    intros Hin. apply in_map_iff in Hin. destruct Hin as [b [Hb Hin]].
    apply filter_In in Hin. destruct Hin as [_ Hne].
    apply negb_true_iff, Z.eqb_neq in Hne. contradiction.
  - intros id' Hne. unfold pg_GetAccountByID. simpl.
    destruct (fault s (QSelectByID id')); [reflexivity|].
    assert (Hsame : List.filter (fun a => ID a =? id')
                      (List.filter (fun a => negb (ID a =? id)) (rows s))
                    = List.filter (fun a => ID a =? id') (rows s)).
    { induction (rows s) as [|b l IH]; [reflexivity|]. simpl.
      destruct (ID b =? id) eqn:Hb; simpl.
      - apply Z.eqb_eq in Hb.
        destruct (ID b =? id') eqn:Hb'; [apply Z.eqb_eq in Hb'; lia|exact IH].
      - destruct (ID b =? id'); [rewrite IH; reflexivity|exact IH]. }
    rewrite Hsame.
    destruct (List.filter (fun a => ID a =? id') (rows s)); reflexivity.
  - simpl. rewrite Hdel. f_equal.
    assert (Hidem : forall l,
               List.filter (fun a => negb (ID a =? id))
                 (List.filter (fun a => negb (ID a =? id)) l)
               = List.filter (fun a => negb (ID a =? id)) l).
    { induction l as [|b l IH]; [reflexivity|]. simpl.
      destruct (ID b =? id) eqn:Hb; simpl; [exact IH|].
      rewrite Hb. simpl. rewrite IH. reflexivity. }
    rewrite Hidem. reflexivity.
Qed.

Section RouteProperties.
Variable env : gmap string string.
Variable now draw : Z.
Variable salt : option string.
Variable bcrypt_hash : string -> string -> string.
Variable bcrypt_matches : string -> string -> bool.
Variable RFC3339 : Z -> string.
Variable time_ok : string -> float64.t -> bool.

Ltac run_routes :=
  unfold Run, makeHTTPHandleFunc, withJWTAuth, HandleLogin, HandleAccount,
    HandleTransfer, HandleSingleAccount, HandleGetAccount, HandleGetAccountByID,
    HandleCreateAccount, HandleDeleteAccount, HandleTransferToAccount,
    PermissionsDenied, WriteJSON, mbind', call, write, ret, panic;
  cbn [CreateAccount DeleteAccount UpdateAccount GetAccounts GetAccountByID
       GetAccountByNumber PostgresStore_Storage];
  unfold pg_CreateAccount, pg_DeleteAccount, pg_UpdateAccount, pg_GetAccounts,
    pg_GetAccountByID, pg_GetAccountByNumber, ret.

Ltac case_inner :=
  match goal with
  | |- context [match ?x with _ => _ end] =>
      lazymatch x with
      | context [match _ with _ => _ end] => fail
      | _ => destruct x eqn:?
      end
  end.

Lemma wf_store_delete (s : PostgresStore) (id : Z) :
  wf_store s ->
  wf_store {| rows := List.filter (fun a => negb (ID a =? id)) (rows s);
              nextval := nextval s; fault := fault s |}.
Proof.
  intros [Hnd Hlt]. split; simpl.
  - clear Hlt. induction (rows s) as [|b l IH]; [exact Hnd|].
    simpl in Hnd. apply NoDup_cons_iff in Hnd. destruct Hnd as [Hb Hnd].
    simpl. destruct (negb (ID b =? id)); [|exact (IH Hnd)].
    simpl. apply List.NoDup_cons; [|exact (IH Hnd)].
    intros Hin. apply Hb. apply in_map_iff in Hin. destruct Hin as [c [Hc Hin]].
    apply filter_In in Hin. apply in_map_iff. exists c. tauto.
  - intros a Hin. apply filter_In in Hin. apply Hlt. tauto.
Qed.

Lemma wf_store_insert (s : PostgresStore) (a : Account) :
  wf_store s ->
  wf_store {| rows := rows s ++ [with_ID (nextval s) a];
              nextval := nextval s + 1; fault := fault s |}.
Proof.
  intros [Hnd Hlt]. split; simpl.
  - rewrite map_app. simpl. apply List.NoDup_app; [exact Hnd| |].
    + apply List.NoDup_cons; [intros []|apply List.NoDup_nil].
    + intros x Hx [<-|[]]. apply in_map_iff in Hx. destruct Hx as [b [Hb Hin]].
      specialize (Hlt b Hin). lia.
  - intros b Hb. apply in_app_or in Hb. destruct Hb as [Hb|[<-|[]]].
    + specialize (Hlt b Hb). lia.
    + simpl. lia.
Qed.

(** X6. Whatever the request and the route, a table in good order stays in
    good order: ids stay unique and below the next value of the sequence,
    also when the request ends in a panic. *)
Theorem Run_keeps_table_in_order (rt : route) (r : http.Request)
    (st : State PostgresStore) :
  wf_store (store st) ->
  wf_store (store (state_of
    (Run env now draw salt bcrypt_hash bcrypt_matches RFC3339 time_ok rt r st))).
Proof.
  intros Hwf. destruct rt; run_routes; repeat (case_inner; cbv beta); simpl;
    auto using wf_store_delete, wf_store_insert.
Qed.

(** X7. The table is written by two requests only: a POST on [/account]
    and a DELETE (on [/account/{id}] past the gate, or on [/transfer]).
    Every other request, whatever it carries, leaves the store as it was. *)
Theorem only_create_and_delete_write (rt : route) (r : http.Request)
    (st : State PostgresStore) :
  store (state_of
    (Run env now draw salt bcrypt_hash bcrypt_matches RFC3339 time_ok rt r st))
  <> store st ->
  (rt = RouteAccount /\ http.Method r = "POST")
  \/ ((rt = RouteAccountID \/ rt = RouteTransfer) /\ http.Method r = "DELETE").
Proof.
  destruct rt; run_routes; repeat (case_inner; cbv beta); simpl;
    intros Hneq; try (exfalso; apply Hneq; reflexivity);
    repeat match goal with
           | H : String.eqb _ _ = true |- _ => apply String.eqb_eq in H
           end;
    auto 6.
Qed.

(** X8. Through the gate an account is shown only to its own token: when
    a GET on [/account/{id}] is answered 200, the token of the request
    verifies under the server's secret, the account in the answer is the row
    of that id, and the number bound in the token is that account's number.
    The store is unchanged. *)
Theorem gated_GET_shows_own_account (r : http.Request) (st st' : State PostgresStore) :
  http.Method r = "GET" ->
  w st = [] ->
  Run env now draw salt bcrypt_hash bcrypt_matches RFC3339 time_ok RouteAccountID r st
  = Val tt st' ->
  http.status_of (w st') = Some http.StatusOK ->
  exists token account id,
    validateJWT env time_ok (http.Header_Get r "x-jwt-token") = Ok token
    /\ getID r = Ok id
    /\ In account (rows (store st)) /\ ID account = id
    /\ bound_number token = Some (Number account)
    /\ w st' = json_response http.StatusOK (Account_json RFC3339 account)
    /\ store st' = store st.
Proof.
  intros Hm Hw. unfold Run, withJWTAuth.
  destruct (String.eqb (http.Header_Get r "x-jwt-token") EmptyString);
    [intros [= <-]; simpl; rewrite Hw; discriminate|].
  destruct (validateJWT env time_ok (http.Header_Get r "x-jwt-token")) as [token|e];
    [|intros [= <-]; simpl; rewrite Hw; discriminate].
  destruct (getID r) as [id|e] eqn:Hid;
    [|intros [= <-]; simpl; rewrite Hw; discriminate].
  unfold mbind', call. cbn [GetAccountByID PostgresStore_Storage].
  destruct (pg_GetAccountByID id (store st)) as [[account|e] s'|msg s'] eqn:Hget;
    [|intros [= <-]; simpl; rewrite Hw; discriminate|discriminate].
  destruct (pg_GetAccountByID_Ok _ _ _ _ Hget) as [-> [Hin Hida]].
  destruct (map_get "accountNumber" (jwt.Claims token)) as [[| | |f| | |]|] eqn:Hclaim;
    try discriminate.
  destruct (Number account =? float64.to_int64 f) eqn:Hnum; simpl;
    [|intros [= <-]; simpl; rewrite Hw; discriminate].
  apply Z.eqb_eq in Hnum.
  unfold makeHTTPHandleFunc, HandleSingleAccount, HandleGetAccountByID, mbind', call.
  rewrite Hm, Hid. cbn [String.eqb Ascii.eqb Bool.eqb].
  cbn [GetAccountByID PostgresStore_Storage]. cbn [store]. rewrite Hget.
  unfold WriteJSON, mbind', write, ret. cbn [store w calls].
  intros [= <-] _. exists token, account, id. cbn [store w].
  unfold bound_number. rewrite Hw, Hclaim, Hnum. repeat split; auto.
Qed.

(** X9. A login is answered 200 only for a POST whose body names the
    number of a stored account and a password that the stored hash accepts;
    the answer then carries that number and the token [createJWT] issues for
    the account, and the store is unchanged. *)
Theorem login_answers_200_only_for_matching_password (r : http.Request)
    (st st' : State PostgresStore) :
  w st = [] ->
  Run env now draw salt bcrypt_hash bcrypt_matches RFC3339 time_ok RouteLogin r st
  = Val tt st' ->
  http.status_of (w st') = Some http.StatusOK ->
  exists req acc,
    http.Method r = "POST"
    /\ decode_LoginRequest (http.Body r) = Ok req
    /\ In acc (rows (store st)) /\ Number acc = lr_Number req
    /\ ValidatePW bcrypt_matches acc (lr_Password req) = true
    /\ w st' = json_response http.StatusOK
                 (LoginReponse_json
                    {| resp_Number := Number acc;
                       resp_Token := token_text (Getenv env "JWT_SECRET") (Number acc) |})
    /\ store st' = store st.
Proof.
  intros Hw. unfold Run, makeHTTPHandleFunc, HandleLogin, mbind'.
  destruct (String.eqb (http.Method r) "POST") eqn:Hm; cbn [negb];
    [|intros [= <-]; simpl; rewrite Hw; discriminate].
  apply String.eqb_eq in Hm.
  destruct (decode_LoginRequest (http.Body r)) as [req|e] eqn:Hdec;
    [|intros [= <-]; simpl; rewrite Hw; discriminate].
  unfold call. cbn [GetAccountByNumber PostgresStore_Storage]. unfold pg_GetAccountByNumber.
  destruct (fault (store st) (QSelectByNumber (lr_Number req)));
    [intros [= <-]; simpl; rewrite Hw; discriminate|].
  destruct (List.filter (fun a => Number a =? lr_Number req) (rows (store st)))
    as [|acc l] eqn:Hfilter;
    [intros [= <-]; simpl; rewrite Hw; discriminate|].
  assert (Hacc : In acc (List.filter (fun a => Number a =? lr_Number req)
                           (rows (store st))))
    by (rewrite Hfilter; left; reflexivity).
  apply filter_In in Hacc. destruct Hacc as [Hin Hnum]. apply Z.eqb_eq in Hnum.
  destruct (ValidatePW bcrypt_matches acc (lr_Password req)) eqn:Hpw; cbn [negb];
    [|intros [= <-]; simpl; rewrite Hw; discriminate].
  rewrite createJWT_token_text.
  unfold WriteJSON, mbind', write, ret. cbn [store w calls].
  intros [= <-] _. exists req, acc. cbn [store w]. rewrite Hw.
  repeat split; auto.
Qed.

(** ** Tokens at the gate *)

Lemma validateJWT_token_text (n : Z) :
  - 2 ^ 53 <= n <= 2 ^ 53 ->
  exists token f,
    validateJWT env time_ok (token_text (Getenv env "JWT_SECRET") n) = Ok token
    /\ map_get "accountNumber" (jwt.Claims token) = Some (Float64 f)
    /\ float64.to_int64 f = n.
Proof.
  intros Hrange.
  destruct (round_rat_integer _ Hrange) as [f [Hround Hint]].
  rewrite <- ParseFloat_FormatInt in Hround.
  destruct (Parse_token_text time_ok (Getenv env "JWT_SECRET") n f
              (fun token =>
                 match jwt.Method token with
                 | jwt.SigningMethodHMAC _ _ => Ok (Getenv env "JWT_SECRET")
                 | jwt.SigningMethodOther alg => Err ("unexpected signing method: " +:+ alg)
                 end)) as [token [Hparse [_ Hclaim]]].
  - intros t ->. reflexivity.
  - exact Hround.
  - exists token, f. auto.
Qed.

Lemma token_text_not_empty (secret : string) (n : Z) :
  String.eqb (token_text secret n) EmptyString = false.
Proof.
  unfold token_text, signing_text.
  replace (jwt.EncodeSegment header_text) with "eyJhbGciOiJIUzI1NiIsInR5cCI6IkpXVCJ9"
    by (vm_compute; reflexivity).
  reflexivity.
Qed.

Section AnyStorage.
Context {S : Type} `{Storage S}.

(** With the token issued for account number [m] in the header, the gate
    runs the handler when the account of the path has number [m] and
    answers with the denial when it has another number. *)
Lemma withJWTAuth_token_text (handlerFunc : HandlerFunc) (r : http.Request)
    (st : State S) (m id : Z) (account : Account) (s' : S) :
  - 2 ^ 53 <= m <= 2 ^ 53 ->
  http.Header_Get r "x-jwt-token" = token_text (Getenv env "JWT_SECRET") m ->
  getID r = Ok id ->
  GetAccountByID id (store st) = Val (Ok account) s' ->
  withJWTAuth env time_ok handlerFunc r st
  = if Number account =? m then handlerFunc r (looked_up id s' st)
    else Val tt (denied (looked_up id s' st)).
Proof.
  intros Hrange Htoken Hid Hget.
  destruct (validateJWT_token_text m Hrange) as [token [f [Hv [Hclaim Hint]]]].
  unfold withJWTAuth. rewrite Htoken, token_text_not_empty, Hv, Hid.
  unfold mbind', call. rewrite Hget, Hclaim, Hint.
  destruct (Number account =? m); reflexivity.
Qed.

(** X11. A DELETE on [/transfer] deletes nothing: the route has no id
    parameter, so the handler answers 400 before it reaches the store. *)
Theorem transfer_DELETE_reaches_no_account (r : http.Request) (st : State S) :
  http.Method r = "DELETE" ->
  http.URLParams r !! "id" = None ->
  Run env now draw salt bcrypt_hash bcrypt_matches RFC3339 time_ok RouteTransfer r st
  = Val tt (error_response http.StatusBadRequest "invalid ID provided " st).
Proof.
  intros Hm Hparam. unfold Run, makeHTTPHandleFunc, HandleTransfer, HandleDeleteAccount.
  rewrite Hm, (getID_no_parameter r Hparam). reflexivity.
Qed.

(** X12. A method a route does not serve is answered 400 with the method
    named in the message (on [/account] and [/transfer]), and the store is
    neither called nor changed. *)
Theorem unserved_method_is_an_error (r : http.Request) (st : State S) :
  http.Method r <> "GET" -> http.Method r <> "POST" ->
  Run env now draw salt bcrypt_hash bcrypt_matches RFC3339 time_ok RouteAccount r st
  = Val tt (error_response http.StatusBadRequest
              ("methods not allowed " +:+ http.Method r) st)
  /\ (http.Method r <> "DELETE" ->
      Run env now draw salt bcrypt_hash bcrypt_matches RFC3339 time_ok RouteTransfer r st
      = Val tt (error_response http.StatusBadRequest
                  ("methods not allowed " +:+ http.Method r) st)).
Proof.
  intros Hget Hpost. apply String.eqb_neq in Hget. apply String.eqb_neq in Hpost.
  split.
  - unfold Run, makeHTTPHandleFunc, HandleAccount. rewrite Hget, Hpost. reflexivity.
  - intros Hdel. apply String.eqb_neq in Hdel.
    unfold Run, makeHTTPHandleFunc, HandleTransfer. rewrite Hget, Hpost, Hdel.
    reflexivity.
Qed.
End AnyStorage.

Lemma Header_Get_with_token (token id : string) (r : http.Request) :
  http.Header_Get (with_token token id r) "x-jwt-token" = token.
Proof.
  unfold http.Header_Get, with_token. cbn [http.Header].
  replace (http.CanonicalMIMEHeaderKey "x-jwt-token") with "X-Jwt-Token"
    by (vm_compute; reflexivity).
  rewrite lookup_insert_eq. reflexivity.
Qed.

Lemma getID_with_token (token : string) (id : Z) (r : http.Request) :
  strconv.in_int64 id = true ->
  getID (with_token token (strconv.FormatInt id) r) = Ok id.
Proof.
  intros Hid. apply getID_FormatInt; [exact Hid|].
  unfold http.URLParam, with_token. cbn [http.URLParams].
  rewrite lookup_insert_eq. reflexivity.
Qed.

(** What the gate does with the token issued for number [m] when the path
    names a stored account. *)
Lemma gate_with_issued_token (s : PostgresStore) (acc : Account) (m : Z)
    (r : http.Request) :
  List.NoDup (map ID (rows s)) -> In acc (rows s) ->
  fault s (QSelectByID (ID acc)) = None ->
  - 2 ^ 53 <= m <= 2 ^ 53 ->
  strconv.in_int64 (ID acc) = true ->
  let r' := with_token (token_text (Getenv env "JWT_SECRET") m)
                       (strconv.FormatInt (ID acc)) r in
  Run env now draw salt bcrypt_hash bcrypt_matches RFC3339 time_ok RouteAccountID r'
    (initial s)
  = if Number acc =? m
    then makeHTTPHandleFunc (HandleSingleAccount RFC3339) r'
           (mkState s [] [CallGetAccountByID (ID acc)])
    else Val tt (denied (mkState s [] [CallGetAccountByID (ID acc)])).
Proof.
  intros Hnd Hin Hfault Hrange Hid64 r'.
  assert (Hget : GetAccountByID (ID acc) (store (initial s)) = Val (Ok acc) s)
    by exact (pg_GetAccountByID_unique s acc Hnd Hin Hfault).
  unfold Run.
  exact (withJWTAuth_token_text _ r' (initial s) m (ID acc) acc s Hrange
           (Header_Get_with_token _ _ r) (getID_with_token _ _ r Hid64) Hget).
Qed.

(** X10. The token issued for one account number opens no account of
    another number: whatever the method, the request is answered with the
    denial after one lookup, and the store is left as it was. *)
Theorem issued_token_is_denied_elsewhere (s : PostgresStore) (acc : Account) (m : Z)
    (r : http.Request) :
  wf_store s -> In acc (rows s) ->
  fault s (QSelectByID (ID acc)) = None ->
  - 2 ^ 53 <= m <= 2 ^ 53 ->
  strconv.in_int64 (ID acc) = true ->
  Number acc <> m ->
  Run env now draw salt bcrypt_hash bcrypt_matches RFC3339 time_ok RouteAccountID
    (with_token (token_text (Getenv env "JWT_SECRET") m)
                (strconv.FormatInt (ID acc)) r)
    (initial s)
  = Val tt (mkState s
              (json_response http.StatusForbidden
                 (APIError_json {| Error := "Permission denied" |}))
              [CallGetAccountByID (ID acc)]).
Proof.
  intros [Hnd _] Hin Hfault Hrange Hid64 Hne.
  rewrite (gate_with_issued_token s acc m r Hnd Hin Hfault Hrange Hid64).
  apply Z.eqb_neq in Hne. rewrite Hne. reflexivity.
Qed.

(** X13. The token issued for a stored account fetches that account: a GET
    on [/account/{id}] with the account's id in the path and its token in
    the header is answered 200 with the account, the store asked twice (by
    the gate and by the handler) and left as it was. *)
Theorem issued_token_fetches_account (s : PostgresStore) (acc : Account)
    (r : http.Request) :
  wf_store s -> In acc (rows s) ->
  fault s (QSelectByID (ID acc)) = None ->
  - 2 ^ 53 <= Number acc <= 2 ^ 53 ->
  strconv.in_int64 (ID acc) = true ->
  http.Method r = "GET" ->
  Run env now draw salt bcrypt_hash bcrypt_matches RFC3339 time_ok RouteAccountID
    (with_token (token_text (Getenv env "JWT_SECRET") (Number acc))
                (strconv.FormatInt (ID acc)) r)
    (initial s)
  = Val tt (mkState s
              (json_response http.StatusOK (Account_json RFC3339 acc))
              [CallGetAccountByID (ID acc); CallGetAccountByID (ID acc)]).
Proof.
  intros [Hnd _] Hin Hfault Hrange Hid64 Hm.
  rewrite (gate_with_issued_token s acc (Number acc) r Hnd Hin Hfault Hrange Hid64).
  rewrite Z.eqb_refl.
  unfold makeHTTPHandleFunc, HandleSingleAccount, HandleGetAccountByID, mbind', call.
  rewrite (getID_with_token _ _ r Hid64).
  change (http.Method (with_token (token_text (Getenv env "JWT_SECRET") (Number acc))
                         (strconv.FormatInt (ID acc)) r)) with (http.Method r).
  rewrite Hm. cbn [String.eqb Ascii.eqb Bool.eqb store].
  cbn [GetAccountByID PostgresStore_Storage].
  rewrite (pg_GetAccountByID_unique s acc Hnd Hin Hfault). reflexivity.
Qed.

(** X14. A token that [validateJWT] accepts has three segments, names an
    HMAC method in its header, and its third segment is the HMAC of the
    first two under JWT_SECRET; its claims are those of the second segment.
    A token of another method (none, RSA, ECDSA) is never accepted. *)
Theorem validateJWT_accepts_only_signed_tokens (tokenStr : string) (token : jwt.Token) :
  validateJWT env time_ok tokenStr = Ok token ->
  exists p0 p1 p2 alg hash claimBytes claimsJSON,
    strings.Split tokenStr "." = [p0; p1; p2]
    /\ jwt.Method token = jwt.SigningMethodHMAC alg hash
    /\ jwt.DecodeSegment p2
       = Ok (hmac.mac hash (Getenv env "JWT_SECRET") (p0 +:+ "." +:+ p1))
    /\ jwt.DecodeSegment p1 = Ok claimBytes
    /\ json.Decode claimBytes = Some claimsJSON
    /\ gojson.to_map claimsJSON = Ok (jwt.Claims token)
    /\ jwt.MapClaims_Valid time_ok (jwt.Claims token) = Ok tt
    /\ jwt.Valid token = true /\ jwt.Signature token = p2.
Proof.
  unfold validateJWT, jwt.Parse, jwt.ParseUnverified.
  destruct (strings.Split tokenStr ".") as [|p0 [|p1 [|p2 [|p3 rest]]]];
    try discriminate.
  destruct (jwt.DecodeSegment p0) as [headerBytes|e]; [|discriminate]. cbn [bind].
  destruct (json.Unmarshal headerBytes) as [hj|]; [|discriminate].
  cbn [jwt.decode_json bind].
  destruct (gojson.to_map hj) as [header|e]; [|discriminate]. cbn [bind].
  destruct (jwt.DecodeSegment p1) as [claimBytes|e] eqn:Hp1; [|discriminate].
  cbn [bind].
  destruct (json.Decode claimBytes) as [cj|] eqn:Hdec; [|discriminate].
  cbn [jwt.decode_json bind].
  destruct (gojson.to_map cj) as [claims|e] eqn:Hclaims; [|discriminate]. cbn [bind].
  destruct (map_get "alg" header) as [[| | | |alg| |]|]; try discriminate.
  destruct (jwt.GetSigningMethod alg) as [[name hash|name]|]; try discriminate.
  cbn [bind jwt.Method jwt.Claims jwt.Raw jwt.Header].
  destruct (jwt.MapClaims_Valid time_ok claims) as [[]|e] eqn:Hvalid; [|discriminate].
  unfold jwt.Verify.
  destruct (jwt.DecodeSegment p2) as [sig|e] eqn:Hp2; [|discriminate]. cbn [bind].
  destruct (String.eqb sig (hmac.mac hash (Getenv env "JWT_SECRET") (p0 +:+ "." +:+ p1)))
    eqn:Hsig; [|discriminate].
  apply String.eqb_eq in Hsig. subst sig.
  intros [= <-]. cbn [jwt.Method jwt.Claims jwt.Valid jwt.Signature].
  exists p0, p1, p2, name, hash, claimBytes, cj. repeat split; auto.
Qed.

(** X15. A create request whose password bcrypt takes (at most 72 bytes,
    the salt read) and whose insert the database accepts stores the account
    under the next id of the sequence, with a number of [0, 100000) and a
    balance of 0; the answer is 200 with that account, but under id 0: the
    id of the row is not reported. *)
Theorem create_stores_and_answers (r : http.Request) (st : State PostgresStore)
    (req : CreateAccountRequest) (sl : string) :
  http.Method r = "POST" ->
  decode_CreateAccountRequest (http.Body r) = Ok req ->
  (String.length (car_Password req) <= 72)%nat ->
  salt = Some sl ->
  (forall a, fault (store st) (QInsert a) = None) ->
  let a := {| ID := 0; FirstName := car_FirstName req; LastName := car_LastName req;
              Number := draw mod 100000; Balance := 0; CreatedAt := now;
              EncryptedPassword := bcrypt_hash sl (car_Password req) |} in
  Run env now draw salt bcrypt_hash bcrypt_matches RFC3339 time_ok RouteAccount r st
  = Val tt
      (mkState {| rows := rows (store st) ++ [with_ID (nextval (store st)) a];
                  nextval := nextval (store st) + 1;
                  fault := fault (store st) |}
         (w st ++ json_response http.StatusOK (Account_json RFC3339 a))
         (calls st ++ [CallCreateAccount (Some a)]))
  /\ 0 <= Number a < 100000
  /\ Account_json RFC3339 a
     = json.Object [("id", jint 0);
                    ("firstName", json.Str (car_FirstName req));
                    ("lastName", json.Str (car_LastName req));
                    ("number", jint (draw mod 100000));
                    ("balance", jint 0);
                    ("createdat", json.Str (RFC3339 now))].
Proof.
  intros Hm Hdec Hlen Hsalt Hfault a. split; [|split].
  - unfold Run, makeHTTPHandleFunc, HandleAccount, HandleCreateAccount.
    rewrite Hm, Hdec. cbn [String.eqb Ascii.eqb Bool.eqb].
    unfold NewAccount, GenerateFromPassword, rand_Intn.
    destruct (72 <? String.length (car_Password req))%nat eqn:Hlong;
      [apply Nat.ltb_lt in Hlong; lia|].
    rewrite Hsalt. fold a. unfold mbind', call.
    cbn [CreateAccount PostgresStore_Storage]. unfold pg_CreateAccount.
    rewrite (Hfault a). reflexivity.
  - simpl. apply Z.mod_pos_bound. lia.
  - reflexivity.
Qed.

(** ** The transfer request in JSON *)

Lemma find_TransferRequest_fields :
  find_field "toAccount" TransferRequest_fields = Some (mkfield "ToAccount" "toAccount" KInt)
  /\ find_field "amount" TransferRequest_fields = Some (mkfield "Amount" "amount" KInt).
Proof. split; vm_compute; reflexivity. Qed.

Lemma TransferRequest_json_members (t : TransferRequest) :
  TransferRequest_json t
  = json.Object [("toAccount", json.Number (strconv.FormatInt (ToAccount t)));
                 ("amount", json.Number (strconv.FormatInt (Amount t)))].
Proof. reflexivity. Qed.

(* The text of an object of these two members, for any two literals. *)
Lemma encode_to_two_numbers (x y k : string) :
  json.encode_to (json.Object [("toAccount", json.Number x); ("amount", json.Number y)]) k
  = String "{" (String dq ("toAccount" +:+ String dq
       (String ":" (x +:+ String ","
          (String dq ("amount" +:+ String dq
             (String ":" (y +:+ String "}" k)))))))).
Proof. vm_compute. reflexivity. Qed.

Lemma Decode_TransferRequest_text (a b : Z) :
  json.Decode (json.encode (TransferRequest_json {| ToAccount := a; Amount := b |}))
  = Some (json.Object [("toAccount", json.Number (strconv.FormatInt a));
                       ("amount", json.Number (strconv.FormatInt b))]).
Proof.
  rewrite TransferRequest_json_members. cbn [ToAccount Amount].
  unfold json.encode. rewrite encode_to_two_numbers.
  unfold json.Decode, json.parse.
  set (tail := String dq ("toAccount" +:+ String dq
                 (String ":" (strconv.FormatInt a +:+ String ","
                    (String dq ("amount" +:+ String dq
                       (String ":" (strconv.FormatInt b +:+ String "}" EmptyString)))))))).
  assert (Hfuel : exists fuel,
             (2 + String.length (String "{" tail))%nat = S (S (S (S (S fuel)))))
    by (eexists; reflexivity).
  destruct Hfuel as [fuel ->].
  change (json.parse_value (S (S (S (S (S fuel))))) 0 (String "{" tail))
    with (json.parse_members (S (S (S (S fuel)))) 1 tail []).
  subst tail.
  rewrite parse_members_unescaped by reflexivity.
  rewrite parse_value_number;
    [|apply FormatInt_head|apply scan_number_FormatInt; reflexivity].
  cbn [json.skip_ws json.is_ws Ascii.eqb Bool.eqb orb]. cbv beta iota.
  rewrite parse_members_unescaped by reflexivity.
  rewrite parse_value_number;
    [|apply FormatInt_head|apply scan_number_FormatInt; reflexivity].
  cbn [json.skip_ws json.is_ws Ascii.eqb Bool.eqb orb]. cbv beta iota.
  reflexivity.
Qed.

Lemma encode_TransferRequest_line (t : TransferRequest) :
  json.encode_to (TransferRequest_json t) (chr "010")
  = json.encode (TransferRequest_json t) +:+ chr "010".
Proof.
  rewrite TransferRequest_json_members. unfold json.encode.
  rewrite !encode_to_two_numbers.
  cbn [String.append]. rewrite append_assoc. cbn [String.append].
  rewrite append_assoc. reflexivity.
Qed.

(** X16. A transfer request of int64 fields, written as encoding/json
    writes it, is decoded to itself; posted to [/transfer] it comes back
    byte for byte, followed by a line feed, while the store is neither
    called nor changed. *)
Theorem transfer_round_trip (r : http.Request) (t : TransferRequest)
    (st : State PostgresStore) :
  strconv.in_int64 (ToAccount t) = true ->
  strconv.in_int64 (Amount t) = true ->
  http.Method r = "POST" ->
  http.Body r = json.encode (TransferRequest_json t) ->
  decode_TransferRequest (http.Body r) = Ok t
  /\ Run env now draw salt bcrypt_hash bcrypt_matches RFC3339 time_ok RouteTransfer r st
     = Val tt (mkState (store st)
                 (w st ++ [http.HeaderAdd "Content-Type" "application/json";
                           http.WriteHeader 200;
                           http.Write (http.Body r +:+ chr "010")])
                 (calls st)).
Proof.
  intros Hto Ham Hm Hbody.
  assert (Hdec : decode_TransferRequest (http.Body r) = Ok t).
  { rewrite Hbody. destruct t as [a b]. cbn [ToAccount Amount] in *.
    unfold decode_TransferRequest, decode_struct.
    rewrite Decode_TransferRequest_text.
    destruct find_TransferRequest_fields as [Hf1 Hf2].
    cbn [decode_members]. rewrite Hf1. cbn [fvalue decode_field go_name].
    rewrite (ParseInt_FormatInt a Hto). cbn [decode_members]. rewrite Hf2.
    cbn [fvalue decode_field go_name]. rewrite (ParseInt_FormatInt b Ham).
    reflexivity. }
  split; [exact Hdec|].
  unfold Run, makeHTTPHandleFunc, HandleTransfer, HandleTransferToAccount.
  rewrite Hm, Hdec. cbn [String.eqb Ascii.eqb Bool.eqb].
  unfold WriteJSON, mbind', write, ret, json_response.
  rewrite encode_TransferRequest_line, Hbody. reflexivity.
Qed.

(** X17. Through the gate an account is deleted only under its own token:
    when a DELETE on [/account/{id}] is answered 200, the token of the
    request verifies, the number bound in it is the number of the account
    the id names, the rows of that id are gone and every other row is
    still there. *)
Theorem gated_DELETE_removes_own_account (r : http.Request)
    (st st' : State PostgresStore) :
  http.Method r = "DELETE" ->
  w st = [] ->
  Run env now draw salt bcrypt_hash bcrypt_matches RFC3339 time_ok RouteAccountID r st
  = Val tt st' ->
  http.status_of (w st') = Some http.StatusOK ->
  exists token account id,
    validateJWT env time_ok (http.Header_Get r "x-jwt-token") = Ok token
    /\ getID r = Ok id
    /\ In account (rows (store st)) /\ ID account = id
    /\ bound_number token = Some (Number account)
    /\ rows (store st') = List.filter (fun a => negb (ID a =? id)) (rows (store st))
    /\ (forall b, In b (rows (store st')) <-> In b (rows (store st)) /\ ID b <> id).
Proof.
  intros Hm Hw. unfold Run, withJWTAuth.
  destruct (String.eqb (http.Header_Get r "x-jwt-token") EmptyString);
    [intros [= <-]; simpl; rewrite Hw; discriminate|].
  destruct (validateJWT env time_ok (http.Header_Get r "x-jwt-token")) as [token|e];
    [|intros [= <-]; simpl; rewrite Hw; discriminate].
  destruct (getID r) as [id|e] eqn:Hid;
    [|intros [= <-]; simpl; rewrite Hw; discriminate].
  unfold mbind', call. cbn [GetAccountByID PostgresStore_Storage].
  destruct (pg_GetAccountByID id (store st)) as [[account|e] s'|msg s'] eqn:Hget;
    [|intros [= <-]; simpl; rewrite Hw; discriminate|discriminate].
  destruct (pg_GetAccountByID_Ok _ _ _ _ Hget) as [-> [Hin Hida]].
  destruct (map_get "accountNumber" (jwt.Claims token)) as [[| | |f| | |]|] eqn:Hclaim;
    try discriminate.
  destruct (Number account =? float64.to_int64 f) eqn:Hnum; simpl;
    [|intros [= <-]; simpl; rewrite Hw; discriminate].
  apply Z.eqb_eq in Hnum.
  unfold makeHTTPHandleFunc, HandleSingleAccount, HandleDeleteAccount, mbind', call.
  rewrite Hm, Hid. cbn [String.eqb Ascii.eqb Bool.eqb].
  cbn [DeleteAccount PostgresStore_Storage]. cbn [store]. unfold pg_DeleteAccount.
  destruct (fault (store st) (QDelete id));
    [intros [= <-]; simpl; rewrite Hw; discriminate|].
  unfold WriteJSON, mbind', write, ret. cbn [store w calls].
  intros Hrun _. injection Hrun as <-. exists token, account, id. cbn [store rows].
  unfold bound_number. rewrite Hclaim, Hnum.
  do 6 (split; [auto|]). intros b. rewrite filter_In, negb_true_iff, Z.eqb_neq.
  reflexivity.
Qed.

(** X18. A lookup by number returns the first row of that number: with two
    accounts of one number, every login on the number is judged against the
    first of them. *)
Theorem GetAccountByNumber_first (s : PostgresStore) (number : Z) (a : Account)
    (s' : PostgresStore) :
  pg_GetAccountByNumber number s = Val (Ok a) s' ->
  s' = s
  /\ exists before after,
       rows s = before ++ a :: after
       /\ Number a = number
       /\ forall b, In b before -> Number b <> number.
Proof.
  unfold pg_GetAccountByNumber. destruct (fault s (QSelectByNumber number));
    [discriminate|].
  destruct (List.filter (fun a => Number a =? number) (rows s)) as [|x l] eqn:Hfilter;
    [discriminate|].
  intros [= -> <-]. split; [reflexivity|].
  revert Hfilter. induction (rows s) as [|b rest IH]; [discriminate|].
  simpl. destruct (Number b =? number) eqn:Hb.
  - intros [= -> _]. exists [], rest. apply Z.eqb_eq in Hb.
    split; [reflexivity|]. split; [exact Hb|]. intros c [].
  - intros Hrest. destruct (IH Hrest) as [before [after [Hrows [Hnum Hbefore]]]].
    exists (b :: before), after. rewrite Hrows. split; [reflexivity|].
    split; [exact Hnum|]. intros c [<-|Hc]; [apply Z.eqb_neq; exact Hb|auto].
Qed.

(** ** The hash stays inside *)

Lemma cons_eq_inv {A : Type} (x y : A) (l k : list A) :
  x :: l = y :: k -> x = y /\ l = k.
Proof. intros Heq. injection Heq as Hx Hl. split; assumption. Qed.

Lemma forget_hash_shown (a b : Account) :
  forget_hash a = forget_hash b ->
  ID a = ID b /\ Number a = Number b
  /\ Account_json RFC3339 a = Account_json RFC3339 b.
Proof.
  intros Heq. split; [exact (f_equal ID Heq)|]. split; [exact (f_equal Number Heq)|].
  exact (f_equal (Account_json RFC3339) Heq).
Qed.

Lemma map_Account_json_forget_hash (l1 l2 : list Account) :
  map forget_hash l1 = map forget_hash l2 ->
  map (Account_json RFC3339) l1 = map (Account_json RFC3339) l2.
Proof.
  revert l2. induction l1 as [|a l1 IH]; intros [|b l2]; try discriminate;
    [reflexivity|].
  simpl. intros Heq. apply cons_eq_inv in Heq. destruct Heq as [Ha Hl].
  rewrite (IH l2 Hl). destruct (forget_hash_shown a b Ha) as [_ [_ ->]]. reflexivity.
Qed.

Lemma filter_forget_hash (p : Account -> bool) (l1 l2 : list Account) :
  (forall a, p (forget_hash a) = p a) ->
  map forget_hash l1 = map forget_hash l2 ->
  map forget_hash (List.filter p l1) = map forget_hash (List.filter p l2).
Proof.
  intros Hp. revert l2. induction l1 as [|a l1 IH]; intros [|b l2]; try discriminate;
    [reflexivity|].
  simpl. intros Heq. apply cons_eq_inv in Heq. destruct Heq as [Ha Hl].
  rewrite <- (Hp a), <- (Hp b), Ha. destruct (p (forget_hash b)); simpl.
  - rewrite Ha, (IH l2 Hl). reflexivity.
  - exact (IH l2 Hl).
Qed.

Lemma same_shown_lookup (s1 s2 : PostgresStore) (id : Z) :
  same_shown s1 s2 ->
  match pg_GetAccountByID id s1, pg_GetAccountByID id s2 with
  | Val (Ok a1) t1, Val (Ok a2) t2 =>
      t1 = s1 /\ t2 = s2 /\ forget_hash a1 = forget_hash a2
  | Val (Err e1) t1, Val (Err e2) t2 => t1 = s1 /\ t2 = s2 /\ e1 = e2
  | _, _ => False
  end.
Proof.
  intros [Hrows [_ Hfault]]. unfold pg_GetAccountByID. rewrite (Hfault (QSelectByID id)).
  destruct (fault s2 (QSelectByID id)); [auto|].
  pose proof (filter_forget_hash (fun a => ID a =? id) _ _ (fun a => eq_refl) Hrows)
    as Hfilter.
  destruct (List.filter (fun a => ID a =? id) (rows s1)) as [|a1 l1];
    destruct (List.filter (fun a => ID a =? id) (rows s2)) as [|a2 l2];
    try discriminate; [auto|].
  apply cons_eq_inv in Hfilter. destruct Hfilter as [Ha _]. auto.
Qed.

Lemma same_shown_delete (s1 s2 : PostgresStore) (id : Z) :
  same_shown s1 s2 ->
  same_shown {| rows := List.filter (fun a => negb (ID a =? id)) (rows s1);
                nextval := nextval s1; fault := fault s1 |}
             {| rows := List.filter (fun a => negb (ID a =? id)) (rows s2);
                nextval := nextval s2; fault := fault s2 |}.
Proof.
  intros [Hrows [Hnext Hfault]]. split; [|split; assumption]. simpl.
  exact (filter_forget_hash (fun a => negb (ID a =? id)) _ _ (fun a => eq_refl) Hrows).
Qed.

Lemma same_shown_insert (s1 s2 : PostgresStore) (a : Account) :
  same_shown s1 s2 ->
  same_shown {| rows := rows s1 ++ [with_ID (nextval s1) a];
                nextval := nextval s1 + 1; fault := fault s1 |}
             {| rows := rows s2 ++ [with_ID (nextval s2) a];
                nextval := nextval s2 + 1; fault := fault s2 |}.
Proof.
  intros [Hrows [Hnext Hfault]]. split; [|split]; simpl.
  - rewrite !map_app, Hrows, Hnext. reflexivity.
  - rewrite Hnext. reflexivity.
  - exact Hfault.
Qed.

(** X19. Only a login reads a stored hash.  On every other route, two
    tables that differ at most in the hashes of their rows give the same
    run: the same calls on the response writer, hence the same status and
    body, the same calls on the store, the same panic if there is one, and
    tables that again differ at most in the hashes. *)
Theorem only_login_reads_the_hash (rt : route) (r : http.Request)
    (s1 s2 : PostgresStore) (ws : list http.WriterCall) (cs : list StoreCall) :
  rt <> RouteLogin ->
  same_shown s1 s2 ->
  same_answer
    (Run env now draw salt bcrypt_hash bcrypt_matches RFC3339 time_ok rt r
       (mkState s1 ws cs))
    (Run env now draw salt bcrypt_hash bcrypt_matches RFC3339 time_ok rt r
       (mkState s2 ws cs)).
Proof.
  intros Hrt Hsame. pose proof Hsame as [Hrows [Hnext Hfault]].
  assert (Hget : same_answer
            (makeHTTPHandleFunc (HandleGetAccount RFC3339) r (mkState s1 ws cs))
            (makeHTTPHandleFunc (HandleGetAccount RFC3339) r (mkState s2 ws cs))).
  { run_routes. cbn [store w calls]. rewrite (Hfault QSelectAll).
    destruct (fault s2 QSelectAll); cbn [same_answer store w calls]; [auto|].
    rewrite (map_Account_json_forget_hash _ _ Hrows). auto. }
  assert (Hdel : forall ws' cs', same_answer
            (makeHTTPHandleFunc HandleDeleteAccount r (mkState s1 ws' cs'))
            (makeHTTPHandleFunc HandleDeleteAccount r (mkState s2 ws' cs'))).
  { intros ws' cs'. run_routes. destruct (getID r) as [id|e];
      cbn [store w calls same_answer]; [|auto].
    rewrite (Hfault (QDelete id)).
    destruct (fault s2 (QDelete id)); cbn [same_answer store w calls]; [auto|].
    split; [reflexivity|]. split; [reflexivity|]. apply same_shown_delete, Hsame. }
  destruct rt; [congruence| | |].
  - unfold Run, makeHTTPHandleFunc, HandleAccount.
    destruct (String.eqb (http.Method r) "GET"); [exact Hget|].
    run_routes. destruct (String.eqb (http.Method r) "POST");
      [|cbn [same_answer store w calls]; auto].
    destruct (decode_CreateAccountRequest (http.Body r)) as [req|e];
      [|cbn [same_answer store w calls]; auto].
    destruct (NewAccount now draw salt bcrypt_hash (car_FirstName req)
                (car_LastName req) (car_Password req)) as [a|e];
      cbn [store w calls]; [|cbn [same_answer store w calls]; auto].
    rewrite (Hfault (QInsert a)).
    destruct (fault s2 (QInsert a)); cbn [same_answer store w calls]; [auto|].
    split; [reflexivity|]. split; [reflexivity|]. apply same_shown_insert, Hsame.
  - unfold Run, withJWTAuth.
    destruct (String.eqb (http.Header_Get r "x-jwt-token") EmptyString);
      [cbn [PermissionsDenied]; run_routes; cbn [same_answer store w calls]; auto|].
    destruct (validateJWT env time_ok (http.Header_Get r "x-jwt-token")) as [token|e];
      [|run_routes; cbn [same_answer store w calls]; auto].
    destruct (getID r) as [id|e] eqn:Hid;
      [|run_routes; cbn [same_answer store w calls]; auto].
    unfold mbind', call. cbn [GetAccountByID PostgresStore_Storage store].
    pose proof (same_shown_lookup s1 s2 id Hsame) as Hlook.
    destruct (pg_GetAccountByID id s1) as [[a1|e1] t1|m1 t1] eqn:Hl1;
      destruct (pg_GetAccountByID id s2) as [[a2|e2] t2|m2 t2] eqn:Hl2;
      try contradiction.
    + destruct Hlook as [-> [-> Ha]].
      destruct (forget_hash_shown a1 a2 Ha) as [_ [Hnum Hjson]]. rewrite Hnum.
      cbn [w calls].
      destruct (map_get "accountNumber" (jwt.Claims token)) as [[| | |f| | |]|];
        try (unfold panic; cbn [same_answer store w calls]; auto).
      destruct (negb (Number a2 =? float64.to_int64 f));
        [run_routes; cbn [same_answer store w calls]; auto|].
      unfold makeHTTPHandleFunc, HandleSingleAccount.
      destruct (String.eqb (http.Method r) "GET").
      * run_routes. rewrite Hid. cbn [store w calls]. 
        change (match fault s1 (QSelectByID id) with
                | Some e => Val (Err e) s1
                | None => match List.filter (fun a => ID a =? id) (rows s1) with
                          | a :: _ => Val (Ok a) s1
                          | [] => Val (Err ("Account " +:+ strconv.FormatInt id
                                            +:+ " not found")) s1
                          end
                end) with (pg_GetAccountByID id s1).
        change (match fault s2 (QSelectByID id) with
                | Some e => Val (Err e) s2
                | None => match List.filter (fun a => ID a =? id) (rows s2) with
                          | a :: _ => Val (Ok a) s2
                          | [] => Val (Err ("Account " +:+ strconv.FormatInt id
                                            +:+ " not found")) s2
                          end
                end) with (pg_GetAccountByID id s2).
        rewrite Hl1, Hl2. cbn [same_answer store w calls]. rewrite Hjson. auto.
      * destruct (String.eqb (http.Method r) "DELETE"); [apply Hdel|].
        run_routes. cbn [same_answer store w calls]. auto.
    + destruct Hlook as [-> [-> ->]]. run_routes. cbn [same_answer store w calls]. auto.
  - unfold Run, makeHTTPHandleFunc, HandleTransfer.
    destruct (String.eqb (http.Method r) "GET"); [exact Hget|].
    destruct (String.eqb (http.Method r) "POST").
    { run_routes. destruct (decode_TransferRequest (http.Body r));
        cbn [same_answer store w calls]; auto. }
    destruct (String.eqb (http.Method r) "DELETE"); [apply Hdel|].
    run_routes. cbn [same_answer store w calls]. auto.
Qed.

(** ** Seeding and logging in *)

Lemma filter_Number_absent (n : Z) (l : list Account) :
  (forall b, In b l -> Number b <> n) -> List.filter (fun a => Number a =? n) l = [].
Proof.
  induction l as [|b l IH]; [reflexivity|]. intros Hnot. simpl.
  destruct (Number b =? n) eqn:Heq.
  - apply Z.eqb_eq in Heq. exfalso. exact (Hnot b (or_introl eq_refl) Heq).
  - apply IH. intros c Hc. apply Hnot. right. exact Hc.
Qed.

(** X20. A seeded account logs in.  When bcrypt takes the password and
    accepts it against its own hash, the database takes the statements, and
    no earlier row has the number drawn, [seedAccount] stores the account
    and returns it (under id 0, not the id of the row), and a login with the
    number drawn and the password is answered 200 with the token issued for
    that number. *)
Theorem seeded_account_logs_in (s : PostgresStore) (fname lname pw sl : string)
    (r : http.Request) :
  (String.length pw <= 72)%nat ->
  salt = Some sl ->
  bcrypt_matches (bcrypt_hash sl pw) pw = true ->
  (forall q, fault s q = None) ->
  (forall b, In b (rows s) -> Number b <> draw mod 100000) ->
  http.Method r = "POST" ->
  decode_LoginRequest (http.Body r)
  = Ok {| lr_Number := draw mod 100000; lr_Password := pw |} ->
  exists a s',
    seedAccount now draw salt bcrypt_hash fname lname pw (initial s)
    = Val (Ok a) (mkState s' [] [CallCreateAccount (Some a)])
    /\ ID a = 0 /\ Number a = draw mod 100000
    /\ rows s' = rows s ++ [with_ID (nextval s) a]
    /\ Run env now draw salt bcrypt_hash bcrypt_matches RFC3339 time_ok RouteLogin r
         (initial s')
       = Val tt
           (mkState s'
              (json_response http.StatusOK
                 (LoginReponse_json
                    {| resp_Number := draw mod 100000;
                       resp_Token := token_text (Getenv env "JWT_SECRET")
                                       (draw mod 100000) |}))
              [CallGetAccountByNumber (draw mod 100000)]).
Proof.
  intros Hlen Hsalt Hpw Hfault Hfree Hm Hbody.
  assert (Hnew : NewAccount now draw salt bcrypt_hash fname lname pw
                 = Ok {| ID := 0; FirstName := fname; LastName := lname;
                         Number := draw mod 100000; Balance := 0; CreatedAt := now;
                         EncryptedPassword := bcrypt_hash sl pw |}).
  { unfold NewAccount, GenerateFromPassword, rand_Intn. rewrite Hsalt.
    destruct (72 <? String.length pw)%nat eqn:Hlong; [|reflexivity].
    apply Nat.ltb_lt in Hlong. lia. }
  eexists. eexists. split.
  { unfold seedAccount, mbind', call. rewrite Hnew.
    cbn [CreateAccount PostgresStore_Storage store initial]. unfold pg_CreateAccount.
    rewrite Hfault. reflexivity. }
  split; [reflexivity|]. split; [reflexivity|]. split; [reflexivity|].
  unfold Run, makeHTTPHandleFunc, HandleLogin, mbind', call.
  rewrite Hm, Hbody. cbn [String.eqb Ascii.eqb Bool.eqb negb lr_Number lr_Password].
  cbn [GetAccountByNumber PostgresStore_Storage store initial].
  unfold pg_GetAccountByNumber. cbn [fault rows]. rewrite Hfault.
  rewrite List.filter_app, (filter_Number_absent _ _ Hfree). cbn [List.filter Number with_ID].
  rewrite Z.eqb_refl. cbn [app]. unfold ValidatePW. cbn [EncryptedPassword with_ID].
  rewrite Hpw. cbn [negb]. rewrite createJWT_token_text. reflexivity.
Qed.
End RouteProperties.

(** * The theorems at sample inputs *)

(** C3, as stated, fails for an account number beyond 2^53: the number goes
    through the token as a float64.  The token of account number
    9007199254740993 is accepted, and the number read back from it is
    9007199254740992. *)
Lemma createJWT_validateJWT_loses_large_number :
  bind (createJWT sample_env (sample_account 9007199254740993)) (fun tokenString =>
  bind (validateJWT sample_env any_time tokenString) (fun token =>
  Ok (bound_number token)))
  = Ok (Some 9007199254740992)
  /\ Number (sample_account 9007199254740993) <> 9007199254740992.
Proof. split; [vm_compute; reflexivity|discriminate]. Qed.

Lemma createJWT_validateJWT_roundtrip_witness :
  - 2 ^ 53 <= Number (sample_account 56789) <= 2 ^ 53
  /\ exists tokenString token,
       createJWT sample_env (sample_account 56789) = Ok tokenString
       /\ validateJWT sample_env any_time tokenString = Ok token
       /\ jwt.Valid token = true
       /\ bound_number token = Some (Number (sample_account 56789)).
Proof.
  split; [simpl; lia|].
  apply (createJWT_validateJWT_roundtrip sample_env any_time (sample_account 56789)).
  simpl. lia.
Defined.

(** C4, as stated, fails: with JWT_SECRET unset, and with JWT_SECRET set to
    the empty string, [createJWT] returns a token signed under the empty
    key, and [validateJWT] accepts it in the same environment. *)
Lemma createJWT_signs_with_empty_secret :
  createJWT ∅ (sample_account 42)
  = Ok ("eyJhbGciOiJIUzI1NiIsInR5cCI6IkpXVCJ9"
        +:+ ".eyJhY2NvdW50TnVtYmVyIjo0MiwiZXhwaXJlc0F0IjoxNTAwMH0"
        +:+ ".DbSytroK9-0vzYi5HOmYRemzeFKdS-AunLVCiEFHhjM")
  /\ createJWT {[ "JWT_SECRET" := EmptyString ]} (sample_account 42)
     = createJWT ∅ (sample_account 42)
  /\ bind (createJWT ∅ (sample_account 42)) (fun tokenString =>
     bind (validateJWT ∅ any_time tokenString) (fun token =>
     Ok (jwt.Valid token, bound_number token)))
     = Ok (true, Some 42).
Proof.
  split; [vm_compute; reflexivity|].
  split; vm_compute; reflexivity.
Qed.

Lemma delete_missing_account_witness :
  let r := with_token (token_text (Getenv sample_env "JWT_SECRET") 56789)
                      (strconv.FormatInt 999)
                      (request "DELETE" None None EmptyString) in
  let st := initial sample_store in
  getID r = Ok 999
  /\ (forall a, In a (rows (store st)) -> ID a <> 999)
  /\ Run sample_env 0 0 None sample_hash sample_matches strconv.FormatInt any_time
       RouteAccountID r st
     = Val tt (denied (mkState sample_store [] [CallGetAccountByID 999]))
  /\ http.status_of (w (denied (mkState sample_store [] [CallGetAccountByID 999])))
     = Some http.StatusForbidden.
Proof.
  intros r st.
  assert (Hid : getID r = Ok 999) by (apply getID_with_token; reflexivity).
  assert (Hmissing : forall a, In a (rows (store st)) -> ID a <> 999)
    by (intros a [<-|[]]; discriminate).
  assert (Hpasses : negb (String.eqb (http.Header_Get r "x-jwt-token") EmptyString)
                    && is_ok (validateJWT sample_env any_time
                                (http.Header_Get r "x-jwt-token")) = true).
  { unfold r. rewrite Header_Get_with_token, token_text_not_empty.
    destruct (validateJWT_token_text sample_env any_time 56789 ltac:(lia))
      as [token [f [-> _]]].
    reflexivity. }
  destruct (delete_missing_account sample_env 0 0 None sample_hash sample_matches
              strconv.FormatInt any_time r st 999 Hid Hmissing)
    as [st' [Hrun [Hst' [_ Hresponse]]]].
  rewrite Hpasses in Hst'. subst st'.
  split; [exact Hid|]. split; [exact Hmissing|]. split; [exact Hrun|].
  exact (proj1 (Hresponse eq_refl)).
Defined.

Lemma HandleTransferToAccount_echoes_witness :
  let r := request "POST" None None transfer_body in
  let t := {| ToAccount := 7; Amount := 250 |} in
  decode_TransferRequest (http.Body r) = Ok t
  /\ HandleTransferToAccount r (initial sample_store)
     = Val None (mkState sample_store
                   (json_response http.StatusOK (TransferRequest_json t)) []).
Proof.
  intros r t.
  assert (Hdec : decode_TransferRequest (http.Body r) = Ok t)
    by (vm_compute; reflexivity).
  split; [exact Hdec|].
  exact (proj1 (HandleTransferToAccount_echoes sample_env 0 0 None sample_hash
                  sample_matches strconv.FormatInt any_time r (initial sample_store) t
                  Hdec)).
Defined.

Lemma HandleCreateAccount_nil_account_witness :
  let r := request "POST" None None long_password_body in
  let req := {| car_FirstName := "A"; car_LastName := "B";
                car_Password := long_password |} in
  let e := "bcrypt: password length exceeds 72 bytes" in
  decode_CreateAccountRequest (http.Body r) = Ok req
  /\ NewAccount 0 0 (Some "salt") sample_hash
       (car_FirstName req) (car_LastName req) (car_Password req) = Err e
  /\ HandleCreateAccount 0 0 (Some "salt") sample_hash strconv.FormatInt r
       (initial empty_store)
     = Panic nil_deref (mkState empty_store [] [CallCreateAccount None]).
Proof.
  intros r req e.
  assert (Hdec : decode_CreateAccountRequest (http.Body r) = Ok req)
    by (vm_compute; reflexivity).
  assert (Hnew : NewAccount 0 0 (Some "salt") sample_hash
                   (car_FirstName req) (car_LastName req) (car_Password req) = Err e)
    by (vm_compute; reflexivity).
  split; [exact Hdec|]. split; [exact Hnew|].
  exact (proj1 (HandleCreateAccount_nil_account sample_env 0 0 (Some "salt") sample_hash
                  sample_matches strconv.FormatInt any_time r (initial empty_store)
                  req e Hdec Hnew)).
Defined.

(** ** Known answers of the packages *)

Example sha256_abc :
  hex (string_of_bytes (sha2.sum sha2.SHA256 (bytes_of_string "abc")))
  = "ba7816bf8f01cfea414140de5dae2223b00361a396177a9cb410ff61f20015ad".
Proof. vm_compute. reflexivity. Qed.

Example sha384_abc :
  hex (string_of_bytes (sha2.sum sha2.SHA384 (bytes_of_string "abc")))
  = "cb00753f45a35e8bb5a03d699ac65007272c32ab0eded1631a8b605a43ff5bed"
    +:+ "8086072ba1e7cc2358baeca134c825a7".
Proof. vm_compute. reflexivity. Qed.

Example sha512_abc :
  hex (string_of_bytes (sha2.sum sha2.SHA512 (bytes_of_string "abc")))
  = "ddaf35a193617abacc417349ae20413112e6fa4e89a97ea20a9eeee64b55d39a"
    +:+ "2192992a274fc1a836ba3c23a3feebbd454d4423643ce80e2a9ac94fa54ca49f".
Proof. vm_compute. reflexivity. Qed.

Example hmac_sha256_fox :
  hex (hmac.mac sha2.SHA256 "key" "The quick brown fox jumps over the lazy dog")
  = "f7bc83f430538424b13298e6aa6fb143ef4d59a14946175997479dbc2d1a3cd8".
Proof. vm_compute. reflexivity. Qed.

Example reference_token_verifies :
  bind (jwt.Parse any_time reference_token (fun _ => Ok "your-256-bit-secret"))
       (fun t => Ok (jwt.Valid t, jwt.Alg (jwt.Method t), map_get "sub" (jwt.Claims t)))
  = Ok (true, "HS256", Some (StringV "1234567890"))
  /\ is_ok (jwt.Parse any_time reference_token (fun _ => Ok "your-256-bit-secreT"))
     = false.
Proof. split; vm_compute; reflexivity. Qed.

(** ** The scenario of the specification *)

(** Creating an account stores it under a fresh id with a number of
    [0, 100000), and the answer leaves the hash out. *)
Example scenario_create :
  serve RouteAccount (request "POST" None None create_body) (initial empty_store)
  = Val tt
      (mkState created_store
         (json_response 200
            (json.Object [("id", jint 0); ("firstName", json.Str "A");
                          ("lastName", json.Str "B"); ("number", jint 56789);
                          ("balance", jint 0);
                          ("createdat", json.Str "1700000000")]))
         [CallCreateAccount
            (Some {| ID := 0; FirstName := "A"; LastName := "B"; Number := 56789;
                     Balance := 0; CreatedAt := 1700000000;
                     EncryptedPassword := sample_hash "salt" "pw1" |})]).
Proof. vm_compute. reflexivity. Qed.

(** Logging in with the number and the password answers 200 with the token
    of the account; a wrong password answers 400. *)
Example scenario_login :
  serve RouteLogin (request "POST" None None (login_body 56789 "pw1"))
    (initial created_store)
  = Val tt
      (mkState created_store
         (json_response 200
            (json.Object [("number", jint 56789);
                          ("token", json.Str (token_text "s3cret" 56789))]))
         [CallGetAccountByNumber 56789])
  /\ serve RouteLogin (request "POST" None None (login_body 56789 "wrong"))
       (initial created_store)
     = Val tt (error_response 400 "failed to login"
                 (mkState created_store [] [CallGetAccountByNumber 56789])).
Proof. split; vm_compute; reflexivity. Qed.

(** With the token in the header the account is fetched; without the
    header, with a token that is not one, with the id of no account, and
    with the token of another account, the answer is the denial. *)
Example scenario_gate :
  let token := token_text "s3cret" 56789 in
  serve RouteAccountID (request "GET" (Some token) (Some "1") EmptyString)
    (initial created_store)
  = Val tt
      (mkState created_store
         (json_response 200
            (json.Object [("id", jint 1); ("firstName", json.Str "A");
                          ("lastName", json.Str "B"); ("number", jint 56789);
                          ("balance", jint 0);
                          ("createdat", json.Str "1700000000")]))
         [CallGetAccountByID 1; CallGetAccountByID 1])
  /\ serve RouteAccountID (request "GET" None (Some "1") EmptyString)
       (initial created_store)
     = Val tt (denied (initial created_store))
  /\ serve RouteAccountID (request "GET" (Some "garbage") (Some "1") EmptyString)
       (initial created_store)
     = Val tt (denied (initial created_store))
  /\ serve RouteAccountID (request "GET" (Some token) (Some "2") EmptyString)
       (initial created_store)
     = Val tt (denied (mkState created_store [] [CallGetAccountByID 2]))
  /\ serve RouteAccountID
       (request "GET" (Some (token_text "s3cret" 11111)) (Some "1") EmptyString)
       (initial created_store)
     = Val tt (denied (mkState created_store [] [CallGetAccountByID 1])).
Proof.
  intros token. subst token.
  split; [vm_compute; reflexivity|]. split; [vm_compute; reflexivity|].
  split; [vm_compute; reflexivity|]. split; vm_compute; reflexivity.
Qed.

(** C1, at the failing input.  The token of empty claims signed under the
    server's secret binds no account number.  It passes the first four
    checks of the gate on the id of a stored account; the fifth, an
    unchecked type assertion on the claim, then panics: no response is
    written, neither the denial nor any other, and the handler is not
    run. *)
Theorem gate_panics_without_number :
  let token := "eyJhbGciOiJIUzI1NiIsInR5cCI6IkpXVCJ9.e30"
               +:+ ".JXJ_RWHq_C9ZJbkrRGRg7NxSFm2hnVu5ToEa8Nx6OiU" in
  jwt.SignedString (jwt.NewWithClaims jwt.SigningMethodHS256 []) "s3cret" = Ok token
  /\ serve RouteAccountID (request "GET" (Some token) (Some "1") EmptyString)
       (initial created_store)
     = Panic "interface conversion: interface {} is nil, not float64"
         (mkState created_store [] [CallGetAccountByID 1]).
Proof. intros token. subst token. split; vm_compute; reflexivity. Qed.

(** ** The further properties at the sample data *)

Lemma sample_store_in_order : wf_store sample_store.
Proof.
  split.
  - simpl. apply List.NoDup_cons; [intros []|apply List.NoDup_nil].
  - intros a [<-|[]]. reflexivity.
Qed.

Lemma getID_decimal_witness :
  let r := request "GET" None (Some "42") EmptyString in
  strconv.in_int64 42 = true
  /\ http.URLParams r !! "id" = Some (strconv.FormatInt 42)
  /\ getID r = Ok 42.
Proof.
  intros r.
  assert (Hid : strconv.in_int64 42 = true) by reflexivity.
  assert (Hparam : http.URLParams r !! "id" = Some (strconv.FormatInt 42))
    by (vm_compute; reflexivity).
  split; [exact Hid|]. split; [exact Hparam|].
  exact (getID_decimal r 42 Hid Hparam).
Defined.

Lemma GetAccountByID_finds_witness :
  let a := sample_account 56789 in
  wf_store sample_store /\ In a (rows sample_store)
  /\ fault sample_store (QSelectByID (ID a)) = None
  /\ pg_GetAccountByID (ID a) sample_store = Val (Ok a) sample_store.
Proof.
  intros a.
  assert (Hin : In a (rows sample_store)) by (left; reflexivity).
  assert (Hfault : fault sample_store (QSelectByID (ID a)) = None) by reflexivity.
  split; [exact sample_store_in_order|]. split; [exact Hin|]. split; [exact Hfault|].
  exact (GetAccountByID_finds sample_store a sample_store_in_order Hin Hfault).
Defined.

Lemma CreateAccount_then_GetAccountByID_witness :
  let a := sample_account 7 in
  wf_store sample_store
  /\ fault sample_store (QInsert a) = None
  /\ fault sample_store (QSelectByID (nextval sample_store)) = None
  /\ exists s',
       pg_CreateAccount (Some a) sample_store = Val None s'
       /\ pg_GetAccountByID (nextval sample_store) s'
          = Val (Ok (with_ID (nextval sample_store) a)) s'
       /\ wf_store s'.
Proof.
  intros a.
  split; [exact sample_store_in_order|]. split; [reflexivity|]. split; [reflexivity|].
  exact (CreateAccount_then_GetAccountByID sample_store a sample_store_in_order
           eq_refl eq_refl).
Defined.

Lemma DeleteAccount_then_GetAccountByID_witness :
  fault sample_store (QDelete 1) = None
  /\ exists s',
       pg_DeleteAccount 1 sample_store = Val None s'
       /\ (fault sample_store (QSelectByID 1) = None ->
           pg_GetAccountByID 1 s'
           = Val (Err ("Account " +:+ strconv.FormatInt 1 +:+ " not found")) s')
       /\ (forall id', id' <> 1 ->
           match pg_GetAccountByID id' sample_store, pg_GetAccountByID id' s' with
           | Val res _, Val res' _ => res = res'
           | _, _ => False
           end)
       /\ pg_DeleteAccount 1 s' = Val None s'.
Proof.
  split; [reflexivity|].
  exact (DeleteAccount_then_GetAccountByID sample_store 1 eq_refl).
Defined.

Lemma Run_keeps_table_in_order_witness :
  wf_store (store (initial sample_store))
  /\ wf_store (store (state_of
       (Run sample_env 1700000000 123456789 (Some "salt") sample_hash sample_matches
          strconv.FormatInt any_time RouteAccount
          (request "POST" None None create_body) (initial sample_store)))).
Proof.
  split; [exact sample_store_in_order|].
  exact (Run_keeps_table_in_order sample_env 1700000000 123456789 (Some "salt")
           sample_hash sample_matches strconv.FormatInt any_time RouteAccount
           (request "POST" None None create_body) (initial sample_store)
           sample_store_in_order).
Defined.

Lemma only_create_and_delete_write_witness :
  let r := request "POST" None None create_body in
  let st := initial empty_store in
  store (state_of
    (Run sample_env 1700000000 123456789 (Some "salt") sample_hash sample_matches
       strconv.FormatInt any_time RouteAccount r st))
  <> store st
  /\ ((RouteAccount = RouteAccount /\ http.Method r = "POST")
      \/ ((RouteAccount = RouteAccountID \/ RouteAccount = RouteTransfer)
          /\ http.Method r = "DELETE")).
Proof.
  intros r st.
  assert (Hwrites : store (state_of
            (Run sample_env 1700000000 123456789 (Some "salt") sample_hash
               sample_matches strconv.FormatInt any_time RouteAccount r st))
          <> store st).
  { pose proof scenario_create as Hrun. unfold serve in Hrun. fold r st in Hrun.
    rewrite Hrun. intros Heq. apply (f_equal rows) in Heq. discriminate Heq. }
  split; [exact Hwrites|].
  exact (only_create_and_delete_write sample_env 1700000000 123456789 (Some "salt")
           sample_hash sample_matches strconv.FormatInt any_time RouteAccount r st
           Hwrites).
Defined.

Lemma gated_GET_shows_own_account_witness :
  let r := request "GET" (Some (token_text "s3cret" 56789)) (Some "1") EmptyString in
  let st := initial created_store in
  exists st',
    http.Method r = "GET" /\ w st = []
    /\ Run sample_env 1700000000 123456789 (Some "salt") sample_hash sample_matches
         strconv.FormatInt any_time RouteAccountID r st = Val tt st'
    /\ http.status_of (w st') = Some http.StatusOK
    /\ exists token account id,
         validateJWT sample_env any_time (http.Header_Get r "x-jwt-token") = Ok token
         /\ getID r = Ok id
         /\ In account (rows (store st)) /\ ID account = id
         /\ bound_number token = Some (Number account)
         /\ w st' = json_response http.StatusOK (Account_json strconv.FormatInt account)
         /\ store st' = store st.
Proof.
  intros r st.
  pose proof (proj1 scenario_gate) as Hrun. unfold serve in Hrun. fold r st in Hrun.
  eexists. split; [reflexivity|]. split; [reflexivity|]. split; [exact Hrun|].
  split; [reflexivity|].
  exact (gated_GET_shows_own_account sample_env 1700000000 123456789 (Some "salt")
           sample_hash sample_matches strconv.FormatInt any_time r st _
           eq_refl eq_refl Hrun eq_refl).
Defined.

Lemma login_answers_200_only_for_matching_password_witness :
  let r := request "POST" None None (login_body 56789 "pw1") in
  let st := initial created_store in
  exists st',
    w st = []
    /\ Run sample_env 1700000000 123456789 (Some "salt") sample_hash sample_matches
         strconv.FormatInt any_time RouteLogin r st = Val tt st'
    /\ http.status_of (w st') = Some http.StatusOK
    /\ exists req acc,
         http.Method r = "POST"
         /\ decode_LoginRequest (http.Body r) = Ok req
         /\ In acc (rows (store st)) /\ Number acc = lr_Number req
         /\ ValidatePW sample_matches acc (lr_Password req) = true
         /\ w st' = json_response http.StatusOK
                      (LoginReponse_json
                         {| resp_Number := Number acc;
                            resp_Token := token_text (Getenv sample_env "JWT_SECRET")
                                            (Number acc) |})
         /\ store st' = store st.
Proof.
  intros r st.
  pose proof (proj1 scenario_login) as Hrun. unfold serve in Hrun. fold r st in Hrun.
  eexists. split; [reflexivity|]. split; [exact Hrun|]. split; [reflexivity|].
  exact (login_answers_200_only_for_matching_password sample_env 1700000000 123456789
           (Some "salt") sample_hash sample_matches strconv.FormatInt any_time r st _
           eq_refl Hrun eq_refl).
Defined.

Lemma issued_token_is_denied_elsewhere_witness :
  let acc := sample_account 56789 in
  let r := request "GET" None None EmptyString in
  wf_store sample_store /\ In acc (rows sample_store)
  /\ fault sample_store (QSelectByID (ID acc)) = None
  /\ - 2 ^ 53 <= 11111 <= 2 ^ 53
  /\ strconv.in_int64 (ID acc) = true
  /\ Number acc <> 11111
  /\ Run sample_env 1700000000 123456789 (Some "salt") sample_hash sample_matches
       strconv.FormatInt any_time RouteAccountID
       (with_token (token_text (Getenv sample_env "JWT_SECRET") 11111)
                   (strconv.FormatInt (ID acc)) r)
       (initial sample_store)
     = Val tt (mkState sample_store
                 (json_response http.StatusForbidden
                    (APIError_json {| Error := "Permission denied" |}))
                 [CallGetAccountByID (ID acc)]).
Proof.
  intros acc r.
  assert (Hin : In acc (rows sample_store)) by (left; reflexivity).
  assert (Hrange : - 2 ^ 53 <= 11111 <= 2 ^ 53) by lia.
  assert (Hne : Number acc <> 11111) by discriminate.
  split; [exact sample_store_in_order|]. split; [exact Hin|]. split; [reflexivity|].
  split; [exact Hrange|]. split; [reflexivity|]. split; [exact Hne|].
  exact (issued_token_is_denied_elsewhere sample_env 1700000000 123456789 (Some "salt")
           sample_hash sample_matches strconv.FormatInt any_time sample_store acc 11111 r
           sample_store_in_order Hin eq_refl Hrange eq_refl Hne).
Defined.

Lemma transfer_DELETE_reaches_no_account_witness :
  let r := request "DELETE" None None EmptyString in
  http.Method r = "DELETE"
  /\ http.URLParams r !! "id" = None
  /\ Run sample_env 1700000000 123456789 (Some "salt") sample_hash sample_matches
       strconv.FormatInt any_time RouteTransfer r (initial sample_store)
     = Val tt (error_response http.StatusBadRequest "invalid ID provided "
                 (initial sample_store)).
Proof.
  intros r.
  assert (Hparam : http.URLParams r !! "id" = None) by (vm_compute; reflexivity).
  split; [reflexivity|]. split; [exact Hparam|].
  exact (transfer_DELETE_reaches_no_account sample_env 1700000000 123456789
           (Some "salt") sample_hash sample_matches strconv.FormatInt any_time r
           (initial sample_store) eq_refl Hparam).
Defined.

Lemma unserved_method_is_an_error_witness :
  let r := request "PUT" None None EmptyString in
  let st := initial sample_store in
  http.Method r <> "GET" /\ http.Method r <> "POST"
  /\ Run sample_env 1700000000 123456789 (Some "salt") sample_hash sample_matches
       strconv.FormatInt any_time RouteAccount r st
     = Val tt (error_response http.StatusBadRequest
                 ("methods not allowed " +:+ http.Method r) st)
  /\ (http.Method r <> "DELETE" ->
      Run sample_env 1700000000 123456789 (Some "salt") sample_hash sample_matches
        strconv.FormatInt any_time RouteTransfer r st
      = Val tt (error_response http.StatusBadRequest
                  ("methods not allowed " +:+ http.Method r) st)).
Proof.
  intros r st.
  assert (Hget : http.Method r <> "GET") by discriminate.
  assert (Hpost : http.Method r <> "POST") by discriminate.
  split; [exact Hget|]. split; [exact Hpost|].
  exact (unserved_method_is_an_error sample_env 1700000000 123456789 (Some "salt")
           sample_hash sample_matches strconv.FormatInt any_time r st Hget Hpost).
Defined.

Lemma issued_token_fetches_account_witness :
  let acc := sample_account 56789 in
  let r := request "GET" None None EmptyString in
  wf_store sample_store /\ In acc (rows sample_store)
  /\ fault sample_store (QSelectByID (ID acc)) = None
  /\ - 2 ^ 53 <= Number acc <= 2 ^ 53
  /\ strconv.in_int64 (ID acc) = true
  /\ http.Method r = "GET"
  /\ Run sample_env 1700000000 123456789 (Some "salt") sample_hash sample_matches
       strconv.FormatInt any_time RouteAccountID
       (with_token (token_text (Getenv sample_env "JWT_SECRET") (Number acc))
                   (strconv.FormatInt (ID acc)) r)
       (initial sample_store)
     = Val tt (mkState sample_store
                 (json_response http.StatusOK (Account_json strconv.FormatInt acc))
                 [CallGetAccountByID (ID acc); CallGetAccountByID (ID acc)]).
Proof.
  intros acc r.
  assert (Hin : In acc (rows sample_store)) by (left; reflexivity).
  assert (Hrange : - 2 ^ 53 <= Number acc <= 2 ^ 53) by (simpl; lia).
  split; [exact sample_store_in_order|]. split; [exact Hin|]. split; [reflexivity|].
  split; [exact Hrange|]. split; [reflexivity|]. split; [reflexivity|].
  exact (issued_token_fetches_account sample_env 1700000000 123456789 (Some "salt")
           sample_hash sample_matches strconv.FormatInt any_time sample_store acc r
           sample_store_in_order Hin eq_refl Hrange eq_refl eq_refl).
Defined.

Lemma validateJWT_accepts_only_signed_tokens_witness :
  let tokenStr := token_text (Getenv sample_env "JWT_SECRET") 56789 in
  exists token,
    validateJWT sample_env any_time tokenStr = Ok token
    /\ exists p0 p1 p2 alg hash claimBytes claimsJSON,
         strings.Split tokenStr "." = [p0; p1; p2]
         /\ jwt.Method token = jwt.SigningMethodHMAC alg hash
         /\ jwt.DecodeSegment p2
            = Ok (hmac.mac hash (Getenv sample_env "JWT_SECRET") (p0 +:+ "." +:+ p1))
         /\ jwt.DecodeSegment p1 = Ok claimBytes
         /\ json.Decode claimBytes = Some claimsJSON
         /\ gojson.to_map claimsJSON = Ok (jwt.Claims token)
         /\ jwt.MapClaims_Valid any_time (jwt.Claims token) = Ok tt
         /\ jwt.Valid token = true /\ jwt.Signature token = p2.
Proof.
  intros tokenStr.
  assert (Hrange : - 2 ^ 53 <= 56789 <= 2 ^ 53) by lia.
  destruct (validateJWT_token_text sample_env any_time 56789 Hrange)
    as [token [f [Hvalid _]]].
  exists token. split; [exact Hvalid|].
  exact (validateJWT_accepts_only_signed_tokens sample_env any_time tokenStr token
           Hvalid).
Defined.

Lemma create_stores_and_answers_witness :
  let r := request "POST" None None create_body in
  let st := initial empty_store in
  let req := {| car_FirstName := "A"; car_LastName := "B"; car_Password := "pw1" |} in
  let a := {| ID := 0; FirstName := car_FirstName req; LastName := car_LastName req;
              Number := 123456789 mod 100000; Balance := 0; CreatedAt := 1700000000;
              EncryptedPassword := sample_hash "salt" (car_Password req) |} in
  http.Method r = "POST"
  /\ decode_CreateAccountRequest (http.Body r) = Ok req
  /\ (String.length (car_Password req) <= 72)%nat
  /\ Some "salt" = Some "salt"
  /\ (forall a, fault (store st) (QInsert a) = None)
  /\ Run sample_env 1700000000 123456789 (Some "salt") sample_hash sample_matches
       strconv.FormatInt any_time RouteAccount r st
     = Val tt
         (mkState {| rows := rows (store st) ++ [with_ID (nextval (store st)) a];
                     nextval := nextval (store st) + 1;
                     fault := fault (store st) |}
            (w st ++ json_response http.StatusOK (Account_json strconv.FormatInt a))
            (calls st ++ [CallCreateAccount (Some a)]))
  /\ 0 <= Number a < 100000
  /\ Account_json strconv.FormatInt a
     = json.Object [("id", jint 0);
                    ("firstName", json.Str (car_FirstName req));
                    ("lastName", json.Str (car_LastName req));
                    ("number", jint (123456789 mod 100000));
                    ("balance", jint 0);
                    ("createdat", json.Str (strconv.FormatInt 1700000000))].
Proof.
  intros r st req a.
  assert (Hdec : decode_CreateAccountRequest (http.Body r) = Ok req)
    by (vm_compute; reflexivity).
  assert (Hlen : (String.length (car_Password req) <= 72)%nat) by (simpl; lia).
  assert (Hfault : forall a, fault (store st) (QInsert a) = None)
    by (intros b; reflexivity).
  split; [reflexivity|]. split; [exact Hdec|]. split; [exact Hlen|].
  split; [reflexivity|]. split; [exact Hfault|].
  exact (create_stores_and_answers sample_env 1700000000 123456789 (Some "salt")
           sample_hash sample_matches strconv.FormatInt any_time r st req "salt"
           eq_refl Hdec Hlen eq_refl Hfault).
Defined.

Lemma transfer_round_trip_witness :
  let t := {| ToAccount := 7; Amount := 250 |} in
  let r := request "POST" None None transfer_body in
  let st := initial sample_store in
  strconv.in_int64 (ToAccount t) = true
  /\ strconv.in_int64 (Amount t) = true
  /\ http.Method r = "POST"
  /\ http.Body r = json.encode (TransferRequest_json t)
  /\ decode_TransferRequest (http.Body r) = Ok t
  /\ Run sample_env 1700000000 123456789 (Some "salt") sample_hash sample_matches
       strconv.FormatInt any_time RouteTransfer r st
     = Val tt (mkState (store st)
                 (w st ++ [http.HeaderAdd "Content-Type" "application/json";
                           http.WriteHeader 200;
                           http.Write (http.Body r +:+ chr "010")])
                 (calls st)).
Proof.
  intros t r st.
  assert (Hbody : http.Body r = json.encode (TransferRequest_json t))
    by (vm_compute; reflexivity).
  split; [reflexivity|]. split; [reflexivity|]. split; [reflexivity|].
  split; [exact Hbody|].
  exact (transfer_round_trip sample_env 1700000000 123456789 (Some "salt")
           sample_hash sample_matches strconv.FormatInt any_time r t st
           eq_refl eq_refl eq_refl Hbody).
Defined.

Lemma gated_DELETE_removes_own_account_witness :
  let acc := sample_account 56789 in
  let r := with_token (token_text (Getenv sample_env "JWT_SECRET") 56789)
                      (strconv.FormatInt (ID acc))
                      (request "DELETE" None None EmptyString) in
  let st := initial sample_store in
  let st' := mkState {| rows := []; nextval := 2; fault := fun _ => None |}
               (json_response http.StatusOK (json.Object [("deleted:", jint 1)]))
               [CallGetAccountByID 1; CallDeleteAccount 1] in
  http.Method r = "DELETE" /\ w st = []
  /\ Run sample_env 1700000000 123456789 (Some "salt") sample_hash sample_matches
       strconv.FormatInt any_time RouteAccountID r st = Val tt st'
  /\ http.status_of (w st') = Some http.StatusOK
  /\ exists token account id,
       validateJWT sample_env any_time (http.Header_Get r "x-jwt-token") = Ok token
       /\ getID r = Ok id
       /\ In account (rows (store st)) /\ ID account = id
       /\ bound_number token = Some (Number account)
       /\ rows (store st')
          = List.filter (fun a => negb (ID a =? id)) (rows (store st))
       /\ (forall b, In b (rows (store st'))
                     <-> In b (rows (store st)) /\ ID b <> id).
Proof.
  intros acc r st st'.
  assert (Hin : In acc (rows sample_store)) by (left; reflexivity).
  assert (Hrange : - 2 ^ 53 <= 56789 <= 2 ^ 53) by lia.
  assert (Hrun : Run sample_env 1700000000 123456789 (Some "salt") sample_hash
                   sample_matches strconv.FormatInt any_time RouteAccountID r st
                 = Val tt st').
  { unfold r, st.
    rewrite (gate_with_issued_token sample_env 1700000000 123456789 (Some "salt")
               sample_hash sample_matches strconv.FormatInt any_time sample_store acc
               56789 (request "DELETE" None None EmptyString)
               (proj1 sample_store_in_order) Hin eq_refl Hrange eq_refl).
    generalize (token_text (Getenv sample_env "JWT_SECRET") 56789). intros token.
    vm_compute. reflexivity. }
  split; [reflexivity|]. split; [reflexivity|]. split; [exact Hrun|].
  split; [reflexivity|].
  exact (gated_DELETE_removes_own_account sample_env 1700000000 123456789 (Some "salt")
           sample_hash sample_matches strconv.FormatInt any_time r st st'
           eq_refl eq_refl Hrun eq_refl).
Defined.

Lemma GetAccountByNumber_first_witness :
  let a := with_ID 2 (sample_account 56789) in
  pg_GetAccountByNumber 56789 twin_store = Val (Ok a) twin_store
  /\ rows twin_store = [sample_account 11111] ++ a :: [with_ID 3 (sample_account 56789)]
  /\ twin_store = twin_store
  /\ exists before after,
       rows twin_store = before ++ a :: after
       /\ Number a = 56789
       /\ forall b, In b before -> Number b <> 56789.
Proof.
  intros a.
  assert (Hget : pg_GetAccountByNumber 56789 twin_store = Val (Ok a) twin_store)
    by reflexivity.
  split; [exact Hget|]. split; [reflexivity|].
  exact (GetAccountByNumber_first twin_store 56789 a twin_store Hget).
Defined.

Lemma only_login_reads_the_hash_witness :
  let r := request "GET" None None EmptyString in
  RouteAccount <> RouteLogin
  /\ same_shown sample_store (rehashed "$2a$10$other" sample_store)
  /\ same_answer
       (Run sample_env 1700000000 123456789 (Some "salt") sample_hash sample_matches
          strconv.FormatInt any_time RouteAccount r
          (mkState sample_store [] []))
       (Run sample_env 1700000000 123456789 (Some "salt") sample_hash sample_matches
          strconv.FormatInt any_time RouteAccount r
          (mkState (rehashed "$2a$10$other" sample_store) [] [])).
Proof.
  intros r.
  assert (Hrt : RouteAccount <> RouteLogin) by discriminate.
  assert (Hsame : same_shown sample_store (rehashed "$2a$10$other" sample_store)).
  { split; [reflexivity|]. split; [reflexivity|]. intros q. reflexivity. }
  split; [exact Hrt|]. split; [exact Hsame|].
  exact (only_login_reads_the_hash sample_env 1700000000 123456789 (Some "salt")
           sample_hash sample_matches strconv.FormatInt any_time RouteAccount r
           sample_store (rehashed "$2a$10$other" sample_store) [] [] Hrt Hsame).
Defined.

Lemma seeded_account_logs_in_witness :
  let r := request "POST" None None (login_body 56789 "pw1") in
  (String.length "pw1" <= 72)%nat
  /\ Some "salt" = Some "salt"
  /\ sample_matches (sample_hash "salt" "pw1") "pw1" = true
  /\ (forall q, fault empty_store q = None)
  /\ (forall b, In b (rows empty_store) -> Number b <> 123456789 mod 100000)
  /\ http.Method r = "POST"
  /\ decode_LoginRequest (http.Body r)
     = Ok {| lr_Number := 123456789 mod 100000; lr_Password := "pw1" |}
  /\ exists a s',
       seedAccount 1700000000 123456789 (Some "salt") sample_hash "Obl" "gg" "pw1"
         (initial empty_store)
       = Val (Ok a) (mkState s' [] [CallCreateAccount (Some a)])
       /\ ID a = 0 /\ Number a = 123456789 mod 100000
       /\ rows s' = rows empty_store ++ [with_ID (nextval empty_store) a]
       /\ Run sample_env 1700000000 123456789 (Some "salt") sample_hash sample_matches
            strconv.FormatInt any_time RouteLogin r (initial s')
          = Val tt
              (mkState s'
                 (json_response http.StatusOK
                    (LoginReponse_json
                       {| resp_Number := 123456789 mod 100000;
                          resp_Token := token_text (Getenv sample_env "JWT_SECRET")
                                          (123456789 mod 100000) |}))
                 [CallGetAccountByNumber (123456789 mod 100000)]).
Proof.
  intros r.
  assert (Hlen : (String.length "pw1" <= 72)%nat) by (simpl; lia).
  assert (Hpw : sample_matches (sample_hash "salt" "pw1") "pw1" = true)
    by (vm_compute; reflexivity).
  assert (Hfault : forall q, fault empty_store q = None) by (intros q; reflexivity).
  assert (Hfree : forall b, In b (rows empty_store) ->
                            Number b <> 123456789 mod 100000) by (intros b []).
  assert (Hbody : decode_LoginRequest (http.Body r)
                  = Ok {| lr_Number := 123456789 mod 100000; lr_Password := "pw1" |})
    by (vm_compute; reflexivity).
  split; [exact Hlen|]. split; [reflexivity|]. split; [exact Hpw|].
  split; [exact Hfault|]. split; [exact Hfree|]. split; [reflexivity|].
  split; [exact Hbody|].
  exact (seeded_account_logs_in sample_env 1700000000 123456789 (Some "salt")
           sample_hash sample_matches strconv.FormatInt any_time empty_store
           "Obl" "gg" "pw1" "salt" r Hlen eq_refl Hpw Hfault Hfree eq_refl Hbody).
Defined.
